(** * Toronto housing price predictor: training pipeline and prediction service

    A shallow embedding of [train_models.py] (supervised-dataset
    construction and chronological split) and of [api/predict.py] (the
    prediction request handler), with the properties the specification
    states about them.

    Conventions.
    - A Python [str] is a [string]; [str.lower] acts on the ASCII letters.
    - A pandas DataFrame is a list of column labels with their dtypes and a
      list of rows; a row maps a column label to its cell.  The missing
      values [NaN], [None] and [NaT] are the one cell [NA].
    - Python exceptions are values of [exn]; code that may raise returns a
      [result].
    - Numbers of the indicator table are of an abstract type; the
      arithmetic of the prediction service is stated over an interface
      with two instances, IEEE binary64 (what the interpreter runs) and
      exact rationals (the same expression without rounding).  What the
      service computes is stated in binary64, each finite number read as
      the rational it stands for. *)

From Stdlib Require Import ZArith QArith Qround Qabs Qpower Lqa.
From Stdlib Require Import String Ascii List Lia.
From Stdlib Require Import Uint63 PrimFloat FloatOps FloatAxioms SpecFloat.
From stdpp Require Import base option list sorting gmap strings pretty.

Local Open Scope string_scope.
Local Open Scope Z_scope.

(** ** Python values shared by both programs *)

Module Py.

(** The exceptions the two programs can meet. *)
Inductive exn : Type :=
  | ValueError (msg : string)
  | KeyError (key : string)
  | IndexError
  | TypeError
  | OtherError (msg : string).

Inductive result (T : Type) : Type :=
  | Ok (v : T)
  | Raise (e : exn).
Arguments Ok {T} v.
Arguments Raise {T} e.

Definition bind {T U : Type} (m : result T) (k : T -> result U) : result U :=
  match m with
  | Ok v => k v
  | Raise e => Raise e
  end.

(** [str.lower] on one character and on a string.  Only the ASCII
    letters are mapped: no other character has one of the letters of
    ["true"], the one text a lowered string is compared with, as its
    lower case. *)
Definition lower_ascii (c : ascii) : ascii :=
  let n := nat_of_ascii c in
  if ((65 <=? n)%nat && (n <=? 90)%nat)%bool then ascii_of_nat (n + 32) else c.

Fixpoint lower (s : string) : string :=
  match s with
  | EmptyString => EmptyString
  | String c s' => String (lower_ascii c) (lower s')
  end.

(** [str.startswith]. *)
Definition startswith (p s : string) : bool := String.prefix p s.

(** [x in l] for a list of strings. *)
Definition str_in (x : string) (l : list string) : bool :=
  existsb (String.eqb x) l.

(** [x in l] for a list of integers. *)
Definition int_in (x : Z) (l : list Z) : bool :=
  existsb (Z.eqb x) l.

End Py.

Export Py.

#[global] Instance result_bind : MBind Py.result := fun _ _ k m => Py.bind m k.
#[global] Instance result_ret : MRet Py.result := fun _ v => Py.Ok v.

(** ** DataFrames *)

Module Pandas.

Inductive dtype : Type := float64 | int64 | bool_ | object_ | datetime64.

(** [np.number] covers the integer and floating dtypes. *)
Definition is_number (d : dtype) : bool :=
  match d with
  | float64 | int64 => true
  | _ => false
  end.

Section Frames.
Context {A : Type}.

Inductive cell : Type :=
  | Num (x : A)
  | Str (s : string)
  | Date (t : Z)
  | NA.

Definition isna (c : cell) : bool :=
  match c with
  | NA => true
  | _ => false
  end.

Definition row : Type := gmap string cell.

(** The cell of a row under a label; a label the row lacks reads as
    missing. *)
Definition at_ (r : row) (c : string) : cell := default NA (r !! c).

Record Series : Type := { sdtype : dtype; svalues : list cell }.

Record DataFrame : Type :=
  { columns : list (string * dtype); rows : list row }.

Definition names (df : DataFrame) : list string := map fst (columns df).

Definition dtype_of (df : DataFrame) (c : string) : option dtype :=
  snd <$> List.find (fun p => String.eqb (fst p) c) (columns df).

Definition len (df : DataFrame) : nat := length (rows df).

(** [df[c]], a KeyError when the label is not a column. *)
Definition getitem (df : DataFrame) (c : string) : result Series :=
  match dtype_of df c with
  | Some d => Ok {| sdtype := d; svalues := map (fun r => at_ r c) (rows df) |}
  | None => Raise (KeyError c)
  end.

(** [df[c] = s]: an existing column is overwritten in place, a new one
    is appended. *)
Definition set_dtype (c : string) (d : dtype) (cols : list (string * dtype))
  : list (string * dtype) :=
  if str_in c (map fst cols)
  then map (fun p => if String.eqb (fst p) c then (c, d) else p) cols
  else cols ++ [(c, d)].

Definition setitem (df : DataFrame) (c : string) (s : Series) : DataFrame :=
  {| columns := set_dtype c (sdtype s) (columns df);
     rows := zip_with (fun r v => <[c := v]> r) (rows df) (svalues s) |}.

(** [df[cs]] for a list of labels that are columns of [df]. *)
Definition select (df : DataFrame) (cs : list string) : DataFrame :=
  {| columns := omap (fun c => pair c <$> dtype_of df c) cs;
     rows := rows df |}.

(** [Series.shift(periods)]: positive periods move values down,
    negative ones up; vacated places are missing. *)
Definition shift_values (periods : Z) (vs : list cell) : list cell :=
  let n := length vs in
  if periods <? 0
  then let k := Z.to_nat (- periods) in
       drop k vs ++ replicate (Nat.min k n) NA
  else let k := Z.to_nat periods in
       replicate (Nat.min k n) NA ++ take (n - k) vs.

Definition shift_dtype (periods : Z) (d : dtype) : dtype :=
  if periods =? 0 then d
  else match d with
       | int64 => float64
       | bool_ => object_
       | _ => d
       end.

Definition shift (periods : Z) (s : Series) : Series :=
  {| sdtype := shift_dtype periods (sdtype s);
     svalues := shift_values periods (svalues s) |}.

(** [df.dropna(subset=[c])]. *)
Definition dropna (df : DataFrame) (c : string) : DataFrame :=
  {| columns := columns df;
     rows := List.filter (fun r => negb (isna (at_ r c))) (rows df) |}.

(** [df[cs].select_dtypes(include=[np.number]).columns.tolist()]. *)
Definition select_dtypes_number (df : DataFrame) (cs : list string)
  : list string :=
  List.filter
    (fun c => match dtype_of df c with
              | Some d => is_number d
              | None => false
              end) cs.

(** [df.iloc[:k]] and [df.iloc[k:]]. *)
Definition iloc_to (k : nat) (df : DataFrame) : DataFrame :=
  {| columns := columns df; rows := take k (rows df) |}.
Definition iloc_from (k : nat) (df : DataFrame) : DataFrame :=
  {| columns := columns df; rows := drop k (rows df) |}.

End Frames.

Arguments cell : clear implicits.
Arguments row : clear implicits.
Arguments Series : clear implicits.
Arguments DataFrame : clear implicits.

End Pandas.

Export Pandas.

(** ** train_models.py *)

Module TrainModels.

(** Prediction horizons in months. *)
Definition HORIZONS : list Z := [1; 2; 3; 6; 12; 24; 36].

Definition TARGET_COLUMN : string := "housing_price_index_value".

Section Training.
Context {A : Type}.

(** [pd.to_datetime(..., errors='coerce')] on one string: the timestamp,
    or nothing where pandas yields [NaT]. *)
Variable to_datetime : string -> option Z.

(** The timestamp of a cell of a datetime column, [NaT] as [None]. *)
Definition timestamp (c : cell A) : option Z :=
  match c with
  | Date t => Some t
  | _ => None
  end.

(** The sort key of a row under a datetime column. *)
Definition date_key (c : string) (r : row A) : option Z := timestamp (at_ r c).

(** [a < b] on two dates; a comparison with [NaT] is false. *)
Definition earlier (a b : cell A) : Prop :=
  match timestamp a, timestamp b with
  | Some x, Some y => x < y
  | _, _ => False
  end.

(** Ascending order of [sort_values], missing keys last. *)
Definition key_le (a b : option Z) : bool :=
  match a, b with
  | Some x, Some y => x <=? y
  | _, None => true
  | None, Some _ => false
  end.

Fixpoint insert_sorted (c : string) (r : row A) (l : list (row A)) : list (row A) :=
  match l with
  | [] => [r]
  | r' :: l' =>
      if key_le (date_key c r) (date_key c r')
      then r :: l
      else r' :: insert_sorted c r l'
  end.

(** [df.sort_values(c).reset_index(drop=True)] for a datetime column.
    Rows of equal key, whose order pandas leaves open, stay in the order
    they had. *)
Definition sort_values (df : DataFrame A) (c : string) : DataFrame A :=
  {| columns := columns df;
     rows := foldr (insert_sorted c) [] (rows df) |}.

(** One cell of [pd.to_datetime(df['ref_date'] + '-01', errors='coerce')]:
    string concatenation is defined on strings and keeps a missing value
    missing; on any other cell it is a type error. *)
Definition parse_ref_date (c : cell A) : result (cell A) :=
  match c with
  | Str s =>
      Ok (match to_datetime (s ++ "-01") with
          | Some t => Date t
          | None => NA
          end)
  | NA => Ok NA
  | _ => Raise TypeError
  end.

(** [fetch_data_from_supabase], from the DataFrame built of the rows the
    store returned: [ref_date] parsed, rows sorted by it. *)
Definition fetch_data_from_supabase (raw : DataFrame A) : result (DataFrame A) :=
  s ← getitem raw "ref_date";
  parsed ← mapM parse_ref_date (svalues s);
  let df := setitem raw "ref_date" {| sdtype := datetime64; svalues := parsed |} in
  Ok (sort_values df "ref_date").

(** [build_supervised_dataset]: features [X], target [y] and the aligned
    [ref_date] values [dates]. *)
Definition build_supervised_dataset
  (df : DataFrame A) (target_col : string) (horizon : Z)
  : result (DataFrame A * list (cell A) * list (cell A)) :=
  let target_name := "target_h" ++ pretty horizon in
  t ← getitem df target_col;
  let df_work := setitem df target_name (shift (- horizon) t) in
  let df_work := dropna df_work target_name in
  let exclude_cols :=
    "ref_date" :: List.filter (startswith "target_") (names df_work) in
  let feature_cols :=
    List.filter (fun col => negb (str_in col exclude_cols)) (names df_work) in
  let numeric_features := select_dtypes_number df_work feature_cols in
  let X := select df_work numeric_features in
  y ← getitem df_work target_name;
  dates ← getitem df_work "ref_date";
  Ok (X, svalues y, svalues dates).

(** [int(len(X) * 0.8)] read in exact arithmetic. *)
Definition split_idx (n : nat) : nat :=
  Z.to_nat (Qfloor (inject_Z (Z.of_nat n) * (8 # 10))).

Record Split : Type :=
  { X_train : DataFrame A;
    y_train : list (cell A);
    X_test : DataFrame A;
    y_test : list (cell A);
    dates_test : list (cell A) }.

(** The body of the loop of [main] up to the split: nothing for an empty
    dataset (the horizon is skipped with a warning). *)
Definition time_based_split
  (X : DataFrame A) (y dates : list (cell A)) : option Split :=
  if (len X =? 0)%nat then None
  else
    let k := split_idx (len X) in
    Some {| X_train := iloc_to k X;
            y_train := take k y;
            X_test := iloc_from k X;
            y_test := drop k y;
            dates_test := drop k dates |}.

(** The dates of the training examples, [dates.iloc[:split_idx]]. *)
Definition dates_train (X : DataFrame A) (dates : list (cell A)) : list (cell A) :=
  take (split_idx (len X)) dates.

End Training.

(** [int(n * 0.8)] as the interpreter computes it, in binary64: the
    product is rounded to nearest, then truncated towards zero. *)
Definition int_of_float (f : float) : option Z :=
  match Prim2SF f with
  | S754_zero _ => Some 0
  | S754_finite s m e =>
      let a := Z.shiftl (Z.pos m) e in
      Some (if s then - a else a)
  | _ => None
  end.

Definition split_idx_binary64 (n : nat) : option Z :=
  int_of_float (PrimFloat.mul (PrimFloat.of_uint63 (Uint63.of_Z (Z.of_nat n))) 0x1.999999999999ap-1).

End TrainModels.

(** ** api/predict.py *)

Module Predict.

Definition HORIZONS : list Z := [1; 2; 3; 6; 12; 24; 36].

(** The arithmetic the handler applies to the prediction and to the
    current index value: [-], [/], [*] and the literal [100]. *)
Class Arith (A : Type) : Type :=
  { sub : A -> A -> A;
    div : A -> A -> A;
    mul : A -> A -> A;
    of_int : Z -> A }.

(** IEEE binary64, the arithmetic of [numpy.float64]: a division by zero
    is an infinity or a NaN, not an exception. *)
#[global] Instance binary64 : Arith float :=
  { sub := PrimFloat.sub;
    div := PrimFloat.div;
    mul := PrimFloat.mul;
    of_int := fun z =>
      if z <? 0 then PrimFloat.opp (PrimFloat.of_uint63 (Uint63.of_Z (- z)))
      else PrimFloat.of_uint63 (Uint63.of_Z z) }.

(** Exact rational arithmetic: the same expression without rounding,
    overflow, infinities or NaN.  The service does not compute with it;
    it is the arithmetic of the worked requests in which the computed
    numbers play no part. *)
#[global] Instance exact : Arith Q :=
  { sub := Qminus;
    div := Qdiv;
    mul := Qmult;
    of_int := inject_Z }.

(** [((prediction - current_hpi) / current_hpi) * 100]. *)
Definition pct_change {A : Type} `{Arith A} (prediction current_hpi : A) : A :=
  mul (div (sub prediction current_hpi) current_hpi) (of_int 100).

(** What the process does to the artifact files. *)
Inductive event : Type :=
| PathExists (path : string)
| JoblibLoad (path : string).

(** A JSON object of the store: keys in order, each with its value. *)
Definition record (A : Type) : Type := list (string * cell A).

(** The environment variables and the [toronto_housing] table, its rows
    in ascending [ref_date] order: the answer to
    [order("ref_date", desc=True).limit(n)] is its last [n] rows, the
    latest first. *)
Record Env (A : Type) : Type :=
  { SUPABASE_URL : option string;
    SUPABASE_SERVICE_ROLE_KEY : option string;
    toronto_housing : list (record A) }.
Arguments SUPABASE_URL {A} e.
Arguments SUPABASE_SERVICE_ROLE_KEY {A} e.
Arguments toronto_housing {A} e.

(** The fields of a successful answer; [ref_date] is the cell whose
    [str] is sent. *)
Record Prediction (A : Type) : Type :=
  { horizon_months : Z;
    current_hpi : A;
    predicted_hpi : A;
    percentage_change : A;
    ref_date : cell A;
    historical : option (list (cell A * cell A)) }.
Arguments horizon_months {A} p.
Arguments current_hpi {A} p.
Arguments predicted_hpi {A} p.
Arguments percentage_change {A} p.
Arguments ref_date {A} p.
Arguments historical {A} p.

Inductive Body (A : Type) : Type :=
| Success (data : Prediction A)
| Error (message : string).
Arguments Success {A} data.
Arguments Error {A} message.

Record Response (A : Type) : Type := { status : Z; body : Body A }.
Arguments status {A} r.
Arguments body {A} r.

(** [str(e)]; the texts the interpreter composes are abridged. *)
Definition str_exn (e : exn) : string :=
  match e with
  | ValueError msg => msg
  | KeyError key => "'" ++ key ++ "'"
  | IndexError => "list index out of range"
  | TypeError => "unsupported operand type(s)"
  | OtherError msg => msg
  end.

(** [not s] for an environment variable. *)
Definition unset (v : option string) : bool :=
  match v with
  | None => true
  | Some s => String.eqb s ""
  end.

Section Service.
Context {A : Type} `{Arith A}.

(** The regressor, opaque: its type, [int] on a string, and
    [model.predict(X)[0]]. *)
Variable Model : Type.
Variable py_int : string -> result Z.
Variable predict : Model -> DataFrame A -> result A.

(** The module-level cache [MODELS] and the file operations so far. *)
Record State : Type :=
  { MODELS : gmap Z Model;
    trace : list event }.

(** The state at import: [MODELS = {}]. *)
Definition initial : State := {| MODELS := ∅; trace := [] |}.

(** The path of an artifact below the base directory. *)
Definition model_path (h : Z) : string :=
  "models/xgboost_h" ++ pretty h ++ ".pkl".

(** One turn of the loop of [load_models]; [files] maps the path of each
    artifact that exists to the model [joblib.load] reads from it. *)
Definition load_one (files : gmap string Model) (st : State) (h : Z) : State :=
  let p := model_path h in
  match files !! p with
  | Some m =>
      {| MODELS := <[h := m]> (MODELS st);
         trace := trace st ++ [PathExists p; JoblibLoad p] |}
  | None =>
      {| MODELS := MODELS st; trace := trace st ++ [PathExists p] |}
  end.

(** [load_models]: fills the cache when it is empty, from the artifact
    files that exist. *)
Definition load_models (files : gmap string Model) (st : State) : State :=
  if bool_decide (MODELS st = ∅)
  then foldl (load_one files) st HORIZONS
  else st.

(** [pd.DataFrame(response.data)] for the one record of the answer: a
    column per key, numeric when its value is a number. *)
Definition infer_dtype (c : cell A) : dtype :=
  match c with
  | Num _ => float64
  | Date _ => datetime64
  | _ => object_
  end.

Definition frame_of_record (r : record A) : DataFrame A :=
  {| columns := map (fun p => (fst p, infer_dtype (snd p))) r;
     rows := [list_to_map r] |}.

(** [fetch_latest_data]. *)
Definition fetch_latest_data (env : Env A) : result (DataFrame A) :=
  if (unset (SUPABASE_URL env) || unset (SUPABASE_SERVICE_ROLE_KEY env))%bool
  then Raise (ValueError "Missing Supabase credentials in environment variables")
  else
    match take 1 (reverse (toronto_housing env)) with
    | [] => Raise (ValueError "No data found in toronto_housing table")
    | r :: _ => Ok (frame_of_record r)
    end.

(** [row[key]] on a JSON object. *)
Definition record_get (r : record A) (key : string) : result (cell A) :=
  match List.find (fun p => String.eqb (fst p) key) r with
  | Some p => Ok (snd p)
  | None => Raise (KeyError key)
  end.

(** [fetch_historical_data(months)]: the client cannot be built without
    the credentials. *)
Definition fetch_historical_data (env : Env A) (months : nat)
  : result (list (cell A * cell A)) :=
  if (unset (SUPABASE_URL env) || unset (SUPABASE_SERVICE_ROLE_KEY env))%bool
  then Raise (OtherError "supabase_url is required")
  else
    let data := reverse (take months (reverse (toronto_housing env))) in
    mapM (fun r =>
            d ← record_get r "ref_date";
            h ← record_get r "housing_price_index_value";
            Ok (d, h)) data.

(** [series.iloc[0]]. *)
Definition iloc0 (s : Series A) : result (cell A) :=
  match svalues s with
  | c :: _ => Ok c
  | [] => Raise IndexError
  end.

(** A cell as an operand of the arithmetic. *)
Definition as_number (c : cell A) : result A :=
  match c with
  | Num x => Ok x
  | _ => Raise TypeError
  end.

Definition send_error_response (code : Z) (message : string) : Response A :=
  {| status := code; body := Error message |}.

Definition send_success_response (data : Prediction A) : Response A :=
  {| status := 200; body := Success data |}.

(** [parse_qs(parsed_url.query)]: a key that is present has at least one
    value, the first one and the others. *)
Definition Query : Type := gmap string (string * list string).

(** [int(params.get('horizon', [1])[0])]. *)
Definition get_horizon (params : Query) : result Z :=
  match params !! "horizon" with
  | None => Ok 1
  | Some (s, _) => py_int s
  end.

(** [params.get('include_historical', ['false'])[0].lower() == 'true']. *)
Definition get_include_historical (params : Query) : bool :=
  String.eqb
    (lower (fst (default ("false", []) (params !! "include_historical"))))
    "true".

(** The historical series of the answer, when it is asked for. *)
Definition history (env : Env A) (include_historical : bool)
  : result (option (list (cell A * cell A))) :=
  if include_historical
  then h ← fetch_historical_data env 12; Ok (Some h)
  else Ok None.

(** [df[numeric_features]] of the handler: the numeric columns apart from
    the date and the index itself. *)
Definition features (df : DataFrame A) : DataFrame A :=
  let exclude_cols := ["ref_date"; "housing_price_index_value"] in
  let feature_cols :=
    List.filter (fun col => negb (str_in col exclude_cols)) (names df) in
  let numeric_features := select_dtypes_number df feature_cols in
  select df numeric_features.

(** The handler from the loaded model on. *)
Definition score
  (env : Env A) (horizon : Z) (include_historical : bool) (model : Model)
  : result (Response A) :=
  df ← fetch_latest_data env;
  let X := features df in
  prediction ← predict model X;
  s ← getitem df "housing_price_index_value";
  c ← iloc0 s;
  current ← as_number c;
  let pct := pct_change prediction current in
  d ← getitem df "ref_date";
  rd ← iloc0 d;
  hist ← history env include_historical;
  Ok (send_success_response
        {| horizon_months := horizon;
           current_hpi := current;
           predicted_hpi := prediction;
           percentage_change := pct;
           ref_date := rd;
           historical := hist |}).

(** The body of the [try] of [do_GET]. *)
Definition do_GET_try
  (files : gmap string Model) (params : Query)
  (env : Env A) (st : State) : result (Response A) * State :=
  match get_horizon params with
  | Raise e => (Raise e, st)
  | Ok horizon =>
      let include_historical := get_include_historical params in
      if negb (int_in horizon HORIZONS)
      then (Ok (send_error_response 400
                  "Invalid horizon. Must be one of [1, 2, 3, 6, 12, 24, 36]"),
            st)
      else
        let st' := load_models files st in
        match MODELS st' !! horizon with
        | None =>
            (Ok (send_error_response 404
                   ("Model for horizon " ++ pretty horizon ++ " not found")),
             st')
        | Some model => (score env horizon include_historical model, st')
        end
  end.

(** The [except] clauses of [do_GET]: a [ValueError] is answered 400, any
    other exception 500. *)
Definition answer (r : result (Response A)) : Response A :=
  match r with
  | Ok resp => resp
  | Raise (ValueError msg) => send_error_response 400 msg
  | Raise e => send_error_response 500 (str_exn e)
  end.

Definition do_GET
  (files : gmap string Model) (params : Query)
  (env : Env A) (st : State) : Response A * State :=
  let '(r, st') := do_GET_try files params env st in (answer r, st').

(** The process serving requests one after the other. *)
Definition serve
  (files : gmap string Model)
  (requests : list (Query * Env A)) (st : State) : State :=
  foldl (fun s rq => snd (do_GET files (fst rq) (snd rq) s)) st requests.

End Service.

Arguments MODELS {Model} s.
Arguments trace {Model} s.

End Predict.

(** * Properties *)

(** Unfolds the sequencing of fallible steps. *)
Ltac unbind := unfold mbind, result_bind, Py.bind in *; simpl in *.

(** ** Facts on rows, columns and frames *)

Section FrameFacts.
Context {A : Type}.
Implicit Types (r : row A) (df : DataFrame A) (c : string) (v : cell A).

Lemma at_insert_eq r c v : at_ (<[c := v]> r) c = v.
Proof. unfold at_, row in *. by rewrite lookup_insert_eq. Qed.

Lemma at_insert_ne r c c' v : c ≠ c' -> at_ (<[c := v]> r) c' = at_ r c'.
Proof. intros Hne. unfold at_, row in *. by rewrite lookup_insert_ne. Qed.

Lemma find_append {T : Type} (f : T -> bool) (l k : list T) :
  List.find f (l ++ k)
  = match List.find f l with Some x => Some x | None => List.find f k end.
Proof. induction l as [|x l IH]; simpl; [done|]. by destruct (f x). Qed.

Lemma str_in_false_find c (cols : list (string * dtype)) :
  str_in c (map fst cols) = false ->
  List.find (fun p => String.eqb (fst p) c) cols = None.
Proof.
  induction cols as [|[c0 d0] cols IH]; simpl; [done|].
  intros Hin. apply orb_false_iff in Hin as [Hc Hin].
  rewrite String.eqb_sym, Hc. auto.
Qed.

Lemma find_set_dtype_eq c d (cols : list (string * dtype)) :
  List.find (fun p => String.eqb (fst p) c) (set_dtype c d cols) = Some (c, d).
Proof.
  unfold set_dtype. destruct (str_in c (map fst cols)) eqn:Hin.
  - induction cols as [|[c0 d0] cols IH]; simpl in *; [done|].
    destruct (String.eqb c0 c) eqn:Hc; simpl.
    + by rewrite String.eqb_refl.
    + rewrite Hc. apply IH.
      rewrite String.eqb_sym, Hc in Hin. done.
  - rewrite find_append, (str_in_false_find _ _ Hin). simpl.
    by rewrite String.eqb_refl.
Qed.

Lemma find_set_dtype_ne c c' d (cols : list (string * dtype)) :
  c ≠ c' ->
  List.find (fun p => String.eqb (fst p) c') (set_dtype c d cols)
  = List.find (fun p => String.eqb (fst p) c') cols.
Proof.
  intros Hne. apply String.eqb_neq in Hne.
  unfold set_dtype. destruct (str_in c (map fst cols)).
  - induction cols as [|[c0 d0] cols IH]; simpl; [done|].
    destruct (String.eqb c0 c) eqn:Hc; simpl.
    + apply String.eqb_eq in Hc as ->. by rewrite Hne.
    + destruct (String.eqb c0 c'); [done|apply IH].
  - rewrite find_append. destruct (List.find _ cols); [done|].
    simpl. by rewrite Hne.
Qed.

Lemma dtype_of_setitem_eq df c (s : Series A) :
  dtype_of (setitem df c s) c = Some (sdtype s).
Proof. unfold dtype_of, setitem; simpl. by rewrite find_set_dtype_eq. Qed.

Lemma dtype_of_setitem_ne df c c' (s : Series A) :
  c ≠ c' -> dtype_of (setitem df c s) c' = dtype_of df c'.
Proof.
  intros Hne. unfold dtype_of, setitem; simpl. by rewrite find_set_dtype_ne.
Qed.

(** The rows a [dropna] keeps after a column assignment, as pairs of the
    row before the assignment and the assigned cell. *)
Definition kept (rs : list (row A)) (vs : list (cell A))
  : list (row A * cell A) :=
  List.filter (fun p => negb (isna (snd p))) (zip rs vs).

Lemma dropna_setitem_rows df c (s : Series A) :
  rows (dropna (setitem df c s) c)
  = map (fun p => <[c := snd p]> (fst p)) (kept (rows df) (svalues s)).
Proof.
  unfold dropna, setitem, kept; simpl.
  generalize (svalues s) as vs.
  induction (rows df) as [|r rs IH]; intros [|v vs]; simpl; try done.
  rewrite at_insert_eq. destruct (isna v); simpl; by rewrite IH.
Qed.

Lemma kept_values rs vs :
  map snd (kept rs vs) = List.filter (fun v => negb (isna v)) (take (length rs) vs).
Proof.
  unfold kept. revert vs.
  induction rs as [|r rs IH]; intros [|v vs]; simpl; try done.
  destruct (isna v); simpl; by rewrite IH.
Qed.

Lemma kept_rows_sublist rs vs : map fst (kept rs vs) `sublist_of` rs.
Proof.
  unfold kept. revert vs.
  induction rs as [|r rs IH]; intros [|v vs]; simpl;
    try apply sublist_nil_l.
  destruct (isna v); simpl.
  - apply sublist_cons, IH.
  - apply sublist_skip, IH.
Qed.

Lemma kept_all rs vs :
  Forall (fun v => v ≠ NA) vs -> kept rs vs = zip rs vs.
Proof.
  unfold kept. intros Hall. revert rs.
  induction Hall as [|v vs Hv _ IH]; intros [|r rs]; simpl; try done.
  destruct v; simpl; by rewrite ?IH.
Qed.

End FrameFacts.

(** ** The dataset builder *)

Section Builder.
Context {A : Type}.
Implicit Types (df X : DataFrame A) (y dates : list (cell A)).

Import TrainModels.

Lemma target_name_not_ref_date (h : Z) : "target_h" ++ pretty h ≠ "ref_date".
Proof. simpl. discriminate. Qed.

(** The column the builder adds: the target column moved up by the
    horizon. *)
Definition shifted_target df (target_col : string) (h : Z) : list (cell A) :=
  shift_values (- h) (map (fun r => at_ r target_col) (rows df)).

Lemma getitem_ok df (c : string) (d : dtype) :
  dtype_of df c = Some d ->
  getitem df c
  = Ok {| sdtype := d; svalues := map (fun r => at_ r c) (rows df) |}.
Proof. intros Hd. unfold getitem. by rewrite Hd. Qed.

Lemma getitem_inv df (c : string) (s : Series A) :
  getitem df c = Ok s ->
  dtype_of df c = Some (sdtype s) /\
  svalues s = map (fun r => at_ r c) (rows df).
Proof.
  unfold getitem. destruct (dtype_of df c); [|done]. by intros [= <-].
Qed.

(** What the builder returns, in terms of the rows it keeps. *)
Lemma build_supervised_dataset_inv df target_col h X y dates :
  build_supervised_dataset df target_col h = Ok (X, y, dates) ->
  let ks := kept (rows df) (shifted_target df target_col h) in
  rows X = map (fun p => <["target_h" ++ pretty h := snd p]> (fst p)) ks /\
  y = map snd ks /\
  dates = map (fun p => at_ (fst p) "ref_date") ks.
Proof.
  unfold build_supervised_dataset.
  destruct (getitem df target_col) as [t|e] eqn:Ht; [|by unbind].
  apply getitem_inv in Ht as [_ Ht].
  unfold mbind at 1, result_bind at 1, Py.bind at 1.
  set (tn := "target_h" ++ pretty h).
  set (dw := dropna (setitem df tn (shift (- h) t)) tn).
  assert (Hrows : rows dw
    = map (fun p => <[tn := snd p]> (fst p))
          (kept (rows df) (shifted_target df target_col h))).
  { unfold dw. rewrite dropna_setitem_rows. simpl. by rewrite Ht. }
  rewrite (getitem_ok dw tn (sdtype (shift (- h) t)))
    by apply dtype_of_setitem_eq.
  destruct (getitem dw "ref_date") as [d|e] eqn:Hd; [|by unbind].
  apply getitem_inv in Hd as [_ Hd].
  unbind. intros [= <- <- <-]. simpl. rewrite Hd, Hrows.
  split_and!; [done| |].
  - rewrite map_map. apply map_ext. intros p. apply at_insert_eq.
  - rewrite map_map. apply map_ext. intros p.
    apply at_insert_ne, target_name_not_ref_date.
Qed.

(** The builder returns when the table has the two columns it reads. *)
Lemma build_supervised_dataset_returns df target_col h :
  is_Some (dtype_of df target_col) ->
  is_Some (dtype_of df "ref_date") ->
  exists X y dates, build_supervised_dataset df target_col h = Ok (X, y, dates).
Proof.
  intros [dt Ht] [dr Hr]. unfold build_supervised_dataset.
  rewrite (getitem_ok _ _ _ Ht).
  unfold mbind at 1, result_bind at 1, Py.bind at 1.
  set (tn := "target_h" ++ pretty h).
  set (dw := dropna (setitem df tn _) tn).
  rewrite (getitem_ok dw tn (shift_dtype (- h) dt))
    by apply (dtype_of_setitem_eq df tn).
  rewrite (getitem_ok dw "ref_date" dr).
  2:{ rewrite <- Hr.
      apply (dtype_of_setitem_ne df tn), target_name_not_ref_date. }
  unbind. eauto.
Qed.

End Builder.

Section BuilderTargets.
Context {A : Type}.
Implicit Types (df X : DataFrame A) (y dates : list (cell A)).

Import TrainModels.

Lemma shifted_target_ahead df target_col h :
  1 <= h ->
  shifted_target df target_col h
  = (drop (Z.to_nat h) (map (fun r => at_ r target_col) (rows df))
     ++ replicate (Nat.min (Z.to_nat h) (len df)) NA)%list.
Proof.
  intros Hh. unfold shifted_target, shift_values, len.
  rewrite length_map.
  destruct (Z.ltb_spec (- h) 0) as [_|?]; [|lia].
  by rewrite Z.opp_involutive.
Qed.

Lemma filter_replicate_NA (n : nat) :
  List.filter (fun v : cell A => negb (isna v)) (replicate n NA) = [].
Proof. induction n; simpl; auto. Qed.

(** For a horizon of one month or more the targets are the values of the
    target column from position [h] on that are not missing, in order. *)
Lemma build_supervised_dataset_drops_missing df target_col h X y dates :
  1 <= h ->
  build_supervised_dataset df target_col h = Ok (X, y, dates) ->
  y = List.filter (fun v => negb (isna v))
        (drop (Z.to_nat h) (map (fun r => at_ r target_col) (rows df))) /\
  len X = length y /\ length dates = length y.
Proof.
  intros Hh Hb. apply build_supervised_dataset_inv in Hb as (HX & Hy & Hd).
  unfold len. rewrite HX, Hd, Hy, !length_map. split_and!; try done.
  rewrite kept_values, shifted_target_ahead by done.
  rewrite take_ge.
  - by rewrite List.filter_app, filter_replicate_NA, app_nil_r.
  - rewrite length_app, length_drop, length_map, length_replicate.
    unfold len. lia.
Qed.

Lemma kept_replicate_NA (rs : list (row A)) (m : nat) :
  kept rs (replicate m NA) = [].
Proof.
  unfold kept. revert m.
  induction rs as [|r rs IH]; intros [|m]; simpl; auto.
Qed.

Lemma kept_present_then_missing (rs : list (row A)) (ws : list (cell A)) m :
  Forall (fun v => v ≠ NA) ws ->
  (length ws <= length rs)%nat ->
  kept rs (ws ++ replicate m NA)%list = zip (take (length ws) rs) ws.
Proof.
  intros Hall. revert rs.
  induction Hall as [|w ws Hw _ IH]; intros rs Hlen; simpl.
  - by rewrite kept_replicate_NA.
  - destruct rs as [|r rs]; simpl in *; [lia|].
    unfold kept in *. simpl.
    destruct w; simpl; try done; rewrite IH by lia; done.
Qed.

Lemma filter_all_kept (vs : list (cell A)) :
  Forall (fun v => v ≠ NA) vs ->
  List.filter (fun v => negb (isna v)) vs = vs.
Proof.
  induction 1 as [|v vs Hv _ IH]; simpl; [done|].
  destruct v; simpl; by rewrite ?IH.
Qed.

(** C1, as the code has it: on a table with the [ref_date] and the target
    column whose target values are all present, and for a horizon
    [h >= 1], the builder returns exactly [max(0, n - h)] examples, the
    target of example [i] is the target value of the row at position
    [i + h], and its date is that of the row at position [i]. *)
Theorem build_supervised_dataset_aligned df target_col h :
  1 <= h ->
  is_Some (dtype_of df target_col) ->
  is_Some (dtype_of df "ref_date") ->
  Forall (fun r => at_ r target_col ≠ NA) (rows df) ->
  exists X y dates,
    build_supervised_dataset df target_col h = Ok (X, y, dates) /\
    Z.of_nat (len X) = Z.max 0 (Z.of_nat (len df) - h) /\
    length y = len X /\
    length dates = len X /\
    (forall i r, rows df !! (i + Z.to_nat h)%nat = Some r ->
                 y !! i = Some (at_ r target_col)) /\
    (forall i r, (i < len X)%nat -> rows df !! i = Some r ->
                 dates !! i = Some (at_ r "ref_date")).
Proof.
  intros Hh Ht Hr Hall.
  destruct (build_supervised_dataset_returns df target_col h Ht Hr)
    as (X & y & dates & Hb).
  exists X, y, dates. split; [done|].
  pose proof (build_supervised_dataset_inv _ _ _ _ _ _ Hb) as (_ & _ & Hd).
  destruct (build_supervised_dataset_drops_missing _ _ _ _ _ _ Hh Hb)
    as (Hy & HX & Hdl).
  set (vs := map (fun r => at_ r target_col) (rows df)) in *.
  assert (Hvs : Forall (fun v => v ≠ NA) vs).
  { unfold vs. rewrite List.Forall_map. done. }
  rewrite filter_all_kept in Hy by by apply Forall_drop.
  assert (Hlen : length y = (len df - Z.to_nat h)%nat).
  { rewrite Hy, length_drop. unfold vs. by rewrite length_map. }
  split_and!; try done.
  - rewrite HX, Hlen. lia.
  - by rewrite Hdl, HX.
  - intros i r Hi. rewrite Hy, lookup_drop. unfold vs.
    rewrite (list_lookup_fmap (fun r => at_ r target_col) (rows df)).
    by rewrite Nat.add_comm, Hi.
  - intros i r Hi Hri. rewrite Hd.
    rewrite shifted_target_ahead by done. fold vs.
    assert (Hvl : length (drop (Z.to_nat h) vs) = (len df - Z.to_nat h)%nat).
    { rewrite length_drop. unfold vs. by rewrite length_map. }
    rewrite kept_present_then_missing
      by (try apply Forall_drop; try done; rewrite Hvl; unfold len; lia).
    rewrite <- (map_map fst (fun r => at_ r "ref_date")).
    replace (map fst (zip (take (length (drop (Z.to_nat h) vs)) (rows df))
                        (drop (Z.to_nat h) vs)))
      with (take (length (drop (Z.to_nat h) vs)) (rows df)).
    2:{ symmetry. apply fst_zip. rewrite length_take. lia. }
    rewrite (list_lookup_fmap (fun r => at_ r "ref_date")).
    rewrite lookup_take_lt by (rewrite Hvl, <- Hlen, <- HX; done).
    by rewrite Hri.
Qed.

End BuilderTargets.

(** ** The chronological order of the fetched table *)

Section Chronology.
Context {A : Type}.
Implicit Types (df X : DataFrame A) (y dates : list (cell A)).

Import TrainModels.

(** Two cells of a date column in ascending order, missing dates last. *)
Definition date_le (a b : cell A) : Prop :=
  key_le (timestamp a) (timestamp b) = true.

Lemma key_le_total (a b : option Z) : key_le a b = false -> key_le b a = true.
Proof.
  destruct a as [x|], b as [y|]; simpl; try done.
  intros Hxy. apply Z.leb_gt in Hxy. apply Z.leb_le. lia.
Qed.

Lemma key_le_trans (a b c : option Z) :
  key_le a b = true -> key_le b c = true -> key_le a c = true.
Proof.
  destruct a as [x|], b as [y|], c as [z|]; simpl; try done.
  rewrite !Z.leb_le. lia.
Qed.

Lemma date_le_not_earlier (a b : cell A) : date_le a b -> ~ earlier b a.
Proof.
  unfold date_le, earlier.
  destruct (timestamp a) as [x|], (timestamp b) as [y|]; simpl;
    try tauto; try done.
  rewrite Z.leb_le. lia.
Qed.

Lemma StronglySorted_sublist {T : Type} (R : T -> T -> Prop) (l k : list T) :
  l `sublist_of` k -> StronglySorted R k -> StronglySorted R l.
Proof.
  induction 1 as [|x l k Hlk IH|x l k Hlk IH]; intros Hs.
  - constructor.
  - apply StronglySorted_inv in Hs as [Hs Hx]. constructor; [by apply IH|].
    rewrite Forall_forall in *. intros z Hz. apply Hx.
    by apply (sublist_subseteq _ _ Hlk).
  - apply StronglySorted_inv in Hs as [Hs _]. by apply IH.
Qed.

Lemma StronglySorted_map {T U : Type} (f : T -> U) (R : U -> U -> Prop)
  (l : list T) :
  StronglySorted (fun a b => R (f a) (f b)) l -> StronglySorted R (map f l).
Proof.
  induction 1 as [|x l _ IH Hx]; simpl; constructor; [done|].
  rewrite List.Forall_map. done.
Qed.

(** The rows of a frame in the order of their keys under column [c]. *)
Definition rows_sorted (c : string) (rs : list (row A)) : Prop :=
  StronglySorted (fun r1 r2 => date_le (at_ r1 c) (at_ r2 c)) rs.

Lemma insert_sorted_Forall (P : row A -> Prop) c r (l : list (row A)) :
  P r -> Forall P l -> Forall P (insert_sorted c r l).
Proof.
  intros Hr. induction 1 as [|r' l Hr' Hl IH]; simpl.
  - by constructor.
  - destruct (key_le _ _); constructor; auto.
Qed.

Lemma insert_sorted_sorted c r (l : list (row A)) :
  rows_sorted c l -> rows_sorted c (insert_sorted c r l).
Proof.
  unfold rows_sorted. induction 1 as [|r' l Hs IH Hr']; simpl.
  - constructor; constructor.
  - unfold date_key.
    destruct (key_le (timestamp (at_ r c)) (timestamp (at_ r' c))) eqn:Hle.
    + constructor; [by constructor|]. constructor; [done|].
      eapply Forall_impl; [exact Hr'|].
      intros z Hz. unfold date_le in *. by eapply key_le_trans.
    + constructor; [done|].
      apply insert_sorted_Forall; [|done].
      unfold date_le. by apply key_le_total.
Qed.

(** [sort_values] returns the rows in ascending order of the column. *)
Lemma sort_values_sorted df c : rows_sorted c (rows (sort_values df c)).
Proof.
  unfold sort_values; simpl.
  induction (rows df) as [|r rs IH]; simpl.
  - constructor.
  - by apply insert_sorted_sorted.
Qed.

Section Fetched.
Variable to_datetime : string -> option Z.

(** The fetched table is in ascending [ref_date] order. *)
Lemma fetch_data_from_supabase_sorted (raw df : DataFrame A) :
  fetch_data_from_supabase to_datetime raw = Ok df ->
  rows_sorted "ref_date" (rows df).
Proof.
  unfold fetch_data_from_supabase.
  destruct (getitem raw "ref_date") as [s|e]; [|by unbind].
  unfold mbind at 1, result_bind at 1, Py.bind at 1.
  destruct (mapM (parse_ref_date to_datetime) (svalues s)) as [parsed|e];
    [|by unbind].
  unfold mbind, result_bind, Py.bind. intros [= <-].
  apply sort_values_sorted.
Qed.

End Fetched.

(** The dates of a dataset built from a table in chronological order are
    in chronological order. *)
Lemma build_supervised_dataset_dates_sorted df target_col h X y dates :
  rows_sorted "ref_date" (rows df) ->
  build_supervised_dataset df target_col h = Ok (X, y, dates) ->
  StronglySorted date_le dates.
Proof.
  intros Hs Hb. apply build_supervised_dataset_inv in Hb as (_ & _ & ->).
  rewrite <- (map_map fst (fun r => at_ r "ref_date")).
  apply StronglySorted_map.
  eapply StronglySorted_sublist; [apply kept_rows_sublist|exact Hs].
Qed.

End Chronology.

(** ** The chronological split *)

Section SplitFacts.
Context {A : Type}.
Implicit Types (df X : DataFrame A) (y dates : list (cell A)).

Import TrainModels.

(** The split index is four fifths of the length, rounded down. *)
Lemma split_idx_floor (n : nat) : Z.of_nat (split_idx n) = 4 * Z.of_nat n / 5.
Proof.
  unfold split_idx. unfold Qfloor, Qmult, inject_Z; simpl.
  rewrite Z2Nat.id by (Z.div_mod_to_equations; lia).
  Z.div_mod_to_equations. lia.
Qed.

Lemma split_idx_le (n : nat) : (split_idx n <= n)%nat.
Proof.
  pose proof (split_idx_floor n) as Hk.
  assert (4 * Z.of_nat n / 5 <= Z.of_nat n) by (Z.div_mod_to_equations; lia).
  lia.
Qed.

(** C3: a non-empty dataset of [n] examples is split, in its order, into
    the first [floor(0.8 n)] examples for training and the remaining
    [ceil(0.2 n)] for testing; 37 examples give 29 and 8. *)
Theorem time_based_split_sizes X y dates :
  len X ≠ 0%nat ->
  exists sp,
    time_based_split X y dates = Some sp /\
    rows (X_train sp) = take (split_idx (len X)) (rows X) /\
    rows (X_test sp) = drop (split_idx (len X)) (rows X) /\
    y_train sp = take (split_idx (len X)) y /\
    y_test sp = drop (split_idx (len X)) y /\
    dates_test sp = drop (split_idx (len X)) dates /\
    Z.of_nat (len (X_train sp))
    = Qfloor (Qmult (8 # 10) (inject_Z (Z.of_nat (len X)))) /\
    Z.of_nat (len (X_test sp))
    = Qceiling (Qmult (2 # 10) (inject_Z (Z.of_nat (len X)))) /\
    (len X = 37%nat -> len (X_train sp) = 29%nat /\ len (X_test sp) = 8%nat).
Proof.
  intros Hn. unfold time_based_split.
  destruct (Nat.eqb_spec (len X) 0) as [?|_]; [done|].
  eexists. split; [reflexivity|]. simpl.
  pose proof (split_idx_floor (len X)) as Hk.
  pose proof (split_idx_le (len X)) as Hle.
  assert (Htr : len (iloc_to (split_idx (len X)) X) = split_idx (len X)).
  { unfold len, iloc_to; simpl. rewrite length_take. unfold len in Hle. lia. }
  assert (Hte : len (iloc_from (split_idx (len X)) X)
                = (len X - split_idx (len X))%nat).
  { unfold len, iloc_from; simpl. by rewrite length_drop. }
  split_and!; try done.
  - rewrite Htr, Hk. unfold Qfloor, Qmult, inject_Z; simpl.
    Z.div_mod_to_equations. lia.
  - rewrite Hte. unfold Qceiling, Qfloor, Qopp, Qmult, inject_Z; simpl.
    Z.div_mod_to_equations. lia.
  - intros H37. rewrite Htr, Hte, H37. by vm_compute.
Qed.

End SplitFacts.

Section NoLookAhead.
Context {A : Type}.
Variable to_datetime : string -> option Z.

Import TrainModels.

(** C4: on the fetched table, for every horizon, no date of a test
    example is earlier than a date of a training example. *)
Theorem time_based_split_no_look_ahead
  (raw df X : DataFrame A) (y dates : list (cell A)) (h : Z) (sp : Split)
  (d_test d_train : cell A) :
  fetch_data_from_supabase to_datetime raw = Ok df ->
  build_supervised_dataset df TARGET_COLUMN h = Ok (X, y, dates) ->
  time_based_split X y dates = Some sp ->
  d_test ∈ dates_test sp ->
  d_train ∈ dates_train X dates ->
  ~ earlier d_test d_train.
Proof.
  intros Hf Hb Hs Hte Htr.
  apply fetch_data_from_supabase_sorted in Hf.
  pose proof (build_supervised_dataset_dates_sorted _ _ _ _ _ _ Hf Hb) as Hd.
  unfold time_based_split in Hs.
  destruct (len X =? 0)%nat; [done|]. injection Hs as <-. simpl in Hte.
  unfold dates_train in Htr.
  rewrite <- (take_drop (split_idx (len X)) dates) in Hd.
  apply date_le_not_earlier.
  by eapply (StronglySorted_app_1_elem_of _ _ _ _ _ Hd).
Qed.

End NoLookAhead.

(** ** Worked tables *)

Definition digit (c : ascii) : option Z :=
  let n := Z.of_nat (nat_of_ascii c) in
  if (48 <=? n) && (n <=? 57) then Some (n - 48) else None.

(** A reading of ["YYYY-MM-01"] as the number of months since year 0; any
    other text is not a date. *)
Definition iso_month (s : string) : option Z :=
  match s with
  | String a (String b (String c (String d
      (String "-" (String m1 (String m2 "-01")))))) =>
      a ← digit a; b ← digit b; c ← digit c; d ← digit d;
      m1 ← digit m1; m2 ← digit m2;
      let m := 10 * m1 + m2 in
      if (1 <=? m) && (m <=? 12)
      then Some ((1000 * a + 100 * b + 10 * c + d) * 12 + m - 1)
      else None
  | _ => None
  end.

Definition indicator_columns (d : dtype) : list (string * dtype) :=
  [("ref_date", d);
   ("housing_price_index_value", float64);
   ("unemployment_rate", float64)].

Definition indicator_row (ref_date hpi rate : cell Q) : row Q :=
  list_to_map
    [("ref_date", ref_date);
     ("housing_price_index_value", hpi);
     ("unemployment_rate", rate)].

(** Four months as the store returns them, out of order. *)
Definition raw_table : DataFrame Q :=
  {| columns := indicator_columns object_;
     rows :=
       [indicator_row (Str "2020-03") (Num 103%Q) (Num (55 # 10)%Q);
        indicator_row (Str "2020-01") (Num 101%Q) (Num (57 # 10)%Q);
        indicator_row (Str "2020-04") (Num 104%Q) (Num (54 # 10)%Q);
        indicator_row (Str "2020-02") (Num 102%Q) (Num (56 # 10)%Q)] |}.

(** Four months in order, the index of the second one missing. *)
Definition table_with_gap : DataFrame Q :=
  {| columns := indicator_columns datetime64;
     rows :=
       [indicator_row (Date 24240) (Num 101%Q) (Num (57 # 10)%Q);
        indicator_row (Date 24241) NA (Num (56 # 10)%Q);
        indicator_row (Date 24242) (Num 103%Q) (Num (55 # 10)%Q);
        indicator_row (Date 24243) (Num 104%Q) (Num (54 # 10)%Q)] |}.

(** Forty months in order, every value present. *)
Definition forty_months : DataFrame Q :=
  {| columns := indicator_columns datetime64;
     rows :=
       map (fun i => indicator_row (Date (24240 + Z.of_nat i))
                       (Num (inject_Z (100 + Z.of_nat i))) (Num 5%Q))
           (seq 0 40) |}.

(** The value of a computation that returns. *)
Definition get_ok {T : Type} (d : T) (m : result T) : T :=
  match m with
  | Ok v => v
  | Raise _ => d
  end.

(** What a run of the builder returned: the feature names, the number
    of examples, the targets and the dates. *)
Definition dataset_summary {A : Type}
  (r : result (DataFrame A * list (cell A) * list (cell A)))
  : option (list string * nat * list (cell A) * list (cell A)) :=
  match r with
  | Ok (X, y, dates) => Some (names X, len X, y, dates)
  | Raise _ => None
  end.

(** The sizes of a dataset and of its two parts after the split. *)
Definition split_summary {A : Type}
  (r : result (DataFrame A * list (cell A) * list (cell A)))
  : option (nat * nat * nat) :=
  match r with
  | Ok (X, y, dates) =>
      match TrainModels.time_based_split X y dates with
      | Some sp =>
          Some (len X, len (TrainModels.X_train sp), len (TrainModels.X_test sp))
      | None => None
      end
  | Raise _ => None
  end.

Definition no_frame : DataFrame Q := {| columns := []; rows := [] |}.

Definition fetched_table : DataFrame Q :=
  get_ok no_frame (TrainModels.fetch_data_from_supabase iso_month raw_table).

Definition fetched_dataset : DataFrame Q * list (cell Q) * list (cell Q) :=
  get_ok (no_frame, [], [])
    (TrainModels.build_supervised_dataset fetched_table TrainModels.TARGET_COLUMN 1).

(** Four months in order, every value present. *)
Definition four_months : DataFrame Q :=
  {| columns := indicator_columns datetime64;
     rows :=
       [indicator_row (Date 24240) (Num 101%Q) (Num (57 # 10)%Q);
        indicator_row (Date 24241) (Num 102%Q) (Num (56 # 10)%Q);
        indicator_row (Date 24242) (Num 103%Q) (Num (55 # 10)%Q);
        indicator_row (Date 24243) (Num 104%Q) (Num (54 # 10)%Q)] |}.

(** ** The training pipeline on the worked tables *)

Section TrainingExamples.

Import TrainModels.

(** Fetching parses the dates and puts the months in order. *)
Example fetch_data_from_supabase_raw_table :
  fetch_data_from_supabase iso_month raw_table = Ok four_months.
Proof. vm_compute. reflexivity. Qed.

(** C1 applied to the four complete months with a horizon of one month. *)
Lemma build_supervised_dataset_aligned_witness :
  1 <= 1 /\
  is_Some (dtype_of four_months TARGET_COLUMN) /\
  is_Some (dtype_of four_months "ref_date") /\
  Forall (fun r => at_ r TARGET_COLUMN ≠ NA) (rows four_months) /\
  exists X y dates,
    build_supervised_dataset four_months TARGET_COLUMN 1 = Ok (X, y, dates) /\
    Z.of_nat (len X) = Z.max 0 (Z.of_nat (len four_months) - 1) /\
    length y = len X /\
    length dates = len X /\
    (forall i r, rows four_months !! (i + Z.to_nat 1)%nat = Some r ->
                 y !! i = Some (at_ r TARGET_COLUMN)) /\
    (forall i r, (i < len X)%nat -> rows four_months !! i = Some r ->
                 dates !! i = Some (at_ r "ref_date")).
Proof.
  assert (H1 : 1 <= 1) by lia.
  assert (H2 : is_Some (dtype_of four_months TARGET_COLUMN))
    by (eexists; reflexivity).
  assert (H3 : is_Some (dtype_of four_months "ref_date"))
    by (eexists; reflexivity).
  assert (H4 : Forall (fun r => at_ r TARGET_COLUMN ≠ NA) (rows four_months))
    by (repeat (constructor; [by vm_compute|]); constructor).
  split_and!; try assumption.
  exact (build_supervised_dataset_aligned four_months TARGET_COLUMN 1
           H1 H2 H3 H4).
Defined.

(** C1 as stated fails when a target value is missing: the four months
    with a gap and a horizon of one month give two examples, not the
    three of [max(0, 4 - 1)], and the target of the first example is the
    value of the row two places on, the row one place on having none. *)
Lemma build_supervised_dataset_gap_counterexample :
  dataset_summary (build_supervised_dataset table_with_gap TARGET_COLUMN 1)
  = Some (["housing_price_index_value"; "unemployment_rate"], 2%nat,
          [Num 103%Q; Num 104%Q], [Date 24241; Date 24242]) /\
  len table_with_gap = 4%nat /\
  Z.of_nat 2 ≠ Z.max 0 (Z.of_nat (len table_with_gap) - 1) /\
  (fun r => at_ r TARGET_COLUMN) <$> rows table_with_gap !! 1%nat = Some NA /\
  (fun r => at_ r TARGET_COLUMN) <$> rows table_with_gap !! 2%nat
  = Some (Num 103%Q).
Proof.
  split; [vm_compute; reflexivity|].
  split_and!; try reflexivity. vm_compute. discriminate.
Qed.

(** C2 on the four complete months: the builder keeps the designated
    target column [housing_price_index_value] among the features. *)
Lemma build_supervised_dataset_target_is_feature :
  dataset_summary (build_supervised_dataset four_months TARGET_COLUMN 1)
  = Some (["housing_price_index_value"; "unemployment_rate"], 3%nat,
          [Num 102%Q; Num 103%Q; Num 104%Q],
          [Date 24240; Date 24241; Date 24242]).
Proof. vm_compute. reflexivity. Qed.

(** The scenario of forty months and a horizon of three: 37 examples, 29
    for training and 8 for testing. *)
Example forty_months_horizon_three :
  split_summary (build_supervised_dataset forty_months TARGET_COLUMN 3)
  = Some (37%nat, 29%nat, 8%nat).
Proof. vm_compute. reflexivity. Qed.

(** The dataset of the four complete months at a horizon of one month,
    and its split. *)
Definition four_months_split : Split :=
  let '(X, y, dates) := fetched_dataset in
  {| X_train := iloc_to 2 X;
     y_train := take 2 y;
     X_test := iloc_from 2 X;
     y_test := drop 2 y;
     dates_test := drop 2 dates |}.

(** C3 applied to the three examples of the four complete months. *)
Lemma time_based_split_sizes_witness :
  len fetched_dataset.1.1 ≠ 0%nat /\
  exists sp,
    time_based_split fetched_dataset.1.1 fetched_dataset.1.2 fetched_dataset.2
    = Some sp /\
    rows (X_train sp)
    = take (split_idx (len fetched_dataset.1.1)) (rows fetched_dataset.1.1) /\
    rows (X_test sp)
    = drop (split_idx (len fetched_dataset.1.1)) (rows fetched_dataset.1.1) /\
    y_train sp = take (split_idx (len fetched_dataset.1.1)) fetched_dataset.1.2 /\
    y_test sp = drop (split_idx (len fetched_dataset.1.1)) fetched_dataset.1.2 /\
    dates_test sp = drop (split_idx (len fetched_dataset.1.1)) fetched_dataset.2 /\
    Z.of_nat (len (X_train sp))
    = Qfloor (Qmult (8 # 10) (inject_Z (Z.of_nat (len fetched_dataset.1.1)))) /\
    Z.of_nat (len (X_test sp))
    = Qceiling (Qmult (2 # 10) (inject_Z (Z.of_nat (len fetched_dataset.1.1)))) /\
    (len fetched_dataset.1.1 = 37%nat ->
     len (X_train sp) = 29%nat /\ len (X_test sp) = 8%nat).
Proof.
  assert (H : len fetched_dataset.1.1 ≠ 0%nat) by (vm_compute; discriminate).
  split; [exact H|].
  exact (time_based_split_sizes fetched_dataset.1.1 fetched_dataset.1.2
           fetched_dataset.2 H).
Defined.

(** C4 applied to the four months as the store returned them. *)
Lemma time_based_split_no_look_ahead_witness :
  fetch_data_from_supabase iso_month raw_table = Ok four_months /\
  build_supervised_dataset four_months TARGET_COLUMN 1
  = Ok (fetched_dataset.1.1, fetched_dataset.1.2, fetched_dataset.2) /\
  time_based_split fetched_dataset.1.1 fetched_dataset.1.2 fetched_dataset.2
  = Some four_months_split /\
  Date 24242 ∈ dates_test four_months_split /\
  Date 24241 ∈ dates_train fetched_dataset.1.1 fetched_dataset.2 /\
  ~ earlier (Date 24242 : cell Q) (Date 24241).
Proof.
  assert (H1 : fetch_data_from_supabase iso_month raw_table = Ok four_months)
    by (vm_compute; reflexivity).
  assert (H2 : build_supervised_dataset four_months TARGET_COLUMN 1
               = Ok (fetched_dataset.1.1, fetched_dataset.1.2,
                     fetched_dataset.2))
    by (vm_compute; reflexivity).
  assert (H3 : time_based_split fetched_dataset.1.1 fetched_dataset.1.2
                 fetched_dataset.2 = Some four_months_split)
    by (vm_compute; reflexivity).
  assert (H4 : Date 24242 ∈ dates_test four_months_split)
    by (vm_compute; apply list_elem_of_here).
  assert (H5 : Date 24241 ∈ dates_train fetched_dataset.1.1 fetched_dataset.2)
    by (vm_compute; apply list_elem_of_further, list_elem_of_here).
  split_and!; try assumption.
  exact (time_based_split_no_look_ahead iso_month raw_table four_months
           fetched_dataset.1.1 fetched_dataset.1.2 fetched_dataset.2 1
           four_months_split (Date 24242) (Date 24241) H1 H2 H3 H4 H5).
Defined.

(** The split index as the interpreter computes it in binary64 is the
    exact one, for every length below 256. *)
Lemma split_idx_binary64_exact :
  forallb (fun n => bool_decide
                      (split_idx_binary64 n = Some (Z.of_nat (split_idx n))))
    (seq 0 256) = true.
Proof. vm_compute. reflexivity. Qed.

End TrainingExamples.

(** ** The prediction service *)

(** The texts that are ["true"] up to the case of the letters. *)
Definition true_spellings : list string :=
  ["true"; "truE"; "trUe"; "trUE"; "tRue"; "tRuE"; "tRUe"; "tRUE";
   "True"; "TruE"; "TrUe"; "TrUE"; "TRue"; "TRuE"; "TRUe"; "TRUE"].

Section Lowering.

Lemma lower_ascii_t (c : ascii) :
  lower_ascii c = "t"%char -> c = "t"%char \/ c = "T"%char.
Proof.
  destruct c as [[] [] [] [] [] [] [] []]; vm_compute; intros H;
    try discriminate H; auto.
Qed.

Lemma lower_ascii_r (c : ascii) :
  lower_ascii c = "r"%char -> c = "r"%char \/ c = "R"%char.
Proof.
  destruct c as [[] [] [] [] [] [] [] []]; vm_compute; intros H;
    try discriminate H; auto.
Qed.

Lemma lower_ascii_u (c : ascii) :
  lower_ascii c = "u"%char -> c = "u"%char \/ c = "U"%char.
Proof.
  destruct c as [[] [] [] [] [] [] [] []]; vm_compute; intros H;
    try discriminate H; auto.
Qed.

Lemma lower_ascii_e (c : ascii) :
  lower_ascii c = "e"%char -> c = "e"%char \/ c = "E"%char.
Proof.
  destruct c as [[] [] [] [] [] [] [] []]; vm_compute; intros H;
    try discriminate H; auto.
Qed.

(** [s.lower() == 'true'] holds of the sixteen spellings of ["true"] and
    of no other text. *)
Lemma lower_true (s : string) : lower s = "true" <-> s ∈ true_spellings.
Proof.
  split.
  - destruct s as [|c1 [|c2 [|c3 [|c4 [|c5 s]]]]]; try discriminate.
    cbn [lower]. intros [= H1 H2 H3 H4].
    apply lower_ascii_t in H1. apply lower_ascii_r in H2.
    apply lower_ascii_u in H3. apply lower_ascii_e in H4.
    unfold true_spellings.
    destruct H1 as [-> | ->], H2 as [-> | ->], H3 as [-> | ->],
             H4 as [-> | ->];
      repeat first [apply list_elem_of_here | apply list_elem_of_further].
  - unfold true_spellings. intros Hin.
    repeat (apply elem_of_cons in Hin as [->|Hin]; [reflexivity|]).
    by apply elem_of_nil in Hin.
Qed.

End Lowering.

Section ServiceFacts.
Context {A : Type} `{Predict.Arith A}.
Variable Model : Type.
Variable py_int : string -> result Z.
Variable predict : Model -> DataFrame A -> result A.

Import Predict.

Implicit Types (files : gmap string Model) (params : Query)
  (env : Env A) (st : State Model) (h : Z).

Lemma int_in_elem_of (x : Z) (l : list Z) : int_in x l = true <-> x ∈ l.
Proof.
  unfold int_in. rewrite existsb_exists. split.
  - intros (y & Hy & Hxy). apply Z.eqb_eq in Hxy as ->.
    by apply list_elem_of_In.
  - intros Hx. exists x. split; [by apply list_elem_of_In|apply Z.eqb_refl].
Qed.

(** The handler on a request whose horizon is supported. *)
Lemma do_GET_supported files params env st h :
  get_horizon py_int params = Ok h ->
  h ∈ HORIZONS ->
  do_GET Model py_int predict files params env st
  = (match MODELS (load_models Model files st) !! h with
     | None =>
         send_error_response 404
           ("Model for horizon " ++ pretty h ++ " not found")
     | Some model =>
         answer (score Model predict env h (get_include_historical params) model)
     end,
     load_models Model files st).
Proof.
  intros Hh Hin. apply int_in_elem_of in Hin.
  unfold do_GET, do_GET_try. rewrite Hh, Hin. simpl.
  by destruct (MODELS (load_models Model files st) !! h).
Qed.

(** The state after a request is the state before it, or that state
    with the models loaded. *)
Lemma do_GET_state files params env st :
  snd (do_GET Model py_int predict files params env st) = st \/
  snd (do_GET Model py_int predict files params env st)
  = load_models Model files st.
Proof.
  unfold do_GET, do_GET_try.
  destruct (get_horizon py_int params) as [h|e]; [|by left].
  destruct (negb (int_in h HORIZONS)); [by left|].
  destruct (MODELS (load_models Model files st) !! h); by right.
Qed.

(** Every cached model is the content of its artifact file. *)
Definition cache_sound files st : Prop :=
  forall h m, MODELS st !! h = Some m -> files !! model_path h = Some m.

Lemma load_one_sound files st h :
  cache_sound files st -> cache_sound files (load_one Model files st h).
Proof.
  intros Hs h' m. unfold load_one.
  destruct (files !! model_path h) as [m0|] eqn:Hf; simpl; [|apply Hs].
  destruct (decide (h = h')) as [<-|Hne].
  - rewrite lookup_insert_eq. by intros [= <-].
  - rewrite lookup_insert_ne by done. apply Hs.
Qed.

Lemma load_models_sound files st :
  cache_sound files st -> cache_sound files (load_models Model files st).
Proof.
  intros Hs. unfold load_models.
  destruct (bool_decide (MODELS st = ∅)); [|done].
  revert st Hs. induction HORIZONS as [|h hs IH]; intros st Hs; simpl; [done|].
  apply IH. by apply load_one_sound.
Qed.

Lemma serve_sound files (requests : list (Query * Env A)) st :
  cache_sound files st ->
  cache_sound files (serve Model py_int predict files requests st).
Proof.
  revert st. induction requests as [|[params env] rs IH]; intros st Hs; [done|].
  simpl. apply IH.
  destruct (do_GET_state files params env st) as [-> | ->]; [done|].
  by apply load_models_sound.
Qed.

Lemma initial_sound files : cache_sound files (initial Model).
Proof. intros h m. unfold initial; simpl. by rewrite lookup_empty. Qed.

End ServiceFacts.

Section ServiceClaims.
Context {A : Type} `{Predict.Arith A}.
Variable Model : Type.
Variable py_int : string -> result Z.
Variable predict : Model -> DataFrame A -> result A.

Import Predict.

Implicit Types (files : gmap string Model) (params : Query)
  (env : Env A) (st : State Model) (h : Z).

(** What a scored request returns. *)
Lemma score_inv env h (inc : bool) (model : Model) (r : Response A) :
  score Model predict env h inc model = Ok r ->
  exists df p c cur d rd hist,
    fetch_latest_data env = Ok df /\
    predict model (features df) = Ok p /\
    getitem df "housing_price_index_value" = Ok c /\
    iloc0 c = Ok (Num cur) /\
    getitem df "ref_date" = Ok d /\
    iloc0 d = Ok rd /\
    history env inc = Ok hist /\
    r = send_success_response
          {| horizon_months := h;
             current_hpi := cur;
             predicted_hpi := p;
             percentage_change := pct_change p cur;
             ref_date := rd;
             historical := hist |}.
Proof.
  unfold score. unfold mbind, result_bind, Py.bind.
  destruct (fetch_latest_data env) as [df|] eqn:Hdf; [|done].
  destruct (predict model (features df)) as [p|] eqn:Hp; [|done].
  destruct (getitem df "housing_price_index_value") as [c|] eqn:Hc; [|done].
  destruct (iloc0 c) as [c0|] eqn:Hc0; [|done].
  destruct c0 as [cur| | |]; try done. simpl.
  destruct (getitem df "ref_date") as [d|] eqn:Hd; [|done].
  destruct (iloc0 d) as [rd|] eqn:Hrd; [|done].
  destruct (history env inc) as [hist|] eqn:Hhist; [|done].
  intros [= <-]. by exists df, p, c, cur, d, rd, hist.
Qed.

(** A scored request is a success or raises; a success has status 200. *)
Lemma score_success env h (inc : bool) (model : Model) (r : Response A) :
  score Model predict env h inc model = Ok r ->
  status r = 200 /\ exists data, body r = Success data.
Proof.
  intros (df & p & c & cur & d & rd & hist & _ & _ & _ & _ & _ & _ & _ & ->)
    %score_inv.
  split; [done|]. by eexists.
Qed.

(** A successful answer of the handler comes from a scored request. *)
Lemma do_GET_success files params env st (data : Prediction A) :
  body (fst (do_GET Model py_int predict files params env st)) = Success data ->
  exists h model,
    get_horizon py_int params = Ok h /\
    score Model predict env h (get_include_historical params) model
    = Ok (fst (do_GET Model py_int predict files params env st)).
Proof.
  unfold do_GET, do_GET_try.
  destruct (get_horizon py_int params) as [h|e].
  2:{ destruct e; done. }
  destruct (negb (int_in h HORIZONS)); [done|].
  destruct (MODELS (load_models Model files st) !! h) as [model|]; [|done].
  cbn [fst answer].
  destruct (score Model predict env h (get_include_historical params) model)
    as [r|e] eqn:Hs.
  - intros _. by exists h, model.
  - destruct e; done.
Qed.

(** C6: a request whose horizon is an integer outside
    {1, 2, 3, 6, 12, 24, 36} is answered 400 and leaves the state of the
    process as it was: the cache is not consulted and no artifact file is
    looked for or loaded. *)
Theorem do_GET_invalid_horizon files params env st h :
  get_horizon py_int params = Ok h ->
  h ∉ HORIZONS ->
  do_GET Model py_int predict files params env st
  = (send_error_response 400
       "Invalid horizon. Must be one of [1, 2, 3, 6, 12, 24, 36]",
     st).
Proof.
  intros Hh Hout. unfold do_GET, do_GET_try. rewrite Hh.
  destruct (int_in h HORIZONS) eqn:Hin; [|done].
  by apply int_in_elem_of in Hin.
Qed.

(** C7: in a process started with an empty cache, after any requests, a
    request for a supported horizon whose artifact file does not exist
    is answered 404 with an error body, not a prediction. *)
Theorem do_GET_missing_artifact
  files (requests : list (Query * Env A)) params env h :
  get_horizon py_int params = Ok h ->
  h ∈ HORIZONS ->
  files !! model_path h = None ->
  fst (do_GET Model py_int predict files params env
         (serve Model py_int predict files requests (initial Model)))
  = send_error_response 404 ("Model for horizon " ++ pretty h ++ " not found").
Proof.
  intros Hh Hin Hfile. rewrite (do_GET_supported _ _ _ _ _ _ _ h) by done.
  pose proof (load_models_sound Model files _
                (serve_sound Model py_int predict files requests _
                   (initial_sound Model files))) as Hs.
  destruct (MODELS _ !! h) as [m|] eqn:Hm; [|done].
  apply Hs in Hm. congruence.
Qed.

Lemma fetch_latest_data_empty env :
  toronto_housing env = [] ->
  fetch_latest_data env
  = Raise (ValueError
             (if (unset (SUPABASE_URL env)
                  || unset (SUPABASE_SERVICE_ROLE_KEY env))%bool
              then "Missing Supabase credentials in environment variables"
              else "No data found in toronto_housing table")).
Proof.
  intros Hempty. unfold fetch_latest_data. rewrite Hempty. simpl.
  by destruct (unset (SUPABASE_URL env) || unset (SUPABASE_SERVICE_ROLE_KEY env))%bool.
Qed.

Lemma score_empty_table env h (inc : bool) (model : Model) :
  toronto_housing env = [] ->
  score Model predict env h inc model
  = Raise (ValueError
             (if (unset (SUPABASE_URL env)
                  || unset (SUPABASE_SERVICE_ROLE_KEY env))%bool
              then "Missing Supabase credentials in environment variables"
              else "No data found in toronto_housing table")).
Proof.
  intros Hempty. unfold score. by rewrite (fetch_latest_data_empty _ Hempty).
Qed.

(** C9, as the code has it: while the table is empty every request is
    answered with an error body, never a prediction; when the horizon is
    supported, its model is loaded and the credentials are set, the
    answer is the 400 of an invalid input, with the message that no data
    was found. *)
Theorem do_GET_empty_table files params env st :
  toronto_housing env = [] ->
  (exists msg,
     body (fst (do_GET Model py_int predict files params env st)) = Error msg) /\
  (forall h model,
     get_horizon py_int params = Ok h ->
     h ∈ HORIZONS ->
     MODELS (load_models Model files st) !! h = Some model ->
     unset (SUPABASE_URL env) = false ->
     unset (SUPABASE_SERVICE_ROLE_KEY env) = false ->
     fst (do_GET Model py_int predict files params env st)
     = send_error_response 400 "No data found in toronto_housing table").
Proof.
  intros Hempty. split.
  - unfold do_GET, do_GET_try.
    destruct (get_horizon py_int params) as [h|e].
    2:{ destruct e; by eexists. }
    destruct (negb (int_in h HORIZONS)); [by eexists|].
    destruct (MODELS (load_models Model files st) !! h) as [model|];
      [|by eexists].
    rewrite (score_empty_table _ _ _ _ Hempty). by eexists.
  - intros h model Hh Hin Hm Hurl Hkey.
    rewrite (do_GET_supported _ _ _ _ _ _ _ h) by done.
    rewrite Hm. cbn [fst].
    rewrite (score_empty_table _ _ _ _ Hempty), Hurl, Hkey. done.
Qed.

Lemma mapM_raise {T U : Type} (f : T -> result U) (l : list T) (e : exn) :
  mapM f l = Raise e -> exists x, x ∈ l /\ f x = Raise e.
Proof.
  induction l as [|x l IH]; simpl; [done|].
  unfold mbind, result_bind, Py.bind.
  destruct (f x) as [y|e'] eqn:Hx.
  - destruct (mapM f l) as [k|e'']; [done|].
    intros [= <-]. destruct IH as (z & Hz & Hfz); [done|].
    exists z. split; [by apply list_elem_of_further|done].
  - intros [= <-]. exists x. split; [apply list_elem_of_here|done].
Qed.

(** Fetching the history never raises a [ValueError]. *)
Lemma history_raise env (inc : bool) (e : exn) :
  history env inc = Raise e -> forall msg, e ≠ ValueError msg.
Proof.
  unfold history, fetch_historical_data. destruct inc; [|done].
  destruct (unset (SUPABASE_URL env) || unset (SUPABASE_SERVICE_ROLE_KEY env))%bool.
  { unfold mbind, result_bind, Py.bind. by intros [= <-]. }
  unfold mbind at 1, result_bind at 1, Py.bind at 1.
  destruct (mapM _ _) as [k|e'] eqn:Hm; [done|].
  intros [= <-]. apply mapM_raise in Hm as (r & _ & Hr).
  revert Hr. unfold record_get, mbind, result_bind, Py.bind.
  destruct (List.find _ r); [|by intros [= <-]].
  destruct (List.find _ r); [done|by intros [= <-]].
Qed.

Lemma answer_raise_not_400 (e : exn) :
  (forall msg, e ≠ ValueError msg) ->
  status (answer (Raise e) : Response A) = 500.
Proof. intros He. destruct e; try done. by destruct (He msg). Qed.

(** Whether a scored request is answered 400 does not depend on the
    history being asked for. *)
Lemma score_status_400 env h (inc inc' : bool) (model : Model) :
  status (answer (score Model predict env h inc model)) = 400 <->
  status (answer (score Model predict env h inc' model)) = 400.
Proof.
  unfold score. unfold mbind, result_bind, Py.bind.
  destruct (fetch_latest_data env) as [df|]; [|done].
  destruct (predict model (features df)) as [p|]; [|done].
  destruct (getitem df "housing_price_index_value") as [c|]; [|done].
  destruct (iloc0 c) as [c0|]; [|done].
  destruct (as_number c0) as [cur|]; [|done].
  destruct (getitem df "ref_date") as [d|]; [|done].
  destruct (iloc0 d) as [rd|]; [|done].
  destruct (history env inc) as [hist|e] eqn:Hh,
           (history env inc') as [hist'|e'] eqn:Hh'.
  - by split.
  - rewrite (answer_raise_not_400 e') by by eapply history_raise.
    split; intros Hx; simpl in Hx; discriminate.
  - rewrite (answer_raise_not_400 e) by by eapply history_raise.
    split; intros Hx; simpl in Hx; discriminate.
  - rewrite (answer_raise_not_400 e) by by eapply history_raise.
    rewrite (answer_raise_not_400 e') by by eapply history_raise. done.
Qed.

(** C10: [include_historical] is read as true exactly when its first
    value is one of the sixteen spellings of ["true"], that is ["true"]
    up to the case of the letters; any other value, or none, is read as
    false.  Whatever the value, it does not change whether the request
    is answered 400, and a prediction carries the history exactly when
    it is read as true. *)
Theorem get_include_historical_spec
  files params env st (v : option (string * list string)) :
  (get_include_historical params = true <->
   exists s vs, params !! "include_historical" = Some (s, vs) /\
                s ∈ true_spellings) /\
  (status (fst (do_GET Model py_int predict files
                  (partial_alter (fun _ => v) "include_historical" params)
                  env st)) = 400 <->
   status (fst (do_GET Model py_int predict files params env st)) = 400) /\
  match body (fst (do_GET Model py_int predict files params env st)) with
  | Success data =>
      is_Some (historical data) <-> get_include_historical params = true
  | Error _ => True
  end.
Proof.
  split_and!.
  - unfold get_include_historical.
    destruct (params !! "include_historical") as [[s vs]|]; simpl.
    + rewrite String.eqb_eq, lower_true.
      split; [by eauto|]. by intros (? & ? & [= <- <-] & ?).
    + split; [done|]. by intros (? & ? & ? & ?).
  - unfold do_GET, do_GET_try, get_horizon, Query in *.
    rewrite lookup_partial_alter_ne by done.
    destruct (params !! "horizon") as [[s vs]|].
    + destruct (py_int s) as [h|e]; [|done].
      destruct (negb (int_in h HORIZONS)); [done|].
      destruct (MODELS (load_models Model files st) !! h); [|done].
      apply score_status_400.
    + destruct (negb (int_in 1 HORIZONS)); [done|].
      destruct (MODELS (load_models Model files st) !! 1); [|done].
      apply score_status_400.
  - destruct (body _) as [data|msg] eqn:Hb; [|done].
    pose proof (do_GET_success _ _ _ _ _ Hb) as (h & model & _ & Hs).
    apply score_inv in Hs
      as (df & p & c & cur & d & rd & hist & _ & _ & _ & _ & _ & _ & Hh & Hr).
    rewrite Hr in Hb. injection Hb as <-. simpl.
    revert Hh. unfold history.
    destruct (get_include_historical params).
    + unfold mbind, result_bind, Py.bind.
      destruct (fetch_historical_data env 12); [|done].
      intros [= <-]. split; [done|by eexists].
    + intros [= <-]. split; [by intros [? ?]|done].
Qed.

End ServiceClaims.

(** ** Rounding in binary64

    The operations of [numpy.float64] are those of [PrimFloat], which
    the standard library specifies by the functions of [SpecFloat] on
    a sign, a mantissa and an exponent.  What follows bounds the error
    of a difference, of a quotient and of a product with respect to the
    rationals the numbers stand for. *)

(** *** The number of digits of a mantissa *)

Section Binary64Digits.

Lemma digits2_pos_bounds (p : positive) :
  2 ^ (Zpos (digits2_pos p) - 1) <= Zpos p < 2 ^ Zpos (digits2_pos p).
Proof.
  induction p as [p IH|p IH|]; simpl digits2_pos.
  - rewrite Pos2Z.inj_succ, (Pos2Z.inj_xI p).
    replace (Z.succ (Zpos (digits2_pos p)) - 1)
      with (Z.succ (Zpos (digits2_pos p) - 1)) by lia.
    rewrite !Z.pow_succ_r by lia. lia.
  - rewrite Pos2Z.inj_succ, (Pos2Z.inj_xO p).
    replace (Z.succ (Zpos (digits2_pos p)) - 1)
      with (Z.succ (Zpos (digits2_pos p) - 1)) by lia.
    rewrite !Z.pow_succ_r by lia. lia.
  - simpl. lia.
Qed.

Lemma Zdigits2_nonneg (m : Z) : 0 <= Zdigits2 m.
Proof. destruct m; simpl; lia. Qed.

Lemma Zdigits2_bounds (m : Z) :
  0 < m -> 2 ^ (Zdigits2 m - 1) <= m < 2 ^ Zdigits2 m.
Proof. destruct m as [|p|p]; try lia. intros _. apply digits2_pos_bounds. Qed.

Lemma Zdigits2_upper (m : Z) : 0 <= m -> m < 2 ^ Zdigits2 m.
Proof.
  intros Hm. destruct (Z.eq_dec m 0) as [->|Hne]; [simpl; lia|].
  apply Zdigits2_bounds. lia.
Qed.

(** A number that reaches [2 ^ k] has more than [k] digits. *)
Lemma Zdigits2_lower (m k : Z) : 2 ^ k <= m -> 0 <= k -> k + 1 <= Zdigits2 m.
Proof.
  intros Hk Hk0.
  assert (Hm : 0 < m) by (pose proof (Z.pow_pos_nonneg 2 k); lia).
  destruct (Zdigits2_bounds m Hm) as [_ Hu].
  destruct (Z.le_gt_cases (k + 1) (Zdigits2 m)) as [|Hlt]; [done|].
  assert (2 ^ Zdigits2 m <= 2 ^ k)
    by (apply Z.pow_le_mono_r; [lia|lia]).
  lia.
Qed.

(** A number below [2 ^ k] has at most [k] digits. *)
Lemma Zdigits2_le (m k : Z) : 0 <= m < 2 ^ k -> 0 <= k -> Zdigits2 m <= k.
Proof.
  intros [Hm Hk] Hk0.
  destruct (Z.eq_dec m 0) as [->|Hne]; [simpl; lia|].
  destruct (Zdigits2_bounds m ltac:(lia)) as [Hl _].
  destruct (Z.le_gt_cases (Zdigits2 m) k) as [|Hlt]; [done|].
  assert (2 ^ k <= 2 ^ (Zdigits2 m - 1))
    by (apply Z.pow_le_mono_r; lia).
  lia.
Qed.

End Binary64Digits.

(** *** Shifting a mantissa right *)

Section Binary64Shifts.

(** The place of the rational [N / D] between [m] and [m + 1], as the
    rounding reads it: [N / D] is [m], or it is below, at or above
    [m + 1/2]. *)
Definition loc_of (N D m : Z) : location :=
  if N =? m * D then loc_Exact
  else loc_Inexact (2 * N ?= (2 * m + 1) * D).

Definition inbetween (N D : Z) (mrs : shr_record) : Prop :=
  0 < D /\ 0 <= shr_m mrs /\
  shr_m mrs * D <= N < (shr_m mrs + 1) * D /\
  loc_of_shr_record mrs = loc_of N D (shr_m mrs).

Lemma shr_1_inbetween (N D : Z) (mrs : shr_record) :
  inbetween N D mrs ->
  inbetween N (2 * D) (shr_1 mrs) /\ shr_m (shr_1 mrs) = shr_m mrs / 2.
Proof.
  destruct mrs as [m r s]. unfold inbetween, loc_of.
  cbn [shr_m]. intros (HD & Hm & HN & Hl).
  assert (Hcases : m = 0 \/ m = 1 \/
                   (exists p, m = Zpos p~0) \/ (exists p, m = Zpos p~1)).
  { destruct m as [|[p|p|]|p]; try lia; eauto. }
  destruct Hcases as [->|[->|[[p ->]|[p ->]]]];
    cbn [shr_1 shr_m orb];
    try rewrite (Pos2Z.inj_xO p) in *; try rewrite (Pos2Z.inj_xI p) in *;
    (split;
     [|first [reflexivity
             | apply Z.div_unique with (r := 0); lia
             | apply Z.div_unique with (r := 1); lia]]);
    (split_and!; try lia);
    revert Hl; unfold loc_of_shr_record;
    repeat match goal with
           | |- context [?a =? ?b] => destruct (Z.eqb_spec a b)
           | |- context [?a ?= ?b] => destruct (Z.compare_spec a b)
           end;
    destruct r, s; cbn [orb]; try discriminate; try reflexivity;
    try (exfalso; lia).
Qed.

Lemma iter_shr_1_inbetween (p : positive) (N D : Z) (mrs : shr_record) :
  inbetween N D mrs ->
  inbetween N (D * 2 ^ Zpos p) (SpecFloat.iter_pos shr_1 p mrs) /\
  shr_m (SpecFloat.iter_pos shr_1 p mrs) = shr_m mrs / 2 ^ Zpos p.
Proof.
  revert N D mrs.
  induction p as [p IH|p IH|]; intros N D mrs Hin; cbn [SpecFloat.iter_pos].
  - apply shr_1_inbetween in Hin as [Hin H1].
    apply IH in Hin as [Hin H2]. apply IH in Hin as [Hin H3].
    assert (Hpow : 2 ^ Zpos p~1 = 2 * 2 ^ Zpos p * 2 ^ Zpos p).
    { rewrite (Pos2Z.inj_xI p).
      replace (2 * Zpos p + 1) with (Z.succ (Zpos p + Zpos p)) by lia.
      rewrite Z.pow_succ_r, Z.pow_add_r by lia. lia. }
    rewrite Hpow. split.
    + replace (D * (2 * 2 ^ Zpos p * 2 ^ Zpos p))
        with (2 * D * 2 ^ Zpos p * 2 ^ Zpos p) by lia. done.
    + rewrite H3, H2, H1.
      pose proof (Z.pow_pos_nonneg 2 (Zpos p) ltac:(lia) ltac:(lia)).
      rewrite !Z.div_div by lia. f_equal. lia.
  - apply IH in Hin as [Hin H2]. apply IH in Hin as [Hin H3].
    assert (Hpow : 2 ^ Zpos p~0 = 2 ^ Zpos p * 2 ^ Zpos p).
    { rewrite (Pos2Z.inj_xO p).
      replace (2 * Zpos p) with (Zpos p + Zpos p) by lia.
      rewrite Z.pow_add_r by lia. lia. }
    rewrite Hpow. split.
    + replace (D * (2 ^ Zpos p * 2 ^ Zpos p))
        with (D * 2 ^ Zpos p * 2 ^ Zpos p) by lia. done.
    + rewrite H3, H2.
      pose proof (Z.pow_pos_nonneg 2 (Zpos p) ltac:(lia) ltac:(lia)).
      rewrite !Z.div_div by lia. done.
  - apply shr_1_inbetween in Hin as [Hin H1].
    change (2 ^ 1) with 2. split; [|done].
    by replace (D * 2) with (2 * D) by lia.
Qed.

(** [shr]: a shift by [n] places, none when [n] is not positive. *)
Lemma shr_inbetween (N D : Z) (mrs : shr_record) (e n : Z) :
  inbetween N D mrs ->
  inbetween N (D * 2 ^ Z.max n 0) (fst (shr mrs e n)) /\
  shr_m (fst (shr mrs e n)) = shr_m mrs / 2 ^ Z.max n 0 /\
  snd (shr mrs e n) = e + Z.max n 0.
Proof.
  intros Hin. destruct n as [|p|p]; cbn [shr fst snd].
  - change (Z.max 0 0) with 0. rewrite Z.mul_1_r, Z.div_1_r, Z.add_0_r. done.
  - replace (Z.max (Zpos p) 0) with (Zpos p) by lia.
    destruct (iter_shr_1_inbetween p N D mrs Hin). done.
  - replace (Z.max (Zneg p) 0) with 0 by lia.
    rewrite Z.mul_1_r, Z.div_1_r, Z.add_0_r. done.
Qed.

Lemma loc_of_shr_record_of_loc (m : Z) (l : location) :
  loc_of_shr_record (shr_record_of_loc m l) = l /\
  shr_m (shr_record_of_loc m l) = m.
Proof. by destruct l as [|[]]. Qed.

(** Rounding to nearest, ties to even: the mantissa is kept or the next
    one is taken, and is no farther than a half from [N / D]. *)
Lemma round_nearest_even_correct (N D m : Z) :
  0 < D -> m * D <= N < (m + 1) * D ->
  let m' := round_nearest_even m (loc_of N D m) in
  m <= m' <= m + 1 /\
  Z.abs (2 * m' * D - 2 * N) <= D /\
  (loc_of N D m = loc_Exact -> m' = m).
Proof.
  intros HD HN. unfold loc_of.
  destruct (Z.eqb_spec N (m * D)) as [->|Hne]; cbn [round_nearest_even].
  - split_and!; [lia|lia|lia|done].
  - destruct (Z.compare_spec (2 * N) ((2 * m + 1) * D)) as [He|Hlt|Hgt].
    + destruct (Z.even m); split_and!; try lia; done.
    + split_and!; try lia; done.
    + split_and!; try lia; done.
Qed.

End Binary64Shifts.

(** *** Rounding a mantissa *)

Section Binary64Rounding.

Lemma fexp_eq (e : Z) : fexp prec emax e = Z.max (e - 53) (-1074).
Proof. reflexivity. Qed.

Lemma shr_nonpos (mrs : shr_record) (e n : Z) :
  n <= 0 -> shr mrs e n = (mrs, e).
Proof. destruct n; [done|lia|done]. Qed.

(** [binary_round_aux] on a mantissa [mx] at exponent [ex] that stands
    for the rational [N / D * 2 ^ ex], with [N / D] between [mx] and
    [mx + 1] at the place [lx]: the result is the mantissa [m2] at the
    exponent [e1], no farther than a half from the rational at this
    exponent; it has 53 digits unless [e1] is the least exponent, and is
    the rational itself when nothing is shifted out. *)
Lemma binary_round_aux_correct
  (s : bool) (mx ex : Z) (lx : location) (N D : Z) :
  0 < D -> 0 <= mx -> mx * D <= N < (mx + 1) * D ->
  lx = loc_of N D mx ->
  ex <= fexp prec emax (Zdigits2 mx + ex) ->
  let e1 := fexp prec emax (Zdigits2 mx + ex) in
  exists m2 : Z,
    0 <= m2 /\
    Z.abs (2 * m2 * (D * 2 ^ (e1 - ex)) - 2 * N) <= D * 2 ^ (e1 - ex) /\
    (-1074 < e1 -> 2 ^ 52 <= m2) /\
    (e1 = ex -> lx = loc_Exact -> m2 = mx) /\
    match binary_round_aux prec emax s mx ex lx with
    | S754_zero s' => s' = s /\ m2 = 0
    | S754_finite s' m e =>
        s' = s /\ exists k, 0 <= k /\ e = e1 + k /\ Zpos m * 2 ^ k = m2
    | S754_infinity s' => s' = s
    | S754_nan => False
    end.
Proof.
  intros HD Hmx HN Hlx HP e1.
  assert (Hin : inbetween N D (shr_record_of_loc mx lx)).
  { destruct (loc_of_shr_record_of_loc mx lx) as [Hl Hm].
    unfold inbetween. rewrite Hl, Hm. done. }
  unfold binary_round_aux, shr_fexp. fold e1.
  set (n := e1 - ex). assert (Hn : 0 <= n) by (unfold n, e1; lia).
  destruct (shr_inbetween N D _ ex n Hin) as (Hin1 & Hm1 & He1).
  destruct (shr (shr_record_of_loc mx lx) ex n) as [mrs1 e1'].
  cbn [fst snd] in Hin1, Hm1, He1.
  replace (Z.max n 0) with n in * by lia.
  assert (e1' = e1) as -> by (unfold n in He1; lia). clear He1.
  destruct (loc_of_shr_record_of_loc mx lx) as [_ Hmx'].
  rewrite Hmx' in Hm1. clear Hmx'.
  destruct Hin1 as (HD1 & Hm1pos & HN1 & Hl1).
  set (m1 := shr_m mrs1) in *. rewrite Hl1.
  destruct (round_nearest_even_correct N (D * 2 ^ n) m1 HD1 HN1)
    as (Hm2 & Herr & Hexact).
  set (m2 := round_nearest_even m1 (loc_of N (D * 2 ^ n) m1)) in *.
  assert (Hpown : 0 < 2 ^ n) by (apply Z.pow_pos_nonneg; lia).
  (* the shifted mantissa has at most 53 digits *)
  assert (Hm1lt : m1 < 2 ^ 53).
  { rewrite Hm1. apply Z.div_lt_upper_bound; [done|].
    pose proof (Zdigits2_upper mx Hmx) as Hu.
    pose proof (Zdigits2_nonneg mx) as Hd0.
    assert (Hle : 2 ^ Zdigits2 mx <= 2 ^ (n + 53)).
    { apply Z.pow_le_mono_r; [lia|].
      unfold n, e1. rewrite fexp_eq. lia. }
    rewrite Z.pow_add_r in Hle by lia. lia. }
  assert (He1min : -1074 <= e1) by (unfold e1; rewrite fexp_eq; lia).
  (* and 53 digits exactly above the least exponent *)
  assert (Hnormal : -1074 < e1 -> 2 ^ 52 <= m1).
  { intros He. rewrite Hm1.
    assert (Hmx0 : 0 < mx).
    { destruct (Z.eq_dec mx 0) as [->|]; [|lia].
      unfold e1 in *. simpl Zdigits2 in *. rewrite fexp_eq in *. lia. }
    apply Z.div_le_lower_bound; [done|].
    destruct (Zdigits2_bounds mx Hmx0) as [Hl _].
    assert (Hdn : Zdigits2 mx - 1 = n + 52).
    { unfold n, e1 in *. rewrite fexp_eq in *. lia. }
    rewrite Hdn, Z.pow_add_r in Hl by lia. lia. }
  exists m2. split; [lia|]. split; [done|].
  split; [intros He; specialize (Hnormal He); lia|].
  split.
  { intros He Hex. subst lx.
    assert (n = 0) as Hn0 by (unfold n; lia).
    rewrite Hn0 in *. rewrite Z.pow_0_r, Z.mul_1_r in *.
    rewrite Z.div_1_r in Hm1. rewrite <- Hm1. apply Hexact.
    rewrite Hm1. done. }
  (* the second shift *)
  destruct (Z.eq_dec m2 0) as [H0|Hne0].
  { rewrite H0. simpl Zdigits2. rewrite shr_nonpos
      by (rewrite fexp_eq; lia).
    cbn [shr_m shr_record_of_loc]. done. }
  destruct (Z.eq_dec m2 (2 ^ 53)) as [H53|Hne53].
  { rewrite H53.
    change (Zdigits2 (2 ^ 53)) with 54.
    replace (fexp prec emax (54 + e1) - e1) with 1
      by (rewrite fexp_eq; lia).
    cbn -[Z.leb Z.sub Z.add emax prec].
    destruct (e1 + 1 <=? emax - prec); [|done].
    split; [done|]. exists 1. split_and!; [lia|done|done]. }
  assert (Hd2 : Zdigits2 m2 <= 53).
  { apply Zdigits2_le; [|lia]. lia. }
  rewrite shr_nonpos by (rewrite fexp_eq; lia).
  cbn [shr_m shr_record_of_loc].
  destruct m2 as [|p2|p2] eqn:Hp2; [lia| |lia].
  destruct (e1 <=? emax - prec); [|done].
  split; [done|]. exists 0. split_and!; [lia|lia|lia].
Qed.

End Binary64Rounding.

(** *** The rational a binary64 number stands for *)

Section Binary64Values.

Local Open Scope Q_scope.

Ltac qreplace a b :=
  let H := fresh in assert (H : a == b) by ring; rewrite H; clear H.

Definition is_finite_SF (x : spec_float) : bool :=
  match x with
  | S754_zero _ | S754_finite _ _ _ => true
  | _ => false
  end.

Definition sign_Q (s : bool) : Q := if s then -1 else 1.

(** The value of a finite number; an infinity and a NaN have none, and
    read as 0. *)
Definition SF2Q (x : spec_float) : Q :=
  match x with
  | S754_finite s m e => sign_Q s * (inject_Z (Zpos m) * 2 ^ e)
  | _ => 0
  end.

(** The rational a binary64 number stands for. *)
Definition B2Q (x : float) : Q := SF2Q (Prim2SF x).

Lemma pow2_pos (e : Z) : 0 < 2 ^ e.
Proof. by apply Qpower_0_lt. Qed.

Lemma pow2_add (a b : Z) : 2 ^ (a + b) == 2 ^ a * 2 ^ b.
Proof. by apply Qpower_plus. Qed.

Lemma pow2_inject (n : Z) : (0 <= n)%Z -> inject_Z (2 ^ n) == 2 ^ n.
Proof. intros Hn. by rewrite Zpower_Qpower. Qed.

Lemma Qabs_sign (s : bool) (a b : Q) :
  Qabs (sign_Q s * a - sign_Q s * b) == Qabs (a - b).
Proof.
  destruct s; unfold sign_Q.
  - qreplace (-1 * a - -1 * b) (- (a - b)).
    apply Qabs_opp.
  - by qreplace (1 * a - 1 * b) (a - b).
Qed.

Lemma Qabs_sign_pos (s : bool) (a : Q) : 0 <= a -> Qabs (sign_Q s * a) == a.
Proof.
  intros Ha. rewrite Qabs_Qmult, (Qabs_pos a) by done.
  assert (Hs : Qabs (sign_Q s) == 1) by (by destruct s).
  rewrite Hs. ring.
Qed.

Lemma Q_scale_bound (a v h d x : Q) :
  0 < d -> 0 < x ->
  - (h * d) <= (a - v) * d <= h * d ->
  Qabs (a * x - v * x) <= h * x.
Proof.
  intros Hd Hx [Hl Hu].
  assert (H1 : a - v <= h) by (apply (Qmult_lt_0_le_reg_r _ _ d); done).
  assert (H2 : - h <= a - v).
  { apply (Qmult_lt_0_le_reg_r _ _ d); [done|].
    by qreplace (- h * d) (- (h * d)). }
  apply Qabs_Qle_condition. split.
  - qreplace (- (h * x)) (- h * x).
    qreplace (a * x - v * x) ((a - v) * x).
    apply Qmult_le_compat_r; [done|by apply Qlt_le_weak].
  - qreplace (a * x - v * x) ((a - v) * x).
    apply Qmult_le_compat_r; [done|by apply Qlt_le_weak].
Qed.

(** The error of a rounding, from the integers of
    [binary_round_aux_correct]: a half of the last place. *)
Lemma round_error_half (m2 N D e1 ex : Z) :
  (0 < D)%Z -> (ex <= e1)%Z ->
  (Z.abs (2 * m2 * (D * 2 ^ (e1 - ex)) - 2 * N) <= D * 2 ^ (e1 - ex))%Z ->
  Qabs (inject_Z m2 * 2 ^ e1 - inject_Z N / inject_Z D * 2 ^ ex)
  <= (1 # 2) * 2 ^ e1.
Proof.
  intros HD Hle Herr.
  set (n := (e1 - ex)%Z) in *.
  assert (Hn : (0 <= n)%Z) by (unfold n; lia).
  assert (He1 : 2 ^ e1 == inject_Z (2 ^ n) * 2 ^ ex).
  { rewrite pow2_inject by done. rewrite <- pow2_add.
    by replace (n + ex)%Z with e1 by (unfold n; lia). }
  assert (HDq : 0 < inject_Z D)
    by (change (inject_Z 0 < inject_Z D); by rewrite <- Zlt_Qlt).
  rewrite He1.
  qreplace (inject_Z m2 * (inject_Z (2 ^ n) * 2 ^ ex)) (inject_Z m2 * inject_Z (2 ^ n) * 2 ^ ex).
  qreplace ((1 # 2) * (inject_Z (2 ^ n) * 2 ^ ex)) ((1 # 2) * inject_Z (2 ^ n) * 2 ^ ex).
  apply (Q_scale_bound _ _ _ (inject_Z D)); [done|apply pow2_pos|].
  assert (Heq : (inject_Z m2 * inject_Z (2 ^ n) - inject_Z N / inject_Z D)
                * inject_Z D
                == (1 # 2) * inject_Z (2 * m2 * (D * 2 ^ n) - 2 * N)).
  { unfold Z.sub. rewrite inject_Z_plus, inject_Z_opp, !inject_Z_mult.
    field. intros H0. rewrite H0 in HDq. by apply Qlt_irrefl in HDq. }
  assert (Hb : (1 # 2) * inject_Z (2 ^ n) * inject_Z D
               == (1 # 2) * inject_Z (D * 2 ^ n)).
  { rewrite inject_Z_mult. ring. }
  rewrite Heq, Hb.
  apply Z.abs_le in Herr as [Hl Hu].
  rewrite Zle_Qle in Hl, Hu. rewrite inject_Z_opp in Hl.
  split; lra.
Qed.

(** The unit roundoff of binary64 and a half of its least positive
    number. *)
Definition u64 : Q := 1 # 9007199254740992.
Definition eta64 : Q := 2 ^ (-1075).

Lemma eta64_pos : 0 < eta64.
Proof. apply pow2_pos. Qed.

(** [binary_round_aux] in the rationals: the result, when it is finite,
    is the rational up to [u64] of its magnitude, or up to [eta64] at
    the least exponent; it is the rational itself when nothing is
    shifted out. *)
Lemma binary_round_aux_error
  (s : bool) (mx ex : Z) (lx : location) (N D : Z) :
  (0 < D)%Z -> (0 <= mx)%Z -> (mx * D <= N < (mx + 1) * D)%Z ->
  lx = loc_of N D mx ->
  (ex <= fexp prec emax (Zdigits2 mx + ex))%Z ->
  is_finite_SF (binary_round_aux prec emax s mx ex lx) = true ->
  let r := SF2Q (binary_round_aux prec emax s mx ex lx) in
  let v := sign_Q s * (inject_Z N / inject_Z D * 2 ^ ex) in
  Qabs (r - v) <= u64 * Qabs r + eta64 /\
  ((-1074 < fexp prec emax (Zdigits2 mx + ex))%Z ->
   Qabs (r - v) <= u64 * Qabs r) /\
  (fexp prec emax (Zdigits2 mx + ex) = ex -> lx = loc_Exact -> r == v).
Proof.
  intros HD Hmx HN Hlx HP Hfin r v.
  destruct (binary_round_aux_correct s mx ex lx N D HD Hmx HN Hlx HP)
    as (m2 & Hm2 & Herr & Hnormal & Hexact & Hres).
  set (e1 := fexp prec emax (Zdigits2 mx + ex)) in *.
  assert (He1 : (-1074 <= e1)%Z) by (unfold e1; rewrite fexp_eq; lia).
  set (V := inject_Z m2 * 2 ^ e1).
  assert (HV : 0 <= V).
  { apply Qmult_le_0_compat; [|apply Qlt_le_weak, pow2_pos].
    change (inject_Z 0 <= inject_Z m2). by rewrite <- Zle_Qle. }
  assert (Hr : r == sign_Q s * V).
  { unfold r, V. revert Hres Hfin.
    destruct (binary_round_aux prec emax s mx ex lx) as [s'|s'| |s' m e];
      try done.
    - intros [-> ->] _. simpl. ring.
    - intros [-> (k & Hk & -> & <-)] _. cbn [SF2Q].
      rewrite inject_Z_mult, pow2_inject, (Z.add_comm e1 k), pow2_add by done.
      ring. }
  pose proof (round_error_half m2 N D e1 ex HD HP Herr) as Hhalf.
  fold V in Hhalf.
  assert (Habs : Qabs (r - v) == Qabs (V - inject_Z N / inject_Z D * 2 ^ ex)).
  { unfold v. rewrite Hr. apply Qabs_sign. }
  assert (Hrabs : Qabs r == V) by (rewrite Hr; by apply Qabs_sign_pos).
  assert (Hnorm : (-1074 < e1)%Z -> (1 # 2) * 2 ^ e1 <= u64 * V).
  { intros He. specialize (Hnormal He).
    rewrite Zle_Qle in Hnormal.
    change (inject_Z (2 ^ 52)) with (4503599627370496 # 1) in Hnormal.
    unfold V, u64. pose proof (pow2_pos e1) as Hp.
    set (B := 2 ^ e1) in *. set (M := inject_Z m2) in *.
    assert (Hmb : (4503599627370496 # 1) * B <= M * B)
      by (apply Qmult_le_compat_r; [done|by apply Qlt_le_weak]).
    lra. }
  rewrite Habs, Hrabs. split_and!.
  - destruct (Z.eq_dec e1 (-1074)%Z) as [Heq|Hne].
    + assert (Hh : (1 # 2) * 2 ^ e1 == eta64).
      { rewrite Heq. unfold eta64.
        change (-1074)%Z with (1 + -1075)%Z. rewrite pow2_add.
        change (2 ^ 1) with 2. ring. }
      rewrite Hh in Hhalf.
      assert (0 <= u64 * V) by (apply Qmult_le_0_compat; done).
      lra.
    + pose proof (Hnorm ltac:(lia)). pose proof eta64_pos. lra.
  - intros He. pose proof (Hnorm He). lra.
  - intros He Hex.
    assert (HNx : N = (mx * D)%Z).
    { subst lx. unfold loc_of in Hex.
      by destruct (Z.eqb_spec N (mx * D)). }
    assert (Hq : inject_Z N / inject_Z D == inject_Z mx).
    { rewrite HNx, inject_Z_mult. field. intros H0.
      assert (H1 : 0 < inject_Z D)
        by (change (inject_Z 0 < inject_Z D); by rewrite <- Zlt_Qlt).
      rewrite H0 in H1. by apply Qlt_irrefl in H1. }
    rewrite Hr. unfold V, v. rewrite Hq, (Hexact He Hex).
    assert (Hpow : 2 ^ e1 == 2 ^ ex) by (by rewrite He).
    by rewrite Hpow.
Qed.

End Binary64Values.

(** *** The three operations of the percentage change *)

Section Binary64Operations.

Local Open Scope Q_scope.

Ltac qreplace a b :=
  let H := fresh in assert (H : a == b) by ring; rewrite H; clear H.

Lemma sign_Q_xorb (a b : bool) : sign_Q (xorb a b) == sign_Q a * sign_Q b.
Proof. by destruct a, b. Qed.

Lemma sign_Q_negb (a : bool) : sign_Q (negb a) == - sign_Q a.
Proof. by destruct a. Qed.

Lemma inject_Z_pos_nonzero (p : positive) : ~ inject_Z (Zpos p) == 0.
Proof. intros H. by apply (inject_Z_injective (Zpos p) 0) in H. Qed.

Lemma pow2_nonzero (e : Z) : ~ 2 ^ e == 0.
Proof.
  intros H. pose proof (pow2_pos e) as Hp. rewrite H in Hp.
  by apply Qlt_irrefl in Hp.
Qed.

Lemma Qabs_zero_le (a b : Q) : a == b -> 0 <= u64 * Qabs a -> 
  Qabs (a - b) <= u64 * Qabs a.
Proof.
  intros Hab Hu. assert (H0 : a - b == 0) by (rewrite Hab; ring).
  by rewrite H0.
Qed.

Lemma u64_abs_nonneg (a : Q) : 0 <= u64 * Qabs a.
Proof. apply Qmult_le_0_compat; [done|apply Qabs_nonneg]. Qed.

(** A product by a normal number. *)
Lemma SFmul_error (x : spec_float) (sy : bool) (my : positive) (ey : Z) :
  is_finite_SF x = true -> (2 ^ 52 <= Zpos my)%Z ->
  is_finite_SF (SFmul prec emax x (S754_finite sy my ey)) = true ->
  Qabs (SF2Q (SFmul prec emax x (S754_finite sy my ey))
        - SF2Q x * SF2Q (S754_finite sy my ey))
  <= u64 * Qabs (SF2Q (SFmul prec emax x (S754_finite sy my ey))) + eta64.
Proof.
  intros Hx Hy Hfin. destruct x as [sx|sx| |sx mx ex]; try done.
  cbn [SFmul] in *.
  assert (Hd : (53 <= Zdigits2 (Zpos (mx * my)))%Z).
  { apply (Zdigits2_lower _ 52); [|lia]. rewrite Pos2Z.inj_mul.
    assert (1 <= Zpos mx)%Z by lia. nia. }
  destruct (binary_round_aux_error (xorb sx sy) (Zpos (mx * my))
              (ex + ey) loc_Exact (Zpos (mx * my)) 1) as (Herr & _ & _);
    try lia; try done.
  + unfold loc_of. by rewrite Z.mul_1_r, Z.eqb_refl.
  + rewrite fexp_eq. lia.
  + revert Herr. cbn [SF2Q].
    set (r := SF2Q _). intros Herr.
    assert (Hv : sign_Q (xorb sx sy)
                 * (inject_Z (Zpos (mx * my)) / inject_Z 1 * 2 ^ (ex + ey))
                 == sign_Q sx * (inject_Z (Zpos mx) * 2 ^ ex)
                    * (sign_Q sy * (inject_Z (Zpos my) * 2 ^ ey))).
    { rewrite sign_Q_xorb, Pos2Z.inj_mul, inject_Z_mult, pow2_add.
      change (inject_Z 1) with 1. field. }
    by rewrite Hv in Herr.
Qed.

(** The place the division reads from the remainder. *)
Lemma new_location_correct (N D q r : Z) :
  (0 < D)%Z -> (0 <= r < D)%Z -> N = (D * q + r)%Z ->
  new_location D r = loc_of N D q.
Proof.
  intros HD Hr ->. unfold new_location, loc_of.
  destruct (Z.even D) eqn:Heven;
    unfold new_location_even, new_location_odd;
    (destruct (Z.eqb_spec r 0) as [->|Hr0];
     [replace (D * q + 0 =? q * D)%Z with true
        by (symmetry; apply Z.eqb_eq; lia); done
     |replace (D * q + r =? q * D)%Z with false
        by (symmetry; apply Z.eqb_neq; lia)]); f_equal.
  - destruct (Z.compare_spec (2 * r) D),
             (Z.compare_spec (2 * (D * q + r)) ((2 * q + 1) * D));
      try done; exfalso; lia.
  - assert (Hodd : Z.odd D = true) by (by rewrite <- Z.negb_even, Heven).
    apply Z.odd_spec in Hodd as [k Hk].
    destruct (Z.compare_spec (2 * r + 1) D),
             (Z.compare_spec (2 * (D * q + r)) ((2 * q + 1) * D));
      try done; exfalso; lia.
Qed.

(** A quotient by a finite number that is not zero. *)
Lemma SFdiv_error (x : spec_float) (sy : bool) (my : positive) (ey : Z) :
  is_finite_SF x = true ->
  is_finite_SF (SFdiv prec emax x (S754_finite sy my ey)) = true ->
  Qabs (SF2Q (SFdiv prec emax x (S754_finite sy my ey))
        - SF2Q x / SF2Q (S754_finite sy my ey))
  <= u64 * Qabs (SF2Q (SFdiv prec emax x (S754_finite sy my ey))) + eta64.
Proof.
  intros Hx Hfin. destruct x as [sx|sx| |sx mx ex]; try done.
  revert Hfin. cbn [SFdiv]. unfold SFdiv_core_binary.
  set (d1 := Zdigits2 (Zpos mx)). set (d2 := Zdigits2 (Zpos my)).
  set (e' := Z.min (fexp prec emax (d1 + ex - (d2 + ey))) (ex - ey)).
  set (sh := (ex - ey - e')%Z).
  assert (Hsh : (0 <= sh)%Z) by (unfold sh, e'; lia).
  set (m' := match sh with
             | 0%Z => Zpos mx
             | Zpos _ => Z.shiftl (Zpos mx) sh
             | Zneg _ => 0%Z
             end).
  assert (Hm' : m' = (Zpos mx * 2 ^ sh)%Z).
  { unfold m'. destruct sh as [|p|p] eqn:Hp; [lia| |lia].
    by rewrite Z.shiftl_mul_pow2. }
  pose proof (Z_div_mod m' (Zpos my) ltac:(lia)) as Hdm.
  destruct (Z.div_eucl m' (Zpos my)) as [q r]. destruct Hdm as [Hq Hr].
  assert (Hpsh : (0 < 2 ^ sh)%Z) by (apply Z.pow_pos_nonneg; lia).
  assert (Hq0 : (0 <= q)%Z) by nia.
  intros Hfin.
  destruct (binary_round_aux_error (xorb sx sy) q e'
              (new_location (Zpos my) r) m' (Zpos my)) as (Herr & _ & _);
    try lia; try done.
  + by apply new_location_correct.
  + (* the quotient has the digits the exponent was chosen for *)
    assert (Hdq : (d1 + sh - d2 <= Zdigits2 q)%Z).
    { destruct (Z.le_gt_cases (d1 + sh - d2) 0) as [|Hpos];
        [pose proof (Zdigits2_nonneg q); lia|].
      enough (d1 + sh - d2 - 1 + 1 <= Zdigits2 q)%Z by lia.
      apply (Zdigits2_lower q (d1 + sh - d2 - 1)); [|lia].
      rewrite Hq in Hm'.
      destruct (digits2_pos_bounds mx) as [Hl1 _].
      destruct (digits2_pos_bounds my) as [_ Hu2].
      change (Zpos (digits2_pos mx)) with d1 in Hl1.
      change (Zpos (digits2_pos my)) with d2 in Hu2.
      assert (Hd1 : (1 <= d1)%Z) by (unfold d1; simpl; lia).
      assert (Hd2 : (1 <= d2)%Z) by (unfold d2; simpl; lia).
      assert (Hp : (2 ^ (d1 - 1 + sh) = 2 ^ (d1 + sh - d2 - 1) * 2 ^ d2)%Z).
      { rewrite <- Z.pow_add_r by lia. f_equal. lia. }
      assert (Hp' : (2 ^ (d1 - 1 + sh) = 2 ^ (d1 - 1) * 2 ^ sh)%Z)
        by (rewrite <- Z.pow_add_r by lia; done).
      assert (Hk : (0 <= 2 ^ (d1 + sh - d2 - 1))%Z)
        by (apply Z.pow_nonneg; lia).
      assert (Hlow : (2 ^ (d1 + sh - d2 - 1) * 2 ^ d2 <= Zpos mx * 2 ^ sh)%Z)
        by (rewrite <- Hp, Hp'; apply Z.mul_le_mono_nonneg_r; lia).
      destruct (Z.le_gt_cases (2 ^ (d1 + sh - d2 - 1)) q) as [|Hlt]; [done|].
      exfalso. nia. }
    assert (He' : e' = Z.min (Z.max (d1 + ex - (d2 + ey) - 53) (-1074))
                         (ex - ey))
      by (unfold e'; by rewrite fexp_eq).
    assert (Hshe : sh = (ex - ey - e')%Z) by reflexivity.
    rewrite fexp_eq. clearbody m' sh e' d1 d2. lia.
  + revert Herr. cbn [SF2Q]. set (rr := SF2Q _). intros Herr.
    assert (Hv : sign_Q (xorb sx sy)
                 * (inject_Z m' / inject_Z (Zpos my) * 2 ^ e')
                 == sign_Q sx * (inject_Z (Zpos mx) * 2 ^ ex)
                    / (sign_Q sy * (inject_Z (Zpos my) * 2 ^ ey))).
    { rewrite sign_Q_xorb, Hm', inject_Z_mult, pow2_inject by done.
      assert (Hex : 2 ^ ex == 2 ^ sh * 2 ^ e' * 2 ^ ey).
      { rewrite <- !pow2_add. by replace (sh + e' + ey)%Z with ex
          by (unfold sh; lia). }
      rewrite Hex.
      pose proof (inject_Z_pos_nonzero my). pose proof (pow2_nonzero ey).
      destruct sx, sy; unfold sign_Q; field; split_and!; done. }
    by rewrite Hv in Herr.
Qed.

Lemma iter_xO (m d : positive) :
  Zpos (Pos.iter xO m d) = (Zpos m * 2 ^ Zpos d)%Z /\
  Zpos (digits2_pos (Pos.iter xO m d)) = (Zpos (digits2_pos m) + Zpos d)%Z.
Proof.
  induction d as [|d [IH1 IH2]] using Pos.peano_ind.
  - cbn [Pos.iter digits2_pos]. split; [|lia].
    rewrite (Pos2Z.inj_xO m). change (2 ^ 1)%Z with 2%Z. lia.
  - rewrite Pos.iter_succ. cbn [digits2_pos].
    rewrite (Pos2Z.inj_xO (Pos.iter xO m d)), IH1, !Pos2Z.inj_succ,
      Z.pow_succ_r, IH2 by lia.
    split; lia.
Qed.

(** [shl_align]: the mantissa at the lesser of the two exponents. *)
Lemma shl_align_correct (m : positive) (e e' : Z) :
  snd (shl_align m e e') = Z.min e e' /\
  Zpos (fst (shl_align m e e')) = (Zpos m * 2 ^ (e - Z.min e e'))%Z /\
  Zdigits2 (Zpos (fst (shl_align m e e')))
  = (Zdigits2 (Zpos m) + (e - Z.min e e'))%Z.
Proof.
  unfold shl_align. destruct (e' - e)%Z as [|d|d] eqn:Hd; cbn [fst snd].
  - replace (Z.min e e') with e by lia.
    rewrite Z.sub_diag, Z.mul_1_r, Z.add_0_r. done.
  - replace (Z.min e e') with e by lia.
    rewrite Z.sub_diag, Z.mul_1_r, Z.add_0_r. done.
  - replace (Z.min e e') with e' by lia.
    replace (e - e')%Z with (Zpos d) by lia.
    destruct (iter_xO m d) as [H1 H2]. cbn [Zdigits2]. done.
Qed.

(** [binary_round] on a mantissa at an exponent that is not below the
    least one: only a number with more than 53 digits is rounded. *)
Lemma binary_round_error (s : bool) (m : positive) (e : Z) :
  (-1074 <= e)%Z ->
  is_finite_SF (binary_round prec emax s m e) = true ->
  Qabs (SF2Q (binary_round prec emax s m e)
        - sign_Q s * (inject_Z (Zpos m) * 2 ^ e))
  <= u64 * Qabs (SF2Q (binary_round prec emax s m e)).
Proof.
  intros He. unfold binary_round.
  set (F := fexp prec emax (Zpos (digits2_pos m) + e)).
  destruct (shl_align_correct m e F) as (Hez & Hmz & Hdz).
  destruct (shl_align m e F) as [mz ez]. cbn [fst snd] in Hez, Hmz, Hdz.
  intros Hfin.
  assert (HF : fexp prec emax (Zdigits2 (Zpos mz) + ez) = F).
  { unfold F. f_equal. rewrite Hdz. cbn [Zdigits2]. lia. }
  assert (Hv : sign_Q s * (inject_Z (Zpos mz) / inject_Z 1 * 2 ^ ez)
               == sign_Q s * (inject_Z (Zpos m) * 2 ^ e)).
  { rewrite Hmz, inject_Z_mult, pow2_inject by lia.
    assert (Hpow : 2 ^ e == 2 ^ (e - Z.min e F) * 2 ^ ez).
    { rewrite <- pow2_add. by replace (e - Z.min e F + ez)%Z with e by lia. }
    rewrite Hpow. change (inject_Z 1) with 1. field. }
  destruct (binary_round_aux_error s (Zpos mz) ez loc_Exact (Zpos mz) 1)
    as (_ & Hnormal & Hexact); try lia; try done.
  - unfold loc_of. by rewrite Z.mul_1_r, Z.eqb_refl.
  - rewrite HF, Hv in *.
    destruct (Z.eq_dec F ez) as [Heq|Hne].
    + apply Qabs_zero_le; [by apply Hexact|apply u64_abs_nonneg].
    + apply Hnormal. lia.
Qed.

Lemma binary_normalize_error (m e : Z) :
  (-1074 <= e)%Z ->
  is_finite_SF (binary_normalize prec emax m e false) = true ->
  Qabs (SF2Q (binary_normalize prec emax m e false) - inject_Z m * 2 ^ e)
  <= u64 * Qabs (SF2Q (binary_normalize prec emax m e false)).
Proof.
  intros He. destruct m as [|p|p]; cbn [binary_normalize].
  - intros _. cbn [SF2Q]. apply Qabs_zero_le; [|apply u64_abs_nonneg].
    change (inject_Z 0) with 0. ring.
  - intros Hfin. pose proof (binary_round_error false p e He Hfin) as Hb.
    assert (Hv : sign_Q false * (inject_Z (Zpos p) * 2 ^ e)
                 == inject_Z (Zpos p) * 2 ^ e) by (unfold sign_Q; ring).
    by rewrite Hv in Hb.
  - intros Hfin. pose proof (binary_round_error true p e He Hfin) as Hb.
    assert (Hv : sign_Q true * (inject_Z (Zpos p) * 2 ^ e)
                 == inject_Z (Zneg p) * 2 ^ e).
    { change (Zneg p) with (- Zpos p)%Z. rewrite inject_Z_opp.
      unfold sign_Q. ring. }
    by rewrite Hv in Hb.
Qed.

(** The exponent of a number in the format is not below the least
    one. *)
Lemma valid_binary_exponent (s : bool) (m : positive) (e : Z) :
  valid_binary prec emax (S754_finite s m e) = true -> (-1074 <= e)%Z.
Proof.
  cbn [valid_binary]. unfold bounded, canonical_mantissa.
  intros [Hc _]%andb_true_iff. apply Z.eqb_eq in Hc.
  rewrite fexp_eq in Hc. lia.
Qed.

Lemma cond_Zopp_Q (s : bool) (m : Z) :
  inject_Z (cond_Zopp s m) == sign_Q s * inject_Z m.
Proof.
  destruct s; unfold cond_Zopp, sign_Q.
  - rewrite inject_Z_opp. ring.
  - ring.
Qed.

(** A difference of two numbers of the format. *)
Lemma SFsub_error (x y : spec_float) :
  valid_binary prec emax x = true -> valid_binary prec emax y = true ->
  is_finite_SF x = true -> is_finite_SF y = true ->
  is_finite_SF (SFsub prec emax x y) = true ->
  Qabs (SF2Q (SFsub prec emax x y) - (SF2Q x - SF2Q y))
  <= u64 * Qabs (SF2Q (SFsub prec emax x y)).
Proof.
  intros Hvx Hvy Hx Hy.
  destruct x as [sx|sx| |sx mx ex], y as [sy|sy| |sy my ey]; try done.
  - (* 0 - 0 *)
    intros _. apply Qabs_zero_le; [|apply u64_abs_nonneg].
    cbn [SFsub]. destruct sx, sy; cbn [SF2Q]; ring.
  - (* 0 - y *)
    intros _. apply Qabs_zero_le; [|apply u64_abs_nonneg].
    cbn [SFsub SF2Q]. rewrite sign_Q_negb. ring.
  - (* x - 0 *)
    intros _. apply Qabs_zero_le; [|apply u64_abs_nonneg].
    cbn [SFsub SF2Q]. ring.
  - cbn [SFsub]. apply valid_binary_exponent in Hvx, Hvy.
    set (ez := Z.min ex ey).
    destruct (shl_align_correct mx ex ez) as (_ & Hmx & _).
    destruct (shl_align_correct my ey ez) as (_ & Hmy & _).
    replace (Z.min ex ez) with ez in Hmx by (unfold ez; lia).
    replace (Z.min ey ez) with ez in Hmy by (unfold ez; lia).
    rewrite Hmx, Hmy. intros Hfin.
    pose proof (binary_normalize_error _ ez ltac:(unfold ez; lia) Hfin) as Hb.
    assert (Hv : inject_Z (cond_Zopp sx (Zpos mx * 2 ^ (ex - ez))
                           - cond_Zopp sy (Zpos my * 2 ^ (ey - ez))) * 2 ^ ez
                 == SF2Q (S754_finite sx mx ex) - SF2Q (S754_finite sy my ey)).
    { unfold Z.sub at 1. rewrite inject_Z_plus, inject_Z_opp, !cond_Zopp_Q,
        !inject_Z_mult, !pow2_inject by (unfold ez; lia).
      cbn [SF2Q].
      assert (Hpx : 2 ^ ex == 2 ^ (ex - ez) * 2 ^ ez).
      { rewrite <- pow2_add. by replace (ex - ez + ez)%Z with ex by lia. }
      assert (Hpy : 2 ^ ey == 2 ^ (ey - ez) * 2 ^ ez).
      { rewrite <- pow2_add. by replace (ey - ez + ez)%Z with ey by lia. }
      rewrite Hpx, Hpy. ring. }
    by rewrite Hv in Hb.
Qed.

End Binary64Operations.

(** *** The identity of the percentage change *)

Section PercentageChangeAlgebra.

Local Open Scope Q_scope.

Lemma eta64_small : eta64 <= u64.
Proof. apply Qle_bool_iff. by vm_compute. Qed.

(** The identity between the three rounded values, from the error of
    each operation. *)
Lemma pct_change_tolerance_Q (P C D V T : Q) :
  ~ C == 0 ->
  Qabs (D - (P - C)) <= u64 * Qabs D ->
  Qabs (V - D / C) <= u64 * Qabs V + eta64 ->
  Qabs (T - V * 100) <= u64 * Qabs T + eta64 ->
  Qabs (C * (1 + T / 100) - P)
  <= (1 # 1125899906842624) * (Qabs P + Qabs C).
Proof.
  intros HC E1 E2 E3.
  set (a1 := D - (P - C)) in *. set (a2 := V - D / C) in *.
  set (a3 := T - V * 100) in *.
  (* the magnitudes *)
  pose proof (Qabs_nonneg P) as HP0. pose proof (Qabs_nonneg C) as HC0.
  pose proof (Qabs_nonneg D) as HD0. pose proof (Qabs_nonneg V) as HV0.
  pose proof (Qabs_nonneg T) as HT0.
  pose proof (Qabs_nonneg a1) as Ha1. pose proof (Qabs_nonneg a2) as Ha2.
  pose proof (Qabs_nonneg a3) as Ha3.
  pose proof eta64_small as Heta. pose proof eta64_pos as Heta0.
  (* D, C * V and C * T from P and C *)
  assert (HD : Qabs D <= Qabs P + Qabs C + Qabs a1).
  { assert (Heq : D == P + - C + a1) by (unfold a1; ring).
    rewrite Heq at 1.
    pose proof (Qabs_triangle (P + - C) a1).
    pose proof (Qabs_triangle P (- C)) as H2. rewrite Qabs_opp in H2. lra. }
  assert (HCV : Qabs C * Qabs V <= Qabs D + Qabs C * Qabs a2).
  { rewrite <- !Qabs_Qmult.
    assert (Heq : C * V == D + C * a2) by (unfold a2; field; done).
    rewrite Heq. apply Qabs_triangle. }
  assert (HCT : Qabs C * Qabs T <= 100 * (Qabs C * Qabs V) + Qabs C * Qabs a3).
  { rewrite <- !Qabs_Qmult.
    assert (Heq : C * T == 100 * (C * V) + C * a3) by (unfold a3; ring).
    rewrite Heq.
    pose proof (Qabs_triangle (100 * (C * V)) (C * a3)) as H.
    rewrite (Qabs_Qmult 100 (C * V)) in H. by change (Qabs 100) with 100 in H. }
  assert (HG : Qabs (C * (1 + T / 100) - P)
               <= (1 # 100) * (Qabs C * Qabs a3) + Qabs C * Qabs a2 + Qabs a1).
  { assert (Heq : C * (1 + T / 100) - P
                  == (1 # 100) * (C * a3) + C * a2 + a1)
      by (unfold a1, a2, a3; field; done).
    rewrite Heq, <- !Qabs_Qmult.
    pose proof (Qabs_triangle ((1 # 100) * (C * a3) + C * a2) a1) as H1.
    pose proof (Qabs_triangle ((1 # 100) * (C * a3)) (C * a2)) as H2.
    rewrite (Qabs_Qmult (1 # 100) (C * a3)) in H2.
    change (Qabs (1 # 100)) with (1 # 100) in H2. lra. }
  (* the errors, scaled by C *)
  assert (H2 : Qabs C * Qabs a2 <= u64 * (Qabs C * Qabs V) + eta64 * Qabs C).
  { assert (H : Qabs C * Qabs a2 <= Qabs C * (u64 * Qabs V + eta64))
      by (apply Qmult_le_compat_nonneg; split; try done; apply Qle_refl).
    lra. }
  assert (H3 : Qabs C * Qabs a3 <= u64 * (Qabs C * Qabs T) + eta64 * Qabs C).
  { assert (H : Qabs C * Qabs a3 <= Qabs C * (u64 * Qabs T + eta64))
      by (apply Qmult_le_compat_nonneg; split; try done; apply Qle_refl).
    lra. }
  assert (Hz : eta64 * Qabs C <= u64 * Qabs C)
    by (apply Qmult_le_compat_r; done).
  assert (Hz0 : 0 <= eta64 * Qabs C)
    by (apply Qmult_le_0_compat; [by apply Qlt_le_weak|done]).
  assert (HCV0 : 0 <= Qabs C * Qabs V) by (by apply Qmult_le_0_compat).
  assert (HCT0 : 0 <= Qabs C * Qabs T) by (by apply Qmult_le_0_compat).
  unfold u64 in *.
  set (z := eta64 * Qabs C) in *.
  set (cv := Qabs C * Qabs V) in *. set (ct := Qabs C * Qabs T) in *.
  set (c2 := Qabs C * Qabs a2) in *. set (c3 := Qabs C * Qabs a3) in *.
  lra.
Qed.

End PercentageChangeAlgebra.

(** *** The sign of a rounded result *)

Section Binary64Signs.

Lemma shr_1_nonneg (mrs : shr_record) :
  0 <= shr_m mrs -> 0 <= shr_m (shr_1 mrs).
Proof. destruct mrs as [[|[p|p|]|p] r s]; cbn [shr_1 shr_m]; lia. Qed.

Lemma iter_shr_1_nonneg (p : positive) (mrs : shr_record) :
  0 <= shr_m mrs -> 0 <= shr_m (SpecFloat.iter_pos shr_1 p mrs).
Proof.
  revert mrs. induction p as [p IH|p IH|]; intros mrs Hm;
    cbn [SpecFloat.iter_pos].
  - by apply IH, IH, shr_1_nonneg.
  - by apply IH, IH.
  - by apply shr_1_nonneg.
Qed.

Lemma shr_fexp_nonneg (m e : Z) (l : location) :
  0 <= m -> 0 <= shr_m (fst (shr_fexp prec emax m e l)).
Proof.
  intros Hm. unfold shr_fexp, shr.
  assert (H0 : 0 <= shr_m (shr_record_of_loc m l))
    by (by destruct l as [|[]]).
  destruct (fexp prec emax (Zdigits2 m + e) - e) as [|p|p]; cbn [fst];
    [done| |done].
  by apply iter_shr_1_nonneg.
Qed.

(** A rounded result has the sign it was given. *)
Lemma binary_round_aux_sign (s : bool) (mx ex : Z) (lx : location) :
  0 <= mx ->
  match binary_round_aux prec emax s mx ex lx with
  | S754_zero s' | S754_infinity s' | S754_finite s' _ _ => s' = s
  | S754_nan => False
  end.
Proof.
  intros Hmx. unfold binary_round_aux.
  pose proof (shr_fexp_nonneg mx ex lx Hmx) as H1.
  destruct (shr_fexp prec emax mx ex lx) as [mrs1 e1]. cbn [fst] in H1.
  assert (H2 : 0 <= round_nearest_even (shr_m mrs1) (loc_of_shr_record mrs1)).
  { unfold round_nearest_even.
    destruct (loc_of_shr_record mrs1) as [|[]]; try lia.
    destruct (Z.even (shr_m mrs1)); lia. }
  pose proof (shr_fexp_nonneg _ e1 loc_Exact H2) as H3.
  destruct (shr_fexp prec emax _ e1 loc_Exact) as [mrs2 e2]. cbn [fst] in H3.
  destruct (shr_m mrs2) as [|m|m]; [done| |lia].
  by destruct (e2 <=? emax - prec).
Qed.

Local Open Scope Q_scope.

Lemma SF2Q_finite_sign (s : bool) (m : positive) (e : Z) :
  (if s then SF2Q (S754_finite s m e) < 0 else 0 < SF2Q (S754_finite s m e)).
Proof.
  assert (Hpos : 0 < inject_Z (Zpos m) * 2 ^ e).
  { apply Qmult_lt_0_compat; [|apply pow2_pos].
    change (inject_Z 0 < inject_Z (Zpos m)). rewrite <- Zlt_Qlt. lia. }
  cbn [SF2Q]. destruct s; unfold sign_Q; lra.
Qed.

(** The sign of a product by a positive number and of a quotient by a
    positive number is the sign of the other operand, when the result is
    not zero. *)
Lemma SFmul_sign (x : spec_float) (m : positive) (e : Z) :
  is_finite_SF (SFmul prec emax x (S754_finite false m e)) = true ->
  (0 <= SF2Q x -> 0 <= SF2Q (SFmul prec emax x (S754_finite false m e))) /\
  (SF2Q x <= 0 -> SF2Q (SFmul prec emax x (S754_finite false m e)) <= 0).
Proof.
  destruct x as [sx|sx| |sx mx ex]; try done. cbn [SFmul].
  pose proof (binary_round_aux_sign (xorb sx false) (Zpos (mx * m))
                (ex + e) loc_Exact ltac:(lia)) as Hs.
  pose proof (SF2Q_finite_sign sx mx ex) as Hx.
  destruct (binary_round_aux _ _ _ _ _ _) as [s'|s'| |s' m' e']; try done.
  intros _. subst s'. pose proof (SF2Q_finite_sign (xorb sx false) m' e') as Hr.
  destruct sx; cbn [xorb] in *; cbv beta iota in Hx, Hr; split; intros H; lra.
Qed.

Lemma SFdiv_sign (x : spec_float) (m : positive) (e : Z) :
  is_finite_SF (SFdiv prec emax x (S754_finite false m e)) = true ->
  (0 <= SF2Q x -> 0 <= SF2Q (SFdiv prec emax x (S754_finite false m e))) /\
  (SF2Q x <= 0 -> SF2Q (SFdiv prec emax x (S754_finite false m e)) <= 0).
Proof.
  destruct x as [sx|sx| |sx mx ex]; try done. cbn [SFdiv].
  unfold SFdiv_core_binary.
  set (sh := (ex - e - _)%Z).
  set (m' := match sh with
             | 0%Z => Zpos mx
             | Zpos _ => Z.shiftl (Zpos mx) sh
             | Zneg _ => 0%Z
             end).
  assert (Hm' : (0 <= m')%Z).
  { unfold m'. destruct sh as [|p|p]; try lia. apply Z.shiftl_nonneg. lia. }
  pose proof (Z_div_mod m' (Zpos m) ltac:(lia)) as Hdm.
  destruct (Z.div_eucl m' (Zpos m)) as [q r]. destruct Hdm as [Hq Hr].
  assert (Hq0 : (0 <= q)%Z) by nia.
  pose proof (binary_round_aux_sign (xorb sx false) q
                (Z.min (fexp prec emax (Zdigits2 (Zpos mx) + ex
                                        - (Zdigits2 (Zpos m) + e))) (ex - e))
                (new_location (Zpos m) r) Hq0) as Hs.
  pose proof (SF2Q_finite_sign sx mx ex) as Hx.
  destruct (binary_round_aux _ _ _ _ _ _) as [s'|s'| |s' m1 e1]; try done.
  intros _. subst s'. pose proof (SF2Q_finite_sign (xorb sx false) m1 e1) as Hr'.
  destruct sx; cbn [xorb] in *; cbv beta iota in Hx, Hr'; split; intros H; lra.
Qed.

End Binary64Signs.

(** ** The percentage change in exact arithmetic *)

Section ExactArithmetic.
Variable Model : Type.
Variable py_int : string -> result Z.
Variable predict : Model -> DataFrame Q -> result Q.

Import Predict.

Lemma pct_change_exact (p c : Q) :
  (~ c == 0 -> p == c * (1 + pct_change p c / 100))%Q.
Proof. intros Hc. unfold pct_change; simpl. field. done. Qed.

(** Without rounding the identity is exact: a service computing in the
    rationals would return, with a current value that is not zero, a
    percentage change with
    [predicted = current * (1 + percentage_change / 100)], and 7 for a
    current value of 150 and a prediction of 160.5. *)
Lemma do_GET_percentage_change_exact
  (files : gmap string Model) (params : Query) (env : Env Q)
  (st : State Model) (data : Prediction Q) :
  body (fst (do_GET Model py_int predict files params env st)) = Success data ->
  (~ current_hpi data == 0)%Q ->
  (predicted_hpi data
   == current_hpi data * (1 + percentage_change data / 100))%Q /\
  (pct_change (1605 # 10) 150 == 7)%Q.
Proof.
  intros Hb Hc.
  pose proof (do_GET_success _ _ _ _ _ _ _ _ Hb) as (h & model & _ & Hs).
  apply score_inv in Hs
    as (df & p & c & cur & d & rd & hist & _ & _ & _ & _ & _ & _ & _ & Hr).
  rewrite Hr in Hb. injection Hb as <-. simpl in *.
  split; [by apply pct_change_exact|by vm_compute].
Qed.

End ExactArithmetic.

(** ** The percentage change in binary64 *)

Section Binary64.
Variable Model : Type.
Variable py_int : string -> result Z.
Variable predict : Model -> DataFrame float -> result float.

Import Predict.

Lemma SFeqb_zero (a : spec_float) :
  SFeqb a (S754_zero false) = true -> exists s, a = S754_zero s.
Proof.
  destruct a as [s|s| |s m e]; unfold SFeqb; simpl.
  - intros _. by exists s.
  - destruct s; discriminate.
  - discriminate.
  - destruct s; discriminate.
Qed.

Lemma SF2Prim_special (r : float) :
  (Prim2SF r = S754_nan \/ exists s, Prim2SF r = S754_infinity s) ->
  r = infinity \/ r = neg_infinity \/ r = nan.
Proof.
  intros Hr. rewrite <- (SF2Prim_Prim2SF r).
  destruct Hr as [-> | [[|] ->]]; auto.
Qed.

(** A division by zero, positive or negative, is an infinity or a NaN,
    and stays one when multiplied by 100. *)
Lemma pct_change_zero_current (p z : float) :
  PrimFloat.eqb z 0 = true ->
  pct_change p z = infinity \/ pct_change p z = neg_infinity \/
  pct_change p z = nan.
Proof.
  intros Hz. rewrite (FloatAxioms.eqb_spec z 0) in Hz.
  apply SFeqb_zero in Hz as [s Hz].
  apply SF2Prim_special. unfold pct_change; simpl.
  rewrite mul_spec, div_spec, Hz.
  change (Prim2SF (PrimFloat.of_uint63 (Uint63.of_Z 100)))
    with (S754_finite false 7036874417766400 (-46)).
  destruct (Prim2SF (PrimFloat.sub p z)) as [sx|sx| |sx m e]; simpl; eauto.
Qed.

(** C8, as the code has it: when the current value of the latest row is
    zero and the model returns a prediction, the computation of the
    percentage change does not fail; the request is answered 200 with a
    percentage change that is an infinity or a NaN. *)
Theorem do_GET_zero_current
  (files : gmap string Model) (params : Query) (env : Env float)
  (st : State Model) (h : Z) (model : Model) (df : DataFrame float)
  (p z : float) (c d : Series float) (rd : cell float)
  (hist : option (list (cell float * cell float))) :
  get_horizon py_int params = Ok h ->
  h ∈ HORIZONS ->
  MODELS (load_models Model files st) !! h = Some model ->
  fetch_latest_data env = Ok df ->
  predict model (features df) = Ok p ->
  getitem df "housing_price_index_value" = Ok c ->
  iloc0 c = Ok (Num z) ->
  PrimFloat.eqb z 0 = true ->
  getitem df "ref_date" = Ok d ->
  iloc0 d = Ok rd ->
  history env (get_include_historical params) = Ok hist ->
  fst (do_GET Model py_int predict files params env st)
  = send_success_response
      {| horizon_months := h;
         current_hpi := z;
         predicted_hpi := p;
         percentage_change := pct_change p z;
         ref_date := rd;
         historical := hist |} /\
  (pct_change p z = infinity \/ pct_change p z = neg_infinity \/
   pct_change p z = nan).
Proof.
  intros Hh Hin Hm Hdf Hp Hc Hz Hz0 Hd Hrd Hhist.
  split; [|by apply pct_change_zero_current].
  rewrite (do_GET_supported _ _ _ _ _ _ _ h) by done.
  rewrite Hm. cbn [fst]. unfold score.
  rewrite Hdf. unfold mbind at 1, result_bind at 1, Py.bind at 1.
  rewrite Hp. unfold mbind at 1, result_bind at 1, Py.bind at 1.
  rewrite Hc. unfold mbind at 1, result_bind at 1, Py.bind at 1.
  rewrite Hz. unfold mbind at 1, result_bind at 1, Py.bind at 1.
  unfold as_number. unfold mbind at 1, result_bind at 1, Py.bind at 1.
  rewrite Hd. unfold mbind at 1, result_bind at 1, Py.bind at 1.
  rewrite Hrd. unfold mbind at 1, result_bind at 1, Py.bind at 1.
  rewrite Hhist. done.
Qed.

Local Open Scope Q_scope.

Lemma is_finite_Prim2SF (x : float) :
  PrimFloat.is_finite x = true -> is_finite_SF (Prim2SF x) = true.
Proof.
  unfold PrimFloat.is_finite, is_nan, is_infinity.
  rewrite !FloatAxioms.eqb_spec, abs_spec.
  change (Prim2SF infinity) with (S754_infinity false).
  by destruct (Prim2SF x) as [s|[|]| |s m e].
Qed.

Lemma nonzero_Prim2SF (c : float) :
  is_finite_SF (Prim2SF c) = true -> PrimFloat.eqb c 0 = false ->
  exists s m e, Prim2SF c = S754_finite s m e.
Proof.
  rewrite FloatAxioms.eqb_spec.
  change (Prim2SF 0) with (S754_zero false).
  destruct (Prim2SF c) as [s|s| |s m e]; try done.
  intros _ _. by exists s, m, e.
Qed.

Lemma SFmul_finite_inv (x : spec_float) (s : bool) (m : positive) (e : Z) :
  is_finite_SF (SFmul prec emax x (S754_finite s m e)) = true ->
  is_finite_SF x = true.
Proof. by destruct x. Qed.

Lemma SFdiv_finite_inv (x : spec_float) (s : bool) (m : positive) (e : Z) :
  is_finite_SF (SFdiv prec emax x (S754_finite s m e)) = true ->
  is_finite_SF x = true.
Proof. by destruct x. Qed.

(** In binary64, when the prediction and the current value are finite,
    the current value is not zero and the percentage change is finite,
    the three satisfy the identity up to [2^-50] of their magnitudes. *)
Lemma pct_change_tolerance (p c : float) :
  PrimFloat.is_finite p = true ->
  PrimFloat.is_finite c = true ->
  PrimFloat.eqb c 0 = false ->
  PrimFloat.is_finite (pct_change p c) = true ->
  Qabs (B2Q c * (1 + B2Q (pct_change p c) / 100) - B2Q p)
  <= (1 # 1125899906842624) * (Qabs (B2Q p) + Qabs (B2Q c)).
Proof.
  intros Hp%is_finite_Prim2SF Hc%is_finite_Prim2SF Hc0 Ht%is_finite_Prim2SF.
  destruct (nonzero_Prim2SF c Hc Hc0) as (sc & mc & ec & Hce).
  unfold B2Q. revert Ht. unfold pct_change. cbn [mul div sub of_int binary64].
  change (100 <? 0)%Z with false. cbv iota.
  rewrite mul_spec, div_spec, sub_spec.
  change (Prim2SF (PrimFloat.of_uint63 (Uint63.of_Z 100)))
    with (S754_finite false 7036874417766400 (-46)).
  unfold SF64mul, SF64div, SF64sub. rewrite Hce. intros Ht.
  pose proof (SFmul_finite_inv _ _ _ _ Ht) as Hq.
  pose proof (SFdiv_finite_inv _ _ _ _ Hq) as Hd.
  pose proof (SFsub_error (Prim2SF p) (S754_finite sc mc ec)
                (Prim2SF_valid p)
                ltac:(rewrite <- Hce; apply Prim2SF_valid)
                Hp eq_refl Hd) as E1.
  pose proof (SFdiv_error _ sc mc ec Hd Hq) as E2.
  pose proof (SFmul_error _ false 7036874417766400 (-46) Hq
                ltac:(by vm_compute) Ht) as E3.
  assert (H100 : SF2Q (S754_finite false 7036874417766400 (-46)) == 100)
    by (by vm_compute).
  rewrite H100 in E3.
  refine (pct_change_tolerance_Q _ _ _ _ _ _ E1 E2 E3).
  cbn [SF2Q]. intros H0.
  apply Qmult_integral in H0 as [H0|H0]; [by destruct sc|].
  apply Qmult_integral in H0 as [H0|H0].
  - by apply inject_Z_pos_nonzero in H0.
  - by apply pow2_nonzero in H0.
Qed.

Lemma positive_Prim2SF (c : float) :
  is_finite_SF (Prim2SF c) = true -> PrimFloat.ltb 0 c = true ->
  exists m e, Prim2SF c = S754_finite false m e.
Proof.
  rewrite ltb_spec. change (Prim2SF 0) with (S754_zero false).
  destruct (Prim2SF c) as [s|s| |[|] m e]; try done.
  intros _ _. by exists m, e.
Qed.

(** A difference has the sign of the exact difference. *)
Lemma difference_sign (D x : Q) :
  Qabs (D - x) <= u64 * Qabs D ->
  (0 < x -> 0 < D) /\ (x < 0 -> D < 0) /\ (x == 0 -> D == 0).
Proof.
  intros [Hl Hu]%Qabs_Qle_condition. unfold u64 in *.
  destruct (Qlt_le_dec D 0) as [Hneg|Hpos].
  - rewrite (Qabs_neg D) in Hl, Hu by lra.
    split_and!; intros Hx; lra.
  - rewrite (Qabs_pos D) in Hl, Hu by done.
    split_and!; intros Hx; lra.
Qed.


(** C5: in binary64, every prediction the service returns with a finite
    current value that is not zero, a finite prediction and a finite
    percentage change satisfies
    [predicted = current * (1 + percentage_change / 100)] up to [2^-50]
    of the magnitudes of the two values, the three numbers read as the
    rationals they stand for; a current value of 150.0 and a prediction
    of 160.5 give 7.000000000000001, within [2^-40] of 7. *)
Theorem do_GET_percentage_change
  (files : gmap string Model) (params : Query) (env : Env float)
  (st : State Model) (data : Prediction float) :
  body (fst (do_GET Model py_int predict files params env st)) = Success data ->
  PrimFloat.is_finite (current_hpi data) = true ->
  PrimFloat.eqb (current_hpi data) 0 = false ->
  PrimFloat.is_finite (predicted_hpi data) = true ->
  PrimFloat.is_finite (percentage_change data) = true ->
  Qabs (B2Q (current_hpi data) * (1 + B2Q (percentage_change data) / 100)
        - B2Q (predicted_hpi data))
  <= (1 # 1125899906842624)
     * (Qabs (B2Q (predicted_hpi data)) + Qabs (B2Q (current_hpi data))) /\
  pct_change 160.5%float 150%float = 0x1.c000000000001p+2%float /\
  Qabs (B2Q (pct_change 160.5%float 150%float) - 7) <= 1 # 1099511627776.
Proof.
  intros Hb Hc Hc0 Hp Ht.
  pose proof (do_GET_success _ _ _ _ _ _ _ _ Hb) as (h & model & _ & Hs).
  apply score_inv in Hs
    as (df & p & c & cur & d & rd & hist & _ & _ & _ & _ & _ & _ & _ & Hr).
  rewrite Hr in Hb. injection Hb as <-.
  cbn [current_hpi predicted_hpi percentage_change] in *.
  split_and!.
  - by apply pct_change_tolerance.
  - by vm_compute.
  - apply Qle_bool_iff. by vm_compute.
Qed.

End Binary64.

(** ** Worked requests *)

Fixpoint digits_value (s : string) (acc : Z) : option Z :=
  match s with
  | EmptyString => Some acc
  | String c s' =>
      match digit c with
      | Some d => digits_value s' (10 * acc + d)
      | None => None
      end
  end.

(** [int] on the strings of ASCII decimal digits, where it agrees with
    Python's.  On every other text it raises the [ValueError] of an
    invalid literal, also on the signed, padded and underscored literals
    and on the other decimal digits of Unicode, which Python's [int]
    reads: it stands for [int] on strings of digits only, as the worked
    requests use it.  The theorems are stated for any [py_int]. *)
Definition decimal_int (s : string) : result Z :=
  match s with
  | EmptyString =>
      Raise (ValueError "invalid literal for int() with base 10: ''")
  | _ =>
      match digits_value s 0 with
      | Some z => Ok z
      | None =>
          Raise (ValueError
                   ("invalid literal for int() with base 10: '" ++ s ++ "'"))
      end
  end.

(** A regressor that predicts the same value whatever the features. *)
Definition constant_predict {A : Type} (m : A) (X : DataFrame A) : result A :=
  Ok m.

(** A models directory holding the artifact of the three-month horizon
    only. *)
Definition one_artifact {A : Type} (m : A) : gmap string A :=
  {[ "models/xgboost_h3.pkl" := m ]}.

Definition latest {A : Type} (hpi rate : A) : Predict.record A :=
  [("ref_date", Str "2024-05");
   ("housing_price_index_value", Num hpi);
   ("unemployment_rate", Num rate)].

Definition service_env {A : Type} (table : list (Predict.record A))
  : Predict.Env A :=
  {| Predict.SUPABASE_URL := Some "https://project.supabase.co";
     Predict.SUPABASE_SERVICE_ROLE_KEY := Some "service-role-key";
     Predict.toronto_housing := table |}.

Definition request (horizon : string) : Predict.Query :=
  {[ "horizon" := (horizon, []) ]}.

Section ServiceExamples.

Import Predict.

(** The serving path leaves the index out of the features, where the
    builder of the training sets keeps it. *)
Example features_exclude_target :
  names (features (frame_of_record (latest 150%Q (55 # 10)%Q)))
  = ["unemployment_rate"].
Proof. vm_compute. reflexivity. Qed.

Example get_include_historical_values :
  get_include_historical {[ "include_historical" := ("TRUE", []) ]} = true /\
  get_include_historical {[ "include_historical" := ("yes", []) ]} = false /\
  get_include_historical {[ "include_historical" := ("1", ["true"]) ]} = false /\
  get_include_historical (request "3") = false.
Proof. split_and!; by vm_compute. Qed.

(** C6 applied to a request for a horizon of five months. *)
Lemma do_GET_invalid_horizon_witness :
  get_horizon decimal_int (request "5") = Ok 5 /\
  (5 ∉ HORIZONS) /\
  do_GET Q decimal_int constant_predict (one_artifact (1605 # 10)%Q)
    (request "5") (service_env [latest 150%Q (55 # 10)%Q]) (initial Q)
  = (send_error_response 400
       "Invalid horizon. Must be one of [1, 2, 3, 6, 12, 24, 36]",
     initial Q).
Proof.
  assert (H1 : get_horizon decimal_int (request "5") = Ok 5)
    by (vm_compute; reflexivity).
  assert (H2 : 5 ∉ HORIZONS)
    by (intros Hin%int_in_elem_of; vm_compute in Hin; discriminate).
  split_and!; try assumption.
  exact (do_GET_invalid_horizon Q decimal_int constant_predict
           (one_artifact (1605 # 10)%Q) (request "5")
           (service_env [latest 150%Q (55 # 10)%Q]) (initial Q) 5 H1 H2).
Defined.

(** C7 applied to a request for the one-month horizon, after a request
    for the three-month one, where only the three-month artifact
    exists. *)
Lemma do_GET_missing_artifact_witness :
  get_horizon decimal_int (request "1") = Ok 1 /\
  1 ∈ HORIZONS /\
  (one_artifact (1605 # 10)%Q) !! model_path 1 = None /\
  fst (do_GET Q decimal_int constant_predict (one_artifact (1605 # 10)%Q)
         (request "1") (service_env [latest 150%Q (55 # 10)%Q])
         (serve Q decimal_int constant_predict (one_artifact (1605 # 10)%Q)
            [(request "3", service_env [latest 150%Q (55 # 10)%Q])]
            (initial Q)))
  = send_error_response 404 ("Model for horizon " ++ pretty 1 ++ " not found").
Proof.
  assert (H1 : get_horizon decimal_int (request "1") = Ok 1)
    by (vm_compute; reflexivity).
  assert (H2 : 1 ∈ HORIZONS) by apply list_elem_of_here.
  assert (H3 : (one_artifact (1605 # 10)%Q) !! model_path 1 = None)
    by (vm_compute; reflexivity).
  split_and!; try assumption.
  exact (do_GET_missing_artifact Q decimal_int constant_predict
           (one_artifact (1605 # 10)%Q)
           [(request "3", service_env [latest 150%Q (55 # 10)%Q])]
           (request "1") (service_env [latest 150%Q (55 # 10)%Q]) 1
           H1 H2 H3).
Defined.

(** C9 as stated fails: with the table empty, a request for a horizon
    whose model is loaded is answered 400, the status of a request for
    an unsupported horizon. *)
Lemma do_GET_empty_table_counterexample :
  toronto_housing (service_env (A := Q) []) = [] /\
  fst (do_GET Q decimal_int constant_predict (one_artifact (1605 # 10)%Q)
         (request "3") (service_env []) (initial Q))
  = send_error_response 400 "No data found in toronto_housing table" /\
  fst (do_GET Q decimal_int constant_predict (one_artifact (1605 # 10)%Q)
         (request "5") (service_env []) (initial Q))
  = send_error_response 400
      "Invalid horizon. Must be one of [1, 2, 3, 6, 12, 24, 36]".
Proof. split_and!; vm_compute; reflexivity. Qed.

(** C9 applied to a request for the three-month horizon while the table
    is empty. *)
Lemma do_GET_empty_table_witness :
  toronto_housing (service_env (A := Q) []) = [] /\
  (exists msg,
     body (fst (do_GET Q decimal_int constant_predict
                  (one_artifact (1605 # 10)%Q) (request "3")
                  (service_env []) (initial Q))) = Error msg) /\
  (forall h model,
     get_horizon decimal_int (request "3") = Ok h ->
     h ∈ HORIZONS ->
     MODELS (load_models Q (one_artifact (1605 # 10)%Q) (initial Q)) !! h
     = Some model ->
     unset (SUPABASE_URL (service_env (A := Q) [])) = false ->
     unset (SUPABASE_SERVICE_ROLE_KEY (service_env (A := Q) [])) = false ->
     fst (do_GET Q decimal_int constant_predict (one_artifact (1605 # 10)%Q)
            (request "3") (service_env []) (initial Q))
     = send_error_response 400 "No data found in toronto_housing table").
Proof.
  assert (H1 : toronto_housing (service_env (A := Q) []) = []) by reflexivity.
  split; [exact H1|].
  exact (do_GET_empty_table Q decimal_int constant_predict
           (one_artifact (1605 # 10)%Q) (request "3") (service_env [])
           (initial Q) H1).
Defined.

(** The prediction of the scenario: a current value of 150.0 and a model
    predicting 160.5 at three months. *)
Definition scenario_prediction : Prediction Q :=
  {| horizon_months := 3;
     current_hpi := 150%Q;
     predicted_hpi := (1605 # 10)%Q;
     percentage_change := pct_change (1605 # 10)%Q 150%Q;
     ref_date := Str "2024-05";
     historical := None |}.

(** The same prediction in binary64: the percentage change is
    7.000000000000001. *)
Definition scenario_prediction_binary64 : Prediction float :=
  {| horizon_months := 3;
     current_hpi := 150%float;
     predicted_hpi := 160.5%float;
     percentage_change := 0x1.c000000000001p+2%float;
     ref_date := Str "2024-05";
     historical := None |}.

(** The answer to a request when the current value is [2^-1040] and the
    model predicts 1: the quotient overflows. *)
Definition overflow_prediction : Prediction float :=
  {| horizon_months := 3;
     current_hpi := 0x1p-1040%float;
     predicted_hpi := 1%float;
     percentage_change := infinity;
     ref_date := Str "2024-05";
     historical := None |}.

(** C5 as stated fails: with a current value that is finite and not
    zero, the request is answered 200 with a percentage change that is
    an infinity, and [current * (1 + percentage_change / 100)] is an
    infinity where the prediction is 1. *)
Lemma do_GET_percentage_change_counterexample :
  body (fst (do_GET float decimal_int constant_predict
               (one_artifact 1%float) (request "3")
               (service_env [latest 0x1p-1040%float 5.5%float])
               (initial float)))
  = Success overflow_prediction /\
  PrimFloat.is_finite (current_hpi overflow_prediction) = true /\
  PrimFloat.eqb (current_hpi overflow_prediction) 0 = false /\
  PrimFloat.is_finite (predicted_hpi overflow_prediction) = true /\
  percentage_change overflow_prediction = infinity /\
  PrimFloat.mul (current_hpi overflow_prediction)
    (PrimFloat.add 1
       (PrimFloat.div (percentage_change overflow_prediction) 100))
  = infinity.
Proof. split_and!; vm_compute; reflexivity. Qed.

(** C5 applied to the scenario. *)
Lemma do_GET_percentage_change_witness :
  body (fst (do_GET float decimal_int constant_predict
               (one_artifact 160.5%float) (request "3")
               (service_env [latest 150%float 5.5%float]) (initial float)))
  = Success scenario_prediction_binary64 /\
  PrimFloat.is_finite (current_hpi scenario_prediction_binary64) = true /\
  PrimFloat.eqb (current_hpi scenario_prediction_binary64) 0 = false /\
  PrimFloat.is_finite (predicted_hpi scenario_prediction_binary64) = true /\
  PrimFloat.is_finite (percentage_change scenario_prediction_binary64)
  = true /\
  (Qabs (B2Q (current_hpi scenario_prediction_binary64)
         * (1 + B2Q (percentage_change scenario_prediction_binary64) / 100)
         - B2Q (predicted_hpi scenario_prediction_binary64))
   <= (1 # 1125899906842624)
      * (Qabs (B2Q (predicted_hpi scenario_prediction_binary64))
         + Qabs (B2Q (current_hpi scenario_prediction_binary64))))%Q /\
  pct_change 160.5%float 150%float = 0x1.c000000000001p+2%float /\
  (Qabs (B2Q (pct_change 160.5%float 150%float) - 7) <= 1 # 1099511627776)%Q.
Proof.
  assert (H1 : body (fst (do_GET float decimal_int constant_predict
                            (one_artifact 160.5%float) (request "3")
                            (service_env [latest 150%float 5.5%float])
                            (initial float)))
               = Success scenario_prediction_binary64)
    by (vm_compute; reflexivity).
  assert (H2 : PrimFloat.is_finite (current_hpi scenario_prediction_binary64)
               = true) by (vm_compute; reflexivity).
  assert (H3 : PrimFloat.eqb (current_hpi scenario_prediction_binary64) 0
               = false) by (vm_compute; reflexivity).
  assert (H4 : PrimFloat.is_finite (predicted_hpi scenario_prediction_binary64)
               = true) by (vm_compute; reflexivity).
  assert (H5 : PrimFloat.is_finite
                 (percentage_change scenario_prediction_binary64) = true)
    by (vm_compute; reflexivity).
  do 5 (split; [assumption|]).
  exact (do_GET_percentage_change float decimal_int constant_predict
           (one_artifact 160.5%float) (request "3")
           (service_env [latest 150%float 5.5%float]) (initial float)
           scenario_prediction_binary64 H1 H2 H3 H4 H5).
Defined.

(** C8 as stated fails: with a current value of zero the request is
    answered 200 and the percentage change is an infinity. *)
Lemma do_GET_zero_current_counterexample :
  fst (do_GET float decimal_int constant_predict (one_artifact 160.5%float)
         (request "3") (service_env [latest 0%float 5.5%float])
         (initial float))
  = send_success_response
      {| horizon_months := 3;
         current_hpi := 0%float;
         predicted_hpi := 160.5%float;
         percentage_change := infinity;
         ref_date := Str "2024-05";
         historical := None |}.
Proof. vm_compute. reflexivity. Qed.

(** C8 applied to the same request. *)
Lemma do_GET_zero_current_witness :
  get_horizon decimal_int (request "3") = Ok 3 /\
  3 ∈ HORIZONS /\
  MODELS (load_models float (one_artifact 160.5%float) (initial float)) !! 3
  = Some 160.5%float /\
  fetch_latest_data (service_env [latest 0%float 5.5%float])
  = Ok (frame_of_record (latest 0%float 5.5%float)) /\
  constant_predict 160.5%float
    (features (frame_of_record (latest 0%float 5.5%float)))
  = Ok 160.5%float /\
  getitem (frame_of_record (latest 0%float 5.5%float))
    "housing_price_index_value"
  = Ok {| sdtype := float64; svalues := [Num 0%float] |} /\
  iloc0 {| sdtype := float64; svalues := [Num 0%float] |} = Ok (Num 0%float) /\
  PrimFloat.eqb 0 0 = true /\
  getitem (frame_of_record (latest 0%float 5.5%float)) "ref_date"
  = Ok {| sdtype := object_; svalues := [Str "2024-05"] |} /\
  iloc0 {| sdtype := object_; svalues := [Str "2024-05" : cell float] |}
  = Ok (Str "2024-05") /\
  history (service_env [latest 0%float 5.5%float])
    (get_include_historical (request "3")) = Ok None /\
  fst (do_GET float decimal_int constant_predict (one_artifact 160.5%float)
         (request "3") (service_env [latest 0%float 5.5%float])
         (initial float))
  = send_success_response
      {| horizon_months := 3;
         current_hpi := 0%float;
         predicted_hpi := 160.5%float;
         percentage_change := pct_change 160.5%float 0%float;
         ref_date := Str "2024-05";
         historical := None |} /\
  (pct_change 160.5%float 0%float = infinity \/
   pct_change 160.5%float 0%float = neg_infinity \/
   pct_change 160.5%float 0%float = nan).
Proof.
  assert (H1 : get_horizon decimal_int (request "3") = Ok 3)
    by (vm_compute; reflexivity).
  assert (H2 : 3 ∈ HORIZONS)
    by (apply int_in_elem_of; vm_compute; reflexivity).
  assert (H3 : MODELS (load_models float (one_artifact 160.5%float)
                         (initial float)) !! 3 = Some 160.5%float)
    by (vm_compute; reflexivity).
  assert (H4 : fetch_latest_data (service_env [latest 0%float 5.5%float])
               = Ok (frame_of_record (latest 0%float 5.5%float)))
    by (vm_compute; reflexivity).
  assert (H5 : constant_predict 160.5%float
                 (features (frame_of_record (latest 0%float 5.5%float)))
               = Ok 160.5%float) by reflexivity.
  assert (H6 : getitem (frame_of_record (latest 0%float 5.5%float))
                 "housing_price_index_value"
               = Ok {| sdtype := float64; svalues := [Num 0%float] |})
    by (vm_compute; reflexivity).
  assert (H7 : iloc0 {| sdtype := float64; svalues := [Num 0%float] |}
               = Ok (Num 0%float)) by reflexivity.
  assert (H8 : PrimFloat.eqb 0 0 = true) by (vm_compute; reflexivity).
  assert (H9 : getitem (frame_of_record (latest 0%float 5.5%float)) "ref_date"
               = Ok {| sdtype := object_; svalues := [Str "2024-05"] |})
    by (vm_compute; reflexivity).
  assert (H10 : iloc0 {| sdtype := object_;
                         svalues := [Str "2024-05" : cell float] |}
                = Ok (Str "2024-05")) by reflexivity.
  assert (H11 : history (service_env [latest 0%float 5.5%float])
                  (get_include_historical (request "3")) = Ok None)
    by (vm_compute; reflexivity).
  do 11 (split; [assumption|]).
  exact (do_GET_zero_current float decimal_int constant_predict
           (one_artifact 160.5%float) (request "3")
           (service_env [latest 0%float 5.5%float]) (initial float)
           3 160.5%float (frame_of_record (latest 0%float 5.5%float))
           160.5%float 0%float
           {| sdtype := float64; svalues := [Num 0%float] |}
           {| sdtype := object_; svalues := [Str "2024-05"] |}
           (Str "2024-05") None
           H1 H2 H3 H4 H5 H6 H7 H8 H9 H10 H11).
Defined.

End ServiceExamples.

(** * Further properties *)

(** ** Columns of the frames the builder makes *)

Section ColumnFacts.
Context {A : Type}.
Implicit Types (df : DataFrame A) (c : string).

Lemma str_in_In c (l : list string) : str_in c l = true <-> In c l.
Proof.
  unfold str_in. rewrite existsb_exists. split.
  - intros (x & Hx & Heq). by apply String.eqb_eq in Heq as ->.
  - intros Hc. exists c. split; [done|apply String.eqb_refl].
Qed.

Lemma dtype_of_in_names df c : In c (names df) -> is_Some (dtype_of df c).
Proof.
  unfold names, dtype_of. induction (columns df) as [|[c0 d0] cols IH]; simpl.
  - done.
  - destruct (String.eqb c0 c) eqn:Hc; [by eexists|].
    intros [Heq|Hin]; [|by apply IH].
    subst. by rewrite String.eqb_refl in Hc.
Qed.

Lemma names_select df (cs : list string) :
  Forall (fun c => is_Some (dtype_of df c)) cs -> names (select df cs) = cs.
Proof.
  unfold names, select; simpl.
  induction 1 as [|c cs [d Hd] _ IH]; simpl; [done|].
  rewrite Hd. simpl. f_equal. apply IH.
Qed.

Lemma names_setitem df c (s : Series A) :
  names (setitem df c s)
  = if str_in c (names df) then names df else (names df ++ [c])%list.
Proof.
  unfold names, setitem, set_dtype; simpl.
  destruct (str_in c (map fst (columns df))).
  - rewrite map_map. apply map_ext. intros [c0 d0]; simpl.
    destruct (String.eqb c0 c) eqn:Hc; [|done].
    by apply String.eqb_eq in Hc.
  - by rewrite map_app.
Qed.

Lemma select_dtypes_number_dtype df (cs : list string) :
  Forall (fun c => is_Some (dtype_of df c)) (select_dtypes_number df cs).
Proof.
  unfold select_dtypes_number. apply List.Forall_forall. intros c Hc.
  apply filter_In in Hc as [_ Hc]. destruct (dtype_of df c); [by eexists|done].
Qed.

Lemma filter_filter_andb {T : Type} (f g : T -> bool) (l : list T) :
  List.filter g (List.filter f l) = List.filter (fun x => f x && g x) l.
Proof.
  induction l as [|x l IH]; simpl; [done|].
  destruct (f x); simpl; [|done]. destruct (g x); by rewrite IH.
Qed.

End ColumnFacts.

(** ** More on the dataset builder *)

(** A column of the table that the builder takes as a feature: any
    numeric column other than [ref_date] whose label does not start with
    [target_]. *)
Definition is_training_feature {A : Type} (df : DataFrame A) (c : string) : bool :=
  negb (String.eqb c "ref_date")
  && negb (startswith "target_" c)
  && match dtype_of df c with
     | Some d => is_number d
     | None => false
     end.

Section BuilderColumns.
Context {A : Type}.
Implicit Types (df X : DataFrame A) (y dates : list (cell A)).

Import TrainModels.

Lemma target_name_startswith (h : Z) :
  startswith "target_" ("target_h" ++ pretty h) = true.
Proof. reflexivity. Qed.

Lemma build_supervised_dataset_frame df target_col h X y dates :
  build_supervised_dataset df target_col h = Ok (X, y, dates) ->
  exists t,
    getitem df target_col = Ok t /\
    let tn := "target_h" ++ pretty h in
    let dw := dropna (setitem df tn (shift (- h) t)) tn in
    X = select dw
          (select_dtypes_number dw
             (List.filter
                (fun col =>
                   negb (str_in col
                           ("ref_date"
                            :: List.filter (startswith "target_") (names dw))))
                (names dw))).
Proof.
  unfold build_supervised_dataset.
  destruct (getitem df target_col) as [t|e] eqn:Ht; [|by unbind].
  unfold mbind at 1, result_bind at 1, Py.bind at 1.
  set (tn := "target_h" ++ pretty h).
  set (dw := dropna (setitem df tn (shift (- h) t)) tn).
  destruct (getitem dw tn) as [s|e]; [|by unbind].
  destruct (getitem dw "ref_date") as [d|e]; [|by unbind].
  unbind. intros [= <- <- <-]. by exists t.
Qed.

(** The features of a dataset are the columns of the table that are
    numeric, are not [ref_date] and do not start with [target_], in the
    order of the table. *)
Lemma build_feature_names df target_col h X y dates :
  build_supervised_dataset df target_col h = Ok (X, y, dates) ->
  names X = List.filter (is_training_feature df) (names df).
Proof.
  intros (t & _ & ->)%build_supervised_dataset_frame.
  set (tn := "target_h" ++ pretty h).
  set (dw := dropna (setitem df tn (shift (- h) t)) tn).
  rewrite names_select by apply select_dtypes_number_dtype.
  unfold select_dtypes_number. rewrite filter_filter_andb.
  match goal with |- List.filter ?f _ = _ => set (F := f) end.
  assert (Hnames : names dw
                   = if str_in tn (names df) then names df
                     else (names df ++ [tn])%list)
    by apply (names_setitem df tn).
  assert (Hdt : forall c, c ≠ tn -> dtype_of dw c = dtype_of df c).
  { intros c Hc. apply (dtype_of_setitem_ne df tn). done. }
  assert (Htn : In tn (names dw)).
  { rewrite Hnames. destruct (str_in tn (names df)) eqn:Hin.
    - by apply str_in_In.
    - apply in_or_app. right. by left. }
  assert (Hsub : forall c, In c (names df) -> In c (names dw)).
  { intros c Hc. rewrite Hnames. destruct (str_in tn (names df)); [done|].
    apply in_or_app. by left. }
  assert (Hkeep : forall c, In c (names df) -> c ≠ tn ->
                            F c = is_training_feature df c).
  { intros c Hin Hc. unfold F. rewrite Hdt by done.
    unfold is_training_feature.
    f_equal. simpl. rewrite negb_orb. f_equal. f_equal.
    destruct (startswith "target_" c) eqn:Hsw.
    - apply str_in_In, filter_In. split; [by apply Hsub|done].
    - apply not_true_iff_false. intros Hin'%str_in_In%filter_In.
      destruct Hin' as [_ Hsw']. congruence. }
  assert (Hdrop : F tn = false).
  { unfold F. apply andb_false_iff. left. apply negb_false_iff. simpl.
    apply str_in_In, filter_In. split; [done|apply target_name_startswith]. }
  clearbody F. rewrite Hnames.
  destruct (str_in tn (names df)) eqn:Hin.
  - apply filter_ext_in. intros c Hc.
    destruct (String.eqb_spec c tn) as [->|Hne]; [|by apply Hkeep].
    rewrite Hdrop. unfold is_training_feature.
    pose proof (target_name_startswith h) as Hsw.
    change (startswith "target_" tn = true) in Hsw.
    rewrite Hsw. simpl. by rewrite ?andb_false_r.
  - rewrite List.filter_app. simpl. rewrite Hdrop. rewrite app_nil_r.
    apply filter_ext_in. intros c Hc. apply Hkeep; [done|].
    intros ->. apply str_in_In in Hc. congruence.
Qed.

End BuilderColumns.

Section BuilderExamples.
Context {A : Type}.
Implicit Types (df X : DataFrame A) (y dates : list (cell A)).

Import TrainModels.

Lemma kept_lookup (rs : list (row A)) (vs : list (cell A)) (j : nat)
  (r : row A) (v : cell A) :
  kept rs vs !! j = Some (r, v) ->
  exists i, rs !! i = Some r /\ vs !! i = Some v /\ v ≠ NA.
Proof.
  unfold kept. revert vs j.
  induction rs as [|r0 rs IH]; intros [|v0 vs] j; simpl; try done.
  destruct (isna v0) eqn:Hna; simpl.
  - intros Hj. destruct (IH _ _ Hj) as (i & ? & ? & ?). by exists (S i).
  - destruct j as [|j]; simpl.
    + intros [= <- <-]. exists 0%nat. split_and!; try done.
      by destruct v0.
    + intros Hj. destruct (IH _ _ Hj) as (i & ? & ? & ?). by exists (S i).
Qed.

Lemma shifted_target_lookup df target_col h (i : nat) (v : cell A) :
  1 <= h ->
  shifted_target df target_col h !! i = Some v ->
  v ≠ NA ->
  exists r', rows df !! (i + Z.to_nat h)%nat = Some r' /\ v = at_ r' target_col.
Proof.
  intros Hh Hi Hv. rewrite shifted_target_ahead in Hi by done.
  apply lookup_app_Some in Hi as [Hi|[_ Hi]].
  - rewrite lookup_drop in Hi.
    rewrite (list_lookup_fmap (fun r => at_ r target_col) (rows df)) in Hi.
    rewrite Nat.add_comm.
    destruct (rows df !! (Z.to_nat h + i)%nat) as [r'|]; [|done].
    injection Hi as <-. by exists r'.
  - apply lookup_replicate in Hi as [-> _]. done.
Qed.

(** X1: for a horizon [h >= 1], every example of a dataset is made of
    one row of the table and of the row [h] places after it: its cells
    are those of the first apart from the added target column, its date
    is the [ref_date] of the first, and its target is the target value of
    the second, which is not missing. *)
Theorem build_supervised_dataset_example
  df target_col h X y dates (j : nat) (rX : row A) :
  1 <= h ->
  build_supervised_dataset df target_col h = Ok (X, y, dates) ->
  rows X !! j = Some rX ->
  exists i r r',
    rows df !! i = Some r /\
    rows df !! (i + Z.to_nat h)%nat = Some r' /\
    (forall c, c ≠ "target_h" ++ pretty h -> at_ rX c = at_ r c) /\
    dates !! j = Some (at_ r "ref_date") /\
    y !! j = Some (at_ r' target_col) /\
    at_ r' target_col ≠ NA.
Proof.
  intros Hh Hb Hj.
  apply build_supervised_dataset_inv in Hb as (HX & -> & ->).
  rewrite HX in Hj.
  rewrite (list_lookup_fmap
             (fun p => <["target_h" ++ pretty h := snd p]> (fst p))) in Hj.
  destruct (kept (rows df) (shifted_target df target_col h) !! j)
    as [[r v]|] eqn:Hk; [|done].
  injection Hj as <-.
  destruct (kept_lookup _ _ _ _ _ Hk) as (i & Hr & Hv & Hna).
  destruct (shifted_target_lookup _ _ _ _ _ Hh Hv Hna) as (r' & Hr' & ->).
  exists i, r, r'. split_and!; try done.
  - intros c Hc. by apply at_insert_ne.
  - rewrite (list_lookup_fmap (fun p => at_ (fst p) "ref_date")). by rewrite Hk.
  - rewrite (list_lookup_fmap snd). by rewrite Hk.
Qed.

End BuilderExamples.

Section BuilderEdges.
Context {A : Type}.
Implicit Types (df X : DataFrame A) (y dates : list (cell A)).

Import TrainModels.

(** X2: the builder returns exactly when the table has the target
    column and the [ref_date] column; otherwise it raises a [KeyError]
    naming the target column if that one is missing, [ref_date] if only
    that one is. *)
Theorem build_supervised_dataset_columns df target_col h :
  match dtype_of df target_col, dtype_of df "ref_date" with
  | None, _ =>
      build_supervised_dataset df target_col h = Raise (KeyError target_col)
  | Some _, None =>
      build_supervised_dataset df target_col h = Raise (KeyError "ref_date")
  | Some _, Some _ =>
      exists X y dates,
        build_supervised_dataset df target_col h = Ok (X, y, dates)
  end.
Proof.
  destruct (dtype_of df target_col) as [dt|] eqn:Ht.
  - destruct (dtype_of df "ref_date") as [dr|] eqn:Hr.
    + apply build_supervised_dataset_returns; by eexists.
    + unfold build_supervised_dataset.
      rewrite (getitem_ok _ _ _ Ht).
      unfold mbind at 1, result_bind at 1, Py.bind at 1.
      set (tn := "target_h" ++ pretty h).
      set (dw := dropna (setitem df tn _) tn).
      rewrite (getitem_ok dw tn (shift_dtype (- h) dt))
        by apply (dtype_of_setitem_eq df tn).
      assert (Hd : dtype_of dw "ref_date" = None).
      { rewrite <- Hr.
        apply (dtype_of_setitem_ne df tn), target_name_not_ref_date. }
      unfold getitem. rewrite Hd. by unbind.
  - unfold build_supervised_dataset, getitem. rewrite Ht. by unbind.
Qed.

(** X3: a horizon of one month or more that is not shorter than the
    table leaves no example, whatever the table holds, and the loop of
    [main] skips it. *)
Theorem build_supervised_dataset_horizon_too_long df target_col h :
  1 <= h ->
  Z.of_nat (len df) <= h ->
  is_Some (dtype_of df target_col) ->
  is_Some (dtype_of df "ref_date") ->
  exists X,
    build_supervised_dataset df target_col h = Ok (X, [], []) /\
    len X = 0%nat /\
    time_based_split X [] [] = None.
Proof.
  intros Hh Hlen Ht Hr.
  destruct (build_supervised_dataset_returns df target_col h Ht Hr)
    as (X & y & dates & Hb).
  destruct (build_supervised_dataset_drops_missing _ _ _ _ _ _ Hh Hb)
    as (Hy & HX & Hd).
  rewrite drop_ge in Hy by (rewrite length_map; unfold len in Hlen; lia).
  simpl in Hy. subst y. simpl in *.
  destruct dates; [|done].
  exists X. split_and!; try done.
  unfold time_based_split. by rewrite HX.
Qed.

(** X4: the features of a dataset are the columns of the table that are
    numeric, are not [ref_date] and whose label does not start with
    [target_], in the order of the table. *)
Theorem build_supervised_dataset_features df target_col h X y dates :
  build_supervised_dataset df target_col h = Ok (X, y, dates) ->
  names X = List.filter (is_training_feature df) (names df).
Proof. apply build_feature_names. Qed.

(** X5: the datasets of two horizons built from one table have the same
    features in the same order. *)
Theorem build_supervised_dataset_same_schema
  df target_col h1 h2 X1 y1 dates1 X2 y2 dates2 :
  build_supervised_dataset df target_col h1 = Ok (X1, y1, dates1) ->
  build_supervised_dataset df target_col h2 = Ok (X2, y2, dates2) ->
  names X1 = names X2.
Proof.
  intros H1 H2.
  by rewrite (build_feature_names _ _ _ _ _ _ H1),
             (build_feature_names _ _ _ _ _ _ H2).
Qed.

End BuilderEdges.

(** ** Sequences of fallible steps *)

Section ResultFacts.
Context {T U : Type}.
Implicit Types (f : T -> result U) (l : list T) (k : list U).

Lemma mapM_Ok_Forall2 f l k :
  mapM f l = Ok k -> Forall2 (fun x y => f x = Ok y) l k.
Proof.
  revert k. induction l as [|x l IH]; intros k; simpl.
  - intros [= <-]. constructor.
  - unfold mbind, result_bind, Py.bind.
    destruct (f x) as [y|] eqn:Hx; [|done].
    destruct (mapM f l) as [k'|]; [|done].
    intros [= <-]. constructor; [done|by apply IH].
Qed.

Lemma mapM_Ok_returns f l :
  Forall (fun x => exists y, f x = Ok y) l -> exists k, mapM f l = Ok k.
Proof.
  induction 1 as [|x l [y Hx] _ [k IH]].
  - by eexists.
  - exists (y :: k).
    change (mapM f (x :: l))
      with (f x ≫= fun y => mapM f l ≫= fun k => Ok (y :: k)).
    rewrite Hx, IH. done.
Qed.

Lemma bind_Ok_inv (m : result T) (g : T -> result U) (v : U) :
  m ≫= g = Ok v -> exists x, m = Ok x /\ g x = Ok v.
Proof. destruct m as [x|e]; [|done]. intros Hg. by exists x. Qed.

Lemma mapM_Ok_Forall f l k :
  mapM f l = Ok k -> Forall (fun x => exists y, f x = Ok y) l.
Proof.
  intros Hk%mapM_Ok_Forall2.
  induction Hk as [|x y l k Hxy _ IH]; constructor; [by exists y|done].
Qed.

End ResultFacts.

(** ** More on fetching the table *)

(** A cell that [df['ref_date'] + '-01'] accepts: a text or a missing
    value. *)
Definition text_or_missing {A : Type} (c : cell A) : Prop :=
  match c with
  | Str _ | NA => True
  | _ => False
  end.

(** The dates of a fetched table that are not missing. *)
Definition dates_of {A : Type} (df : DataFrame A) : list Z :=
  omap (fun r => TrainModels.timestamp (at_ r "ref_date")) (rows df).

(** The date range [fetch_data_from_supabase] prints,
    [df['ref_date'].min()] and [.max()], each formatted by [strftime]:
    the minimum and the maximum skip the missing dates, and are the
    missing date, which has no [strftime], when there is no other.
    [strftime] is opaque: it raises on a timestamp it cannot format. *)
Definition date_range {A : Type} (strftime : Z -> result string)
  (df : DataFrame A) : result (string * string) :=
  match dates_of df with
  | [] => Raise (ValueError "NaTType does not support strftime")
  | t :: ts =>
      lo ← strftime (foldr Z.min t ts);
      hi ← strftime (foldr Z.max t ts);
      Ok (lo, hi)
  end.

(** [fetch_data_from_supabase] with the date range it prints before it
    returns. *)
Definition fetch_data_from_supabase_reported {A : Type}
  (strftime : Z -> result string) (to_datetime : string -> option Z)
  (raw : DataFrame A) : result (DataFrame A) :=
  df ← TrainModels.fetch_data_from_supabase to_datetime raw;
  _ ← date_range strftime df;
  Ok df.

Section FetchFacts.
Context {A : Type}.
Variable to_datetime : string -> option Z.
Variable strftime : Z -> result string.
Implicit Types (raw df : DataFrame A).

Import TrainModels.

Lemma parse_ref_date_returns (c : cell A) :
  (exists v, parse_ref_date to_datetime c = Ok v) <-> text_or_missing c.
Proof.
  destruct c; simpl; split; try done; try by eexists.
  - by intros [? ?].
  - by intros [? ?].
Qed.

Lemma insert_sorted_length c (r : row A) (l : list (row A)) :
  length (insert_sorted c r l) = S (length l).
Proof.
  induction l as [|r' l IH]; simpl; [done|].
  destruct (key_le _ _); simpl; by rewrite ?IH.
Qed.

Lemma sort_values_length df c : len (sort_values df c) = len df.
Proof.
  unfold len, sort_values; simpl.
  induction (rows df) as [|r rs IH]; simpl; [done|].
  by rewrite insert_sorted_length, IH.
Qed.

Lemma insert_sorted_Permutation c (r : row A) (l : list (row A)) :
  insert_sorted c r l ≡ₚ r :: l.
Proof.
  induction l as [|r' l IH]; simpl; [done|].
  destruct (key_le _ _); [done|].
  rewrite IH. apply Permutation_swap.
Qed.

Lemma sort_values_Permutation df c : rows (sort_values df c) ≡ₚ rows df.
Proof.
  unfold sort_values; simpl.
  induction (rows df) as [|r rs IH]; simpl; [done|].
  by rewrite insert_sorted_Permutation, IH.
Qed.

(** What fetching returns, in terms of the parsed dates. *)
Lemma fetch_data_from_supabase_inv raw df :
  fetch_data_from_supabase to_datetime raw = Ok df ->
  exists s parsed,
    getitem raw "ref_date" = Ok s /\
    mapM (parse_ref_date to_datetime) (svalues s) = Ok parsed /\
    df = sort_values
           (setitem raw "ref_date"
              {| sdtype := datetime64; svalues := parsed |}) "ref_date".
Proof.
  unfold fetch_data_from_supabase.
  destruct (getitem raw "ref_date") as [s|e]; [|by unbind].
  unfold mbind at 1, result_bind at 1, Py.bind at 1.
  destruct (mapM (parse_ref_date to_datetime) (svalues s)) as [parsed|e] eqn:Hp;
    [|by unbind].
  unfold mbind, result_bind, Py.bind. intros [= <-]. by exists s, parsed.
Qed.

Lemma fetch_data_from_supabase_returns raw :
  (exists df, fetch_data_from_supabase to_datetime raw = Ok df) <->
  is_Some (dtype_of raw "ref_date") /\
  Forall (fun r => text_or_missing (at_ r "ref_date")) (rows raw).
Proof.
  split.
  - intros [df (s & parsed & Hs & Hp & _)%fetch_data_from_supabase_inv].
    apply getitem_inv in Hs as [Hd Hv]. split; [by eexists|].
    apply mapM_Ok_Forall in Hp. rewrite Hv, List.Forall_map in Hp.
    eapply Forall_impl; [exact Hp|].
    intros r Hr. by apply parse_ref_date_returns.
  - intros [[d Hd] Hall]. unfold fetch_data_from_supabase.
    rewrite (getitem_ok _ _ _ Hd).
    unfold mbind at 1, result_bind at 1, Py.bind at 1. simpl.
    destruct (mapM_Ok_returns (parse_ref_date to_datetime)
                (map (fun r => at_ r "ref_date") (rows raw))) as [k Hk].
    { rewrite List.Forall_map. eapply Forall_impl; [exact Hall|].
      intros r Hr. by apply parse_ref_date_returns. }
    rewrite Hk. unfold mbind, result_bind, Py.bind. by eexists.
Qed.

Lemma dtype_of_Some_names df c (d : dtype) :
  dtype_of df c = Some d -> In c (names df).
Proof.
  unfold dtype_of, names.
  destruct (List.find _ (columns df)) as [[c0 d0]|] eqn:Hf; [|done].
  intros _. apply find_some in Hf as [Hin Heq]. simpl in Heq.
  apply String.eqb_eq in Heq as <-.
  by apply (in_map fst) in Hin.
Qed.

(** X7: fetching keeps every row and every column of the table: the
    frame it returns has as many rows, the same labels, a [ref_date]
    column of dates in ascending order with the missing ones last, and
    each of its rows is a row of the table with only [ref_date]
    replaced. *)
Theorem fetch_data_from_supabase_rows raw df :
  fetch_data_from_supabase to_datetime raw = Ok df ->
  len df = len raw /\
  names df = names raw /\
  dtype_of df "ref_date" = Some datetime64 /\
  rows_sorted "ref_date" (rows df) /\
  Forall (fun r' => exists r, r ∈ rows raw /\
                      forall c, c ≠ "ref_date" -> at_ r' c = at_ r c)
    (rows df).
Proof.
  intros Hf. pose proof (fetch_data_from_supabase_sorted _ _ _ Hf) as Hsorted.
  apply fetch_data_from_supabase_inv in Hf as (s & parsed & Hs & Hp & ->).
  apply getitem_inv in Hs as [Hd Hv].
  apply mapM_Ok_Forall2, Forall2_length in Hp.
  rewrite Hv, length_map in Hp.
  split_and!.
  - rewrite sort_values_length. unfold len, setitem; simpl.
    rewrite length_zip_with. lia.
  - change (names (setitem raw "ref_date"
                     {| sdtype := datetime64; svalues := parsed |})
            = names raw).
    rewrite names_setitem.
    assert (Hin : str_in "ref_date" (names raw) = true)
      by (apply str_in_In; by eapply dtype_of_Some_names).
    by rewrite Hin.
  - apply (dtype_of_setitem_eq raw "ref_date").
  - done.
  - apply Forall_forall. intros r' Hr'.
    rewrite sort_values_Permutation in Hr'. simpl in Hr'.
    apply elem_of_zip_with in Hr' as (r & v & -> & Hr & _).
    exists r. split; [done|]. intros c Hc. by apply at_insert_ne.
Qed.

Lemma parse_ref_date_raises (c : cell A) :
  ~ text_or_missing c -> parse_ref_date to_datetime c = Raise TypeError.
Proof. destruct c; simpl; try done; intros H; by destruct H. Qed.

Lemma parse_ref_date_TypeError (c : cell A) (e : exn) :
  parse_ref_date to_datetime c = Raise e -> e = TypeError.
Proof. destruct c; simpl; try done; by intros [= <-]. Qed.

Lemma mapM_parse_ref_date_raises (l : list (cell A)) :
  Exists (fun c => ~ text_or_missing c) l ->
  mapM (parse_ref_date to_datetime) l = Raise TypeError.
Proof.
  induction 1 as [c l Hc|c l _ IH];
    change (mapM (parse_ref_date to_datetime) (c :: l))
      with (parse_ref_date to_datetime c ≫= fun y =>
            mapM (parse_ref_date to_datetime) l ≫= fun k => Ok (y :: k)).
  - by rewrite parse_ref_date_raises.
  - destruct (parse_ref_date to_datetime c) as [v|e] eqn:Hc.
    + rewrite IH. by unbind.
    + apply parse_ref_date_TypeError in Hc as ->. by unbind.
Qed.

Lemma mapM_parse_ref_date_missing (l : list (cell A)) :
  Forall (fun c => c = NA) l ->
  exists parsed,
    mapM (parse_ref_date to_datetime) l = Ok parsed /\
    Forall (fun v => v = NA) parsed.
Proof.
  induction 1 as [|c l -> _ (parsed & IH & Hall)].
  - by exists [].
  - exists (NA :: parsed). split; [|by constructor].
    change (mapM (parse_ref_date to_datetime) (NA :: l))
      with (parse_ref_date to_datetime NA ≫= fun y =>
            mapM (parse_ref_date to_datetime) l ≫= fun k => Ok (y :: k)).
    rewrite IH. by unbind.
Qed.

Lemma omap_nil_Forall {T U : Type} (f : T -> option U) (l : list T) :
  Forall (fun x => f x = None) l -> omap f l = [].
Proof. induction 1 as [|x l Hx _ IH]; simpl; [done|]. by rewrite Hx. Qed.

(** X6: the ways fetching fails on the table itself.  Without a
    [ref_date] column, as for a table built of no row, it raises
    [KeyError('ref_date')]; with the column and a cell in it that is
    neither a text nor missing, a [TypeError]; with the column and every
    cell of it missing, the [ValueError] of [NaT.strftime], raised when
    the date range is printed. *)
Theorem fetch_data_from_supabase_raises raw :
  match dtype_of raw "ref_date" with
  | None =>
      fetch_data_from_supabase_reported strftime to_datetime raw
      = Raise (KeyError "ref_date")
  | Some _ =>
      (Exists (fun r => ~ text_or_missing (at_ r "ref_date")) (rows raw) ->
       fetch_data_from_supabase_reported strftime to_datetime raw
       = Raise TypeError) /\
      (Forall (fun r => at_ r "ref_date" = NA) (rows raw) ->
       fetch_data_from_supabase_reported strftime to_datetime raw
       = Raise (ValueError "NaTType does not support strftime"))
  end.
Proof.
  unfold fetch_data_from_supabase_reported, fetch_data_from_supabase.
  destruct (dtype_of raw "ref_date") as [d|] eqn:Hd.
  2:{ unfold getitem. rewrite Hd. by unbind. }
  rewrite (getitem_ok _ _ _ Hd). split.
  - intros Hex.
    pose proof (mapM_parse_ref_date_raises
                  (map (fun r => at_ r "ref_date") (rows raw))
                  ltac:(by apply Exists_fmap)) as Hr.
    unfold mbind, result_bind, Py.bind in *. cbn [svalues].
    by rewrite Hr.
  - intros Hall.
    destruct (mapM_parse_ref_date_missing
                (map (fun r => at_ r "ref_date") (rows raw)))
      as (parsed & Hp & Hna); [by apply Forall_fmap|].
    unfold mbind, result_bind, Py.bind in *. cbn [svalues].
    rewrite Hp. unfold date_range, dates_of.
    rewrite omap_nil_Forall; [done|].
    apply Forall_forall. intros r Hr.
    rewrite sort_values_Permutation in Hr. simpl in Hr.
    apply elem_of_zip_with in Hr as (r0 & v & -> & _ & Hv).
    rewrite at_insert_eq.
    rewrite Forall_forall in Hna. by rewrite (Hna v Hv).
Qed.

End FetchFacts.

(** ** More on the split, and the loop of [main] *)

Section SplitParts.
Context {A : Type}.
Implicit Types (X : DataFrame A) (y dates : list (cell A)).

Import TrainModels.

(** X8: the two parts of a split put together are the dataset again; the
    test part is never empty, and the training part is empty exactly
    when the dataset has one example. *)
Theorem time_based_split_partition X y dates (sp : Split) :
  time_based_split X y dates = Some sp ->
  (rows (X_train sp) ++ rows (X_test sp))%list = rows X /\
  (y_train sp ++ y_test sp)%list = y /\
  (1 <= len (X_test sp))%nat /\
  (len (X_train sp) = 0%nat <-> len X = 1%nat).
Proof.
  unfold time_based_split.
  destruct (Nat.eqb_spec (len X) 0) as [|Hn]; [done|].
  intros [= <-]. simpl.
  pose proof (split_idx_floor (len X)) as Hk.
  pose proof (split_idx_le (len X)) as Hle.
  assert (Hlt : (split_idx (len X) < len X)%nat).
  { assert (4 * Z.of_nat (len X) / 5 < Z.of_nat (len X))
      by (Z.div_mod_to_equations; lia). lia. }
  unfold len in *. simpl. rewrite !take_drop, length_take, length_drop.
  split_and!; try done; try lia.
  split; intros H0.
  - assert (4 * Z.of_nat (length (rows X)) / 5 = 0) by lia.
    assert (Z.of_nat (length (rows X)) < 2)
      by (Z.div_mod_to_equations; lia). lia.
  - rewrite H0 in Hk. change (4 * Z.of_nat 1 / 5) with 0 in Hk. lia.
Qed.

End SplitParts.

Section MainLoop.
Context {A : Type}.

(** The regressor and what [main] prints and saves are opaque:
    [train_and_evaluate_model] takes the split and the horizon to what
    the rest of the turn returns (the training, the model and the
    predictions it saves), or raises; [describe] stands for the [min],
    [max], [mean] and [std] of the target column and their formatting,
    [strftime] for the formatting of a date. *)
Variable to_datetime : string -> option Z.
Variable strftime : Z -> result string.
Variable Trained : Type.
Variable train_and_evaluate_model : @TrainModels.Split A -> Z -> result Trained.
Variable describe : Series A -> result unit.

(** One turn of the loop of [main]: the horizon is skipped when its
    dataset is empty, trained otherwise; [trained] holds what the
    turns before it trained. *)
Definition train_horizon
  (df : DataFrame A) (trained : list (Z * Trained)) (horizon : Z)
  : result (list (Z * Trained)) :=
  ds ← TrainModels.build_supervised_dataset df TrainModels.TARGET_COLUMN horizon;
  match TrainModels.time_based_split ds.1.1 ds.1.2 ds.2 with
  | None => Ok trained
  | Some sp =>
      m ← train_and_evaluate_model sp horizon;
      Ok (trained ++ [(horizon, m)])%list
  end.

(** [main], from the rows of the store to the horizons it trained, in
    order, each with what the training returned. *)
Definition main (raw : DataFrame A) : result (list (Z * Trained)) :=
  df ← fetch_data_from_supabase_reported strftime to_datetime raw;
  if negb (str_in TrainModels.TARGET_COLUMN (names df))
  then Ok []
  else
    s ← getitem df TrainModels.TARGET_COLUMN;
    _ ← describe s;
    foldl (fun acc horizon => trained ← acc; train_horizon df trained horizon)
      (Ok []) TrainModels.HORIZONS.

(** A horizon for which the table has a target: some row [h] places or
    more from the start has a value in the target column. *)
Definition has_target (df : DataFrame A) (h : Z) : bool :=
  existsb (fun v => negb (isna v))
    (drop (Z.to_nat h)
       (map (fun r => at_ r TrainModels.TARGET_COLUMN) (rows df))).

Import TrainModels.

Lemma filter_nil_existsb {T : Type} (f : T -> bool) (l : list T) :
  List.filter f l = [] <-> existsb f l = false.
Proof.
  induction l as [|x l IH]; simpl; [done|].
  destruct (f x); simpl; [done|apply IH].
Qed.

Lemma train_horizon_inv df (trained trained' : list (Z * Trained)) h :
  1 <= h ->
  train_horizon df trained h = Ok trained' ->
  if has_target df h
  then exists m, trained' = (trained ++ [(h, m)])%list
  else trained' = trained.
Proof.
  intros Hh. unfold train_horizon.
  destruct (build_supervised_dataset df TARGET_COLUMN h)
    as [[[X y] dates]|e] eqn:Hb; [|by unbind].
  unfold mbind at 1, result_bind at 1, Py.bind at 1. simpl.
  destruct (build_supervised_dataset_drops_missing _ _ _ _ _ _ Hh Hb)
    as (Hy & HX & _).
  unfold time_based_split, has_target.
  destruct (existsb _ _) eqn:Hex.
  - destruct (Nat.eqb_spec (len X) 0) as [H0|_].
    { rewrite HX in H0. apply length_zero_iff_nil in H0.
      rewrite Hy in H0. apply filter_nil_existsb in H0. congruence. }
    unfold mbind, result_bind, Py.bind.
    destruct (train_and_evaluate_model _ h) as [m|]; [|done].
    intros [= <-]. by exists m.
  - apply filter_nil_existsb in Hex. rewrite Hex in Hy. subst y.
    simpl in HX. rewrite HX. simpl. by intros [= <-].
Qed.

Lemma train_loop_raise df (e : exn) (hs : list Z) :
  foldl (fun acc horizon => trained ← acc; train_horizon df trained horizon)
    (Raise e) hs = Raise e.
Proof. induction hs as [|h hs IH]; simpl; [done|]. apply IH. Qed.

Lemma train_loop_inv df (hs : list Z) (trained l : list (Z * Trained)) :
  Forall (fun h => 1 <= h) hs ->
  foldl (fun acc horizon => trained ← acc; train_horizon df trained horizon)
    (Ok trained) hs = Ok l ->
  map fst l = (map fst trained ++ List.filter (has_target df) hs)%list.
Proof.
  intros Hall. revert trained.
  induction Hall as [|h hs Hh _ IH]; intros trained; simpl.
  - intros [= <-]. by rewrite app_nil_r.
  - change (Ok trained ≫= fun t => train_horizon df t h)
      with (train_horizon df trained h).
    destruct (train_horizon df trained h) as [trained'|e] eqn:Ht.
    2:{ by rewrite train_loop_raise. }
    intros Hl%IH. rewrite Hl.
    apply train_horizon_inv in Ht; [|done].
    destruct (has_target df h).
    + destruct Ht as [m ->]. rewrite map_app. simpl. by rewrite <- app_assoc.
    + by subst.
Qed.

(** X9: when [main] returns, the horizons it trained are, in order, the
    horizons of [HORIZONS] for which some row has a target that many
    places ahead; none when the fetched table has no target column. *)
Theorem main_trained_horizons (raw : DataFrame A) (l : list (Z * Trained)) :
  main raw = Ok l ->
  exists df,
    fetch_data_from_supabase to_datetime raw = Ok df /\
    map fst l
    = if str_in TARGET_COLUMN (names df)
      then List.filter (has_target df) HORIZONS
      else [].
Proof.
  unfold main, fetch_data_from_supabase_reported.
  intros (df & Hdf & Hl)%bind_Ok_inv.
  apply bind_Ok_inv in Hdf as (df' & Hf & Hdf).
  apply bind_Ok_inv in Hdf as (p & _ & [= ->]).
  exists df. split; [done|].
  destruct (str_in TARGET_COLUMN (names df)); cbn [negb] in Hl.
  - apply bind_Ok_inv in Hl as (s & _ & Hl).
    apply bind_Ok_inv in Hl as (u & _ & Hl).
    apply train_loop_inv in Hl; [done|].
    unfold HORIZONS. repeat constructor; lia.
  - by injection Hl as <-.
Qed.

End MainLoop.

(** ** More on the model cache *)

Section CacheFacts.
Context {A : Type} `{Predict.Arith A}.
Variable Model : Type.
Variable py_int : string -> result Z.
Variable predict : Model -> DataFrame A -> result A.

Import Predict.

Implicit Types (files : gmap string Model) (params : Query)
  (env : Env A) (st : State Model) (h : Z).

Lemma load_loop_lookup files st (hs : list Z) h :
  MODELS (foldl (load_one Model files) st hs) !! h
  = if int_in h hs
    then match files !! model_path h with
         | Some m => Some m
         | None => MODELS st !! h
         end
    else MODELS st !! h.
Proof.
  revert st. induction hs as [|h0 hs IH]; intros st; simpl; [done|].
  rewrite IH. unfold load_one.
  destruct (Z.eqb_spec h h0) as [->|Hne]; simpl.
  - destruct (files !! model_path h0) as [m|] eqn:Hf; simpl.
    + rewrite lookup_insert_eq. by destruct (int_in h0 hs).
    + by destruct (int_in h0 hs).
  - destruct (files !! model_path h0) as [m|]; simpl; [|done].
    by rewrite lookup_insert_ne.
Qed.

(** X10: loading into an empty cache caches, for each supported horizon,
    the artifact that exists for it, and nothing else. *)
Theorem load_models_empty_cache files st h :
  MODELS st = ∅ ->
  MODELS (load_models Model files st) !! h
  = if int_in h HORIZONS then files !! model_path h else None.
Proof.
  intros Hempty. unfold load_models.
  rewrite bool_decide_eq_true_2 by done.
  rewrite load_loop_lookup, Hempty, lookup_empty.
  destruct (int_in h HORIZONS); [|done]. by destruct (files !! model_path h).
Qed.

(** X11: a cache that holds a model is never filled again: a request for
    a supported horizon that the cache lacks is answered 404 whatever
    artifacts exist by then, and no file is looked for. *)
Theorem do_GET_stale_cache files params env st h :
  MODELS st ≠ ∅ ->
  MODELS st !! h = None ->
  get_horizon py_int params = Ok h ->
  h ∈ HORIZONS ->
  do_GET Model py_int predict files params env st
  = (send_error_response 404 ("Model for horizon " ++ pretty h ++ " not found"),
     st).
Proof.
  intros Hne Hnone Hh Hin.
  rewrite (do_GET_supported _ _ _ _ _ _ _ h) by done.
  unfold load_models. rewrite bool_decide_eq_false_2 by done.
  by rewrite Hnone.
Qed.

(** X12: the handler answers 200, 400, 404 or 500, and a prediction
    exactly when it answers 200. *)
Theorem do_GET_status files params env st :
  let r := fst (do_GET Model py_int predict files params env st) in
  (status r = 200 \/ status r = 400 \/ status r = 404 \/ status r = 500) /\
  (status r = 200 <-> exists data, body r = Success data).
Proof.
  unfold do_GET, do_GET_try.
  destruct (get_horizon py_int params) as [h|e].
  2:{ destruct e; simpl; split; try tauto;
      (split; [discriminate|by intros [? ?]]). }
  destruct (negb (int_in h HORIZONS)).
  { simpl. split; [tauto|]. split; [discriminate|by intros [? ?]]. }
  destruct (MODELS (load_models Model files st) !! h) as [model|].
  2:{ simpl. split; [tauto|]. split; [discriminate|by intros [? ?]]. }
  cbn [fst].
  destruct (score Model predict env h (get_include_historical params) model)
    as [r|e] eqn:Hs.
  - apply score_success in Hs as [Hst [data Hb]]. simpl. rewrite Hst.
    split; [tauto|]. split; [by eexists|done].
  - destruct e; simpl; split; try tauto;
      (split; [discriminate|by intros [? ?]]).
Qed.

End CacheFacts.

(** ** More on the handler *)

Section HandlerFacts.
Context {A : Type} `{Predict.Arith A}.
Variable Model : Type.
Variable py_int : string -> result Z.
Variable predict : Model -> DataFrame A -> result A.

Import Predict.

Implicit Types (files : gmap string Model) (params : Query)
  (env : Env A) (st : State Model) (h : Z).

(** A successful answer, with the model that scored it. *)
Lemma do_GET_success_model files params env st (data : Prediction A) :
  body (fst (do_GET Model py_int predict files params env st)) = Success data ->
  exists h model,
    get_horizon py_int params = Ok h /\
    h ∈ HORIZONS /\
    MODELS (load_models Model files st) !! h = Some model /\
    score Model predict env h (get_include_historical params) model
    = Ok (fst (do_GET Model py_int predict files params env st)).
Proof.
  unfold do_GET, do_GET_try.
  destruct (get_horizon py_int params) as [h|e].
  2:{ destruct e; done. }
  destruct (int_in h HORIZONS) eqn:Hin; [|done].
  destruct (MODELS (load_models Model files st) !! h) as [model|] eqn:Hm;
    [|done].
  cbn [fst negb answer].
  destruct (score Model predict env h (get_include_historical params) model)
    as [r|e] eqn:Hs.
  - intros _. exists h, model. split_and!; try done.
    by apply int_in_elem_of.
  - destruct e; done.
Qed.

(** X13: in a process started with an empty cache, whatever requests
    came before, a prediction is for the supported horizon that was
    asked and is what the artifact that exists for that horizon predicts
    from the features of the latest row. *)
Theorem do_GET_prediction_from_artifact
  files (requests : list (Query * Env A)) params env (data : Prediction A) :
  body (fst (do_GET Model py_int predict files params env
               (serve Model py_int predict files requests (initial Model))))
  = Success data ->
  get_horizon py_int params = Ok (horizon_months data) /\
  horizon_months data ∈ HORIZONS /\
  exists model df,
    files !! model_path (horizon_months data) = Some model /\
    fetch_latest_data env = Ok df /\
    predict model (features df) = Ok (predicted_hpi data).
Proof.
  intros Hb.
  pose proof (do_GET_success_model _ _ _ _ _ Hb) as (h & model & Hh & Hin & Hm & Hs).
  pose proof (load_models_sound Model files _
                (serve_sound Model py_int predict files requests _
                   (initial_sound Model files))) as Hsound.
  apply Hsound in Hm.
  apply score_inv in Hs
    as (df & p & c & cur & d & rd & hist & Hdf & Hp & _ & _ & _ & _ & _ & Hr).
  rewrite Hr in Hb. injection Hb as <-. simpl.
  split_and!; try done. by exists model, df.
Qed.

(** X14: a request without [horizon] is answered as the same request
    with [horizon=1]. *)
Theorem do_GET_default_horizon files params env st :
  params !! "horizon" = None ->
  py_int "1" = Ok 1 ->
  do_GET Model py_int predict files params env st
  = do_GET Model py_int predict files
      (<["horizon" := ("1", [])]> params) env st.
Proof.
  intros Hnone Hone. unfold do_GET, do_GET_try.
  assert (Hh : get_horizon py_int params = Ok 1)
    by (unfold get_horizon; by rewrite Hnone).
  assert (Hh' : get_horizon py_int (<["horizon" := ("1", [])]> params) = Ok 1).
  { unfold get_horizon, Query in *. by rewrite lookup_insert_eq. }
  assert (Hi : get_include_historical (<["horizon" := ("1", [])]> params)
               = get_include_historical params).
  { unfold get_include_historical, Query in *.
    by rewrite lookup_insert_ne. }
  by rewrite Hh, Hh', Hi.
Qed.

(** X15: with a supported horizon whose model is loaded, a missing
    store credential is answered 400 with the message of the
    [ValueError], whatever the table holds. *)
Theorem do_GET_missing_credentials files params env st h (model : Model) :
  get_horizon py_int params = Ok h ->
  h ∈ HORIZONS ->
  MODELS (load_models Model files st) !! h = Some model ->
  unset (SUPABASE_URL env) = true \/ unset (SUPABASE_SERVICE_ROLE_KEY env) = true ->
  fst (do_GET Model py_int predict files params env st)
  = send_error_response 400
      "Missing Supabase credentials in environment variables".
Proof.
  intros Hh Hin Hm Hcred.
  rewrite (do_GET_supported _ _ _ _ _ _ _ h) by done.
  rewrite Hm. cbn [fst]. unfold score, fetch_latest_data.
  assert (Hc : (unset (SUPABASE_URL env)
                || unset (SUPABASE_SERVICE_ROLE_KEY env))%bool = true).
  { apply orb_true_iff. done. }
  by rewrite Hc.
Qed.

(** X16: asking for the history or not does not change a prediction:
    two successful answers to requests that differ in
    [include_historical] only agree on every field but the history. *)
Theorem do_GET_history_independent
  files params env st (v : option (string * list string)) :
  match
    body (fst (do_GET Model py_int predict files params env st)),
    body (fst (do_GET Model py_int predict files
                 (partial_alter (fun _ => v) "include_historical" params)
                 env st))
  with
  | Success data, Success data' =>
      horizon_months data' = horizon_months data /\
      current_hpi data' = current_hpi data /\
      predicted_hpi data' = predicted_hpi data /\
      percentage_change data' = percentage_change data /\
      ref_date data' = ref_date data
  | _, _ => True
  end.
Proof.
  set (params' := partial_alter (fun _ => v) "include_historical" params).
  destruct (body (fst (do_GET Model py_int predict files params env st)))
    as [data|] eqn:Hb; [|done].
  destruct (body (fst (do_GET Model py_int predict files params' env st)))
    as [data'|] eqn:Hb'; [|done].
  pose proof (do_GET_success_model _ _ _ _ _ Hb) as (h & model & Hh & _ & Hm & Hs).
  pose proof (do_GET_success_model _ _ _ _ _ Hb')
    as (h' & model' & Hh' & _ & Hm' & Hs').
  assert (h' = h) as ->.
  { unfold get_horizon, params', Query in *.
    rewrite lookup_partial_alter_ne in Hh' by done. congruence. }
  assert (model' = model) as -> by congruence.
  apply score_inv in Hs
    as (df & p & c & cur & d & rd & hist & Hdf & Hp & Hc & Hcur & Hd & Hrd & _ & Hr).
  apply score_inv in Hs'
    as (df' & p' & c' & cur' & d' & rd' & hist' & Hdf' & Hp' & Hc' & Hcur'
        & Hd' & Hrd' & _ & Hr').
  rewrite Hr in Hb. rewrite Hr' in Hb'.
  injection Hb as <-. injection Hb' as <-. simpl.
  assert (df' = df) as -> by congruence.
  assert (p' = p) as -> by congruence.
  assert (c' = c) as -> by congruence.
  assert (d' = d) as -> by congruence.
  assert (cur' = cur) as -> by congruence.
  assert (rd' = rd) as -> by congruence.
  done.
Qed.

End HandlerFacts.

(** ** The latest row, the history and the features at serving *)

(** A column of the latest row that the handler passes to the model: any
    numeric column other than [ref_date] and the index. *)
Definition is_serving_feature {A : Type} (df : DataFrame A) (c : string) : bool :=
  negb (str_in c ["ref_date"; "housing_price_index_value"])
  && match dtype_of df c with
     | Some d => is_number d
     | None => false
     end.

Section RecordFacts.
Context {A : Type} `{Predict.Arith A}.
Variable Model : Type.
Variable py_int : string -> result Z.
Variable predict : Model -> DataFrame A -> result A.

Import Predict.

Implicit Types (files : gmap string Model) (params : Query)
  (env : Env A) (st : State Model) (h : Z) (r : record A).

Lemma list_to_map_find r (k : string) :
  (list_to_map r : gmap string (cell A)) !! k
  = snd <$> List.find (fun p => String.eqb (fst p) k) r.
Proof.
  induction r as [|[k0 v0] r IH]; simpl; [done|].
  destruct (String.eqb_spec k0 k) as [->|Hne].
  - by rewrite lookup_insert_eq.
  - by rewrite lookup_insert_ne.
Qed.

Lemma getitem_frame_of_record r (k : string) (v : cell A) :
  record_get r k = Ok v ->
  getitem (frame_of_record r) k
  = Ok {| sdtype := infer_dtype v; svalues := [v] |}.
Proof.
  unfold record_get.
  destruct (List.find _ r) as [[k0 v0]|] eqn:Hf; [|done].
  intros [= <-]. unfold getitem.
  assert (Hd : dtype_of (frame_of_record r) k = Some (infer_dtype v0)).
  { unfold dtype_of, frame_of_record; simpl.
    clear -Hf. induction r as [|[k1 v1] r IH]; simpl in *; [done|].
    destruct (String.eqb k1 k); [by injection Hf as <- <-|by apply IH]. }
  rewrite Hd. simpl. unfold at_, row. by rewrite list_to_map_find, Hf.
Qed.

Lemma fetch_latest_data_last env (older : list (record A)) r :
  toronto_housing env = (older ++ [r])%list ->
  unset (SUPABASE_URL env) = false ->
  unset (SUPABASE_SERVICE_ROLE_KEY env) = false ->
  fetch_latest_data env = Ok (frame_of_record r).
Proof.
  intros Ht Hu Hk. unfold fetch_latest_data.
  rewrite Hu, Hk, Ht, reverse_app. done.
Qed.

(** X17: with the credentials set, a supported horizon and its model
    loaded, the answer is made of the last row of the table: its index
    is the current value, its [ref_date] the date, and the prediction is
    what the model gives on its features. *)
Theorem do_GET_latest_row
  files params env st h (model : Model) (older : list (record A)) r
  (cur p : A) (rd : cell A) (hist : option (list (cell A * cell A))) :
  get_horizon py_int params = Ok h ->
  h ∈ HORIZONS ->
  MODELS (load_models Model files st) !! h = Some model ->
  unset (SUPABASE_URL env) = false ->
  unset (SUPABASE_SERVICE_ROLE_KEY env) = false ->
  toronto_housing env = (older ++ [r])%list ->
  record_get r "housing_price_index_value" = Ok (Num cur) ->
  record_get r "ref_date" = Ok rd ->
  predict model (features (frame_of_record r)) = Ok p ->
  history env (get_include_historical params) = Ok hist ->
  fst (do_GET Model py_int predict files params env st)
  = send_success_response
      {| horizon_months := h;
         current_hpi := cur;
         predicted_hpi := p;
         percentage_change := pct_change p cur;
         ref_date := rd;
         historical := hist |}.
Proof.
  intros Hh Hin Hm Hu Hk Ht Hc Hrd Hp Hhist.
  rewrite (do_GET_supported _ _ _ _ _ _ _ h) by done.
  rewrite Hm. cbn [fst]. unfold score.
  rewrite (fetch_latest_data_last _ _ _ Ht Hu Hk).
  unfold mbind at 1, result_bind at 1, Py.bind at 1.
  rewrite Hp. unfold mbind at 1, result_bind at 1, Py.bind at 1.
  rewrite (getitem_frame_of_record _ _ _ Hc).
  unfold mbind at 1, result_bind at 1, Py.bind at 1.
  unfold iloc0 at 1. cbn [svalues].
  unfold mbind at 1, result_bind at 1, Py.bind at 1.
  unfold as_number. unfold mbind at 1, result_bind at 1, Py.bind at 1.
  rewrite (getitem_frame_of_record _ _ _ Hrd).
  unfold mbind at 1, result_bind at 1, Py.bind at 1.
  unfold iloc0. cbn [svalues].
  unfold mbind at 1, result_bind at 1, Py.bind at 1.
  rewrite Hhist. done.
Qed.

(** X18: the history is made of the last [months] rows of the table, or
    of all its rows when it has fewer, the oldest first, each with its
    [ref_date] and its index. *)
Theorem fetch_historical_data_last env (months : nat)
  (l : list (cell A * cell A)) :
  fetch_historical_data env months = Ok l ->
  length l = Nat.min months (length (toronto_housing env)) /\
  Forall2
    (fun r e =>
       record_get r "ref_date" = Ok (fst e) /\
       record_get r "housing_price_index_value" = Ok (snd e))
    (drop (length (toronto_housing env) - months) (toronto_housing env)) l.
Proof.
  unfold fetch_historical_data.
  destruct (unset (SUPABASE_URL env) || unset (SUPABASE_SERVICE_ROLE_KEY env))%bool;
    [done|].
  rewrite reverse_take, length_reverse, reverse_involutive.
  intros Hl%mapM_Ok_Forall2.
  assert (Hl' : Forall2
    (fun r e =>
       record_get r "ref_date" = Ok (fst e) /\
       record_get r "housing_price_index_value" = Ok (snd e))
    (drop (length (toronto_housing env) - months) (toronto_housing env)) l).
  { eapply Forall2_impl; [exact Hl|]. intros r [d v] Hr. simpl in *.
    apply bind_Ok_inv in Hr as (d' & Hd & Hr).
    apply bind_Ok_inv in Hr as (v' & Hv & [= <- <-]). done. }
  split; [|done].
  apply Forall2_length in Hl'. rewrite <- Hl', length_drop. lia.
Qed.

Lemma features_names (df : DataFrame A) :
  names (features df) = List.filter (is_serving_feature df) (names df).
Proof.
  unfold features.
  rewrite names_select by apply select_dtypes_number_dtype.
  unfold select_dtypes_number. by rewrite filter_filter_andb.
Qed.

(** X19: the features the handler passes to the model are the numeric
    columns of the latest row other than [ref_date] and the index, in
    the order of the row; the index is never one of them. *)
Theorem features_of_latest_row (df : DataFrame A) :
  names (features df) = List.filter (is_serving_feature df) (names df) /\
  ~ In "housing_price_index_value" (names (features df)) /\
  ~ In "ref_date" (names (features df)).
Proof.
  rewrite features_names. split_and!; [done| |].
  - intros [_ Hf]%filter_In. done.
  - intros [_ Hf]%filter_In. done.
Qed.

End RecordFacts.

Section SchemaMismatch.
Context {A : Type}.

Import TrainModels.

(** X20: when the index column of the table is numeric, the features of
    a training set hold it and the features at serving never do: the two
    lists of features differ, for every horizon and every latest row. *)
Theorem training_and_serving_features_differ
  (df X df' : DataFrame A) (y dates : list (cell A)) (h : Z) (d : dtype) :
  build_supervised_dataset df TARGET_COLUMN h = Ok (X, y, dates) ->
  dtype_of df TARGET_COLUMN = Some d ->
  is_number d = true ->
  In TARGET_COLUMN (names X) /\
  ~ In TARGET_COLUMN (names (Predict.features df')) /\
  names X ≠ names (Predict.features df').
Proof.
  intros Hb Hd Hnum.
  assert (Hin : In TARGET_COLUMN (names X)).
  { rewrite (build_feature_names _ _ _ _ _ _ Hb). apply filter_In.
    split; [by eapply dtype_of_Some_names|].
    unfold is_training_feature. by rewrite Hd, Hnum. }
  assert (Hout : ~ In TARGET_COLUMN (names (Predict.features df'))).
  { rewrite features_names. by intros [_ Hf]%filter_In. }
  split_and!; try done. intros Heq. apply Hout. by rewrite <- Heq.
Qed.

End SchemaMismatch.

(** ** The sign of the percentage change *)

Section PercentageSign.

Import Predict.

Local Open Scope Q_scope.

(** X21: in binary64, for a finite prediction, a finite positive
    current value and a finite percentage change, the sign of the
    percentage change never contradicts the order of the prediction and
    the current value: it is not negative when the prediction is above,
    not positive when it is below, zero when the two are equal, and so
    positive only above and negative only below. *)
Theorem pct_change_sign (p c : float) :
  PrimFloat.is_finite p = true ->
  PrimFloat.is_finite c = true ->
  PrimFloat.ltb 0 c = true ->
  PrimFloat.is_finite (pct_change p c) = true ->
  (B2Q c < B2Q p -> 0 <= B2Q (pct_change p c)) /\
  (B2Q p < B2Q c -> B2Q (pct_change p c) <= 0) /\
  (B2Q p == B2Q c -> B2Q (pct_change p c) == 0) /\
  (0 < B2Q (pct_change p c) -> B2Q c < B2Q p) /\
  (B2Q (pct_change p c) < 0 -> B2Q p < B2Q c).
Proof.
  intros Hp%is_finite_Prim2SF Hc%is_finite_Prim2SF Hc0 Ht%is_finite_Prim2SF.
  destruct (positive_Prim2SF c Hc Hc0) as (mc & ec & Hce).
  unfold B2Q. revert Ht. unfold pct_change. cbn [mul div sub of_int binary64].
  change (100 <? 0)%Z with false. cbv iota.
  rewrite mul_spec, div_spec, sub_spec.
  change (Prim2SF (PrimFloat.of_uint63 (Uint63.of_Z 100)))
    with (S754_finite false 7036874417766400 (-46)).
  unfold SF64mul, SF64div, SF64sub. rewrite Hce. intros Ht.
  pose proof (SFmul_finite_inv _ _ _ _ Ht) as Hq.
  pose proof (SFdiv_finite_inv _ _ _ _ Hq) as Hd.
  pose proof (SFsub_error (Prim2SF p) (S754_finite false mc ec)
                (Prim2SF_valid p)
                ltac:(rewrite <- Hce; apply Prim2SF_valid)
                Hp eq_refl Hd) as E1.
  apply difference_sign in E1 as (Hpos & Hneg & Hzero).
  destruct (SFdiv_sign _ mc ec Hq) as [Hq1 Hq2].
  destruct (SFmul_sign _ 7036874417766400 (-46) Ht) as [Ht1 Ht2].
  set (P := SF2Q (Prim2SF p)) in *.
  set (C := SF2Q (S754_finite false mc ec)) in *.
  set (D := SF2Q (SFsub prec emax (Prim2SF p) (S754_finite false mc ec))) in *.
  set (V := SF2Q (SFdiv prec emax _ _)) in *.
  set (T := SF2Q (SFmul prec emax _ _)) in *.
  assert (H1 : C < P -> 0 <= T).
  { intros H. apply Ht1, Hq1, Qlt_le_weak, Hpos. lra. }
  assert (H2 : P < C -> T <= 0).
  { intros H. apply Ht2, Hq2, Qlt_le_weak, Hneg. lra. }
  assert (H3 : P == C -> T == 0).
  { intros H. assert (HD : D == 0) by (apply Hzero; lra).
    assert (0 <= T) by (apply Ht1, Hq1; lra).
    assert (T <= 0) by (apply Ht2, Hq2; lra). lra. }
  split_and!; try done.
  - intros HT. destruct (Q_dec P C) as [[Hlt|Hgt]|Heq]; [|done|].
    + specialize (H2 Hlt). lra.
    + specialize (H3 Heq). lra.
  - intros HT. destruct (Q_dec P C) as [[Hlt|Hgt]|Heq]; [done| |].
    + specialize (H1 Hgt). lra.
    + specialize (H3 Heq). lra.
Qed.

End PercentageSign.

(** ** Repeated requests and the history of an answer *)

Section RepeatedRequests.
Context {A : Type} `{Predict.Arith A}.
Variable Model : Type.
Variable py_int : string -> result Z.
Variable predict : Model -> DataFrame A -> result A.

Import Predict.

Implicit Types (files : gmap string Model) (params : Query)
  (env : Env A) (st : State Model) (h : Z).

(** Filling the cache twice from the same directory leaves in it what
    filling it once does. *)
Lemma load_models_twice files st :
  MODELS (load_models Model files (load_models Model files st))
  = MODELS (load_models Model files st).
Proof.
  unfold load_models at 1.
  destruct (decide (MODELS (load_models Model files st) = ∅)) as [He|Hne].
  - rewrite bool_decide_eq_true_2 by done.
    apply map_eq; intros h. rewrite load_loop_lookup.
    destruct (int_in h HORIZONS) eqn:Hin; [|done].
    destruct (files !! model_path h) as [m|] eqn:Hf; [|done].
    exfalso.
    assert (Hl : MODELS (load_models Model files st) !! h = Some m).
    { unfold load_models in *.
      destruct (bool_decide (MODELS st = ∅)) eqn:Hd.
      - by rewrite load_loop_lookup, Hin, Hf.
      - apply bool_decide_eq_false in Hd. done. }
    by rewrite He, lookup_empty in Hl.
  - by rewrite bool_decide_eq_false_2.
Qed.

(** X22: while the artifacts and the table stay the same, a request asked
    again at once gets the same answer and leaves the same models in the
    cache. *)
Theorem do_GET_repeated files params env st :
  fst (do_GET Model py_int predict files params env
         (snd (do_GET Model py_int predict files params env st)))
  = fst (do_GET Model py_int predict files params env st) /\
  MODELS (snd (do_GET Model py_int predict files params env
                 (snd (do_GET Model py_int predict files params env st))))
  = MODELS (snd (do_GET Model py_int predict files params env st)).
Proof.
  destruct (get_horizon py_int params) as [h|e] eqn:Hh.
  2:{ unfold do_GET, do_GET_try. by rewrite Hh. }
  destruct (int_in h HORIZONS) eqn:Hin.
  2:{ unfold do_GET, do_GET_try. by rewrite Hh, Hin. }
  apply int_in_elem_of in Hin.
  rewrite !(do_GET_supported Model py_int predict files params env _ h)
    by done.
  cbn [fst snd]. by rewrite load_models_twice.
Qed.

Lemma fetch_historical_data_length env (months : nat)
  (l : list (cell A * cell A)) :
  fetch_historical_data env months = Ok l ->
  length l = Nat.min months (length (toronto_housing env)).
Proof.
  unfold fetch_historical_data.
  destruct (unset (SUPABASE_URL env) || unset (SUPABASE_SERVICE_ROLE_KEY env))%bool;
    [done|].
  intros Hl%mapM_Ok_Forall2%Forall2_length.
  rewrite <- Hl, length_reverse, length_take, length_reverse. done.
Qed.

(** X23: a prediction carries a history exactly when the request asks
    for it; the history is then what [fetch_historical_data(12)] returns,
    of twelve entries or of as many as the table has rows. *)
Theorem do_GET_historical files params env st (data : Prediction A) :
  body (fst (do_GET Model py_int predict files params env st)) = Success data ->
  if get_include_historical params
  then exists l,
         historical data = Some l /\
         fetch_historical_data env 12 = Ok l /\
         length l = Nat.min 12 (length (toronto_housing env))
  else historical data = None.
Proof.
  intros Hb.
  pose proof (do_GET_success_model _ _ _ _ _ _ _ _ Hb)
    as (h & model & _ & _ & _ & Hs).
  apply score_inv in Hs
    as (df & p & c & cur & d & rd & hist & _ & _ & _ & _ & _ & _ & Hhist & Hr).
  rewrite Hr in Hb. injection Hb as <-. cbn [historical].
  unfold history in Hhist.
  destruct (get_include_historical params); [|by injection Hhist as <-].
  apply bind_Ok_inv in Hhist as (l & Hl & [= <-]).
  exists l. split_and!; try done. by apply fetch_historical_data_length.
Qed.

End RepeatedRequests.

(** ** The further properties on the worked tables and requests *)

(** The dataset of the four months with a gap at a horizon of one month,
    and its first example. *)
Definition gap_dataset : DataFrame Q * list (cell Q) * list (cell Q) :=
  get_ok (no_frame, [], [])
    (TrainModels.build_supervised_dataset table_with_gap
       TrainModels.TARGET_COLUMN 1).

Definition gap_first_example : row Q :=
  <["target_h1" := Num 103%Q]>
    (indicator_row (Date 24241) NA (Num (56 # 10)%Q)).

(** The dataset of the four complete months at a horizon of two
    months. *)
Definition four_months_h2 : DataFrame Q * list (cell Q) * list (cell Q) :=
  get_ok (no_frame, [], [])
    (TrainModels.build_supervised_dataset four_months
       TrainModels.TARGET_COLUMN 2).

(** A training that returns nothing, and statistics that print. *)
Definition train_nothing (sp : @TrainModels.Split Q) (horizon : Z) : result unit :=
  Ok tt.
Definition describe_nothing (s : Series Q) : result unit := Ok tt.

(** [strftime('%Y-%m')] on the months [iso_month] reads. *)
Definition month_text (t : Z) : result string :=
  Ok (pretty (t / 12) ++ "-"
      ++ (if t mod 12 + 1 <? 10 then "0" else "") ++ pretty (t mod 12 + 1)).

Section TrainingExtrasExamples.

Import TrainModels.

Lemma build_supervised_dataset_example_witness :
  1 <= 1 /\
  build_supervised_dataset table_with_gap TARGET_COLUMN 1
  = Ok (gap_dataset.1.1, gap_dataset.1.2, gap_dataset.2) /\
  rows gap_dataset.1.1 !! 0%nat = Some gap_first_example /\
  exists i r r',
    rows table_with_gap !! i = Some r /\
    rows table_with_gap !! (i + Z.to_nat 1)%nat = Some r' /\
    (forall c, c ≠ "target_h" ++ pretty 1 ->
               at_ gap_first_example c = at_ r c) /\
    gap_dataset.2 !! 0%nat = Some (at_ r "ref_date") /\
    gap_dataset.1.2 !! 0%nat = Some (at_ r' TARGET_COLUMN) /\
    at_ r' TARGET_COLUMN ≠ NA.
Proof.
  assert (H1 : 1 <= 1) by lia.
  assert (H2 : build_supervised_dataset table_with_gap TARGET_COLUMN 1
               = Ok (gap_dataset.1.1, gap_dataset.1.2, gap_dataset.2))
    by (vm_compute; reflexivity).
  assert (H3 : rows gap_dataset.1.1 !! 0%nat = Some gap_first_example)
    by (vm_compute; reflexivity).
  split_and!; try assumption.
  exact (build_supervised_dataset_example table_with_gap TARGET_COLUMN 1
           gap_dataset.1.1 gap_dataset.1.2 gap_dataset.2 0%nat
           gap_first_example H1 H2 H3).
Defined.

Lemma build_supervised_dataset_horizon_too_long_witness :
  1 <= 6 /\
  Z.of_nat (len four_months) <= 6 /\
  is_Some (dtype_of four_months TARGET_COLUMN) /\
  is_Some (dtype_of four_months "ref_date") /\
  exists X,
    build_supervised_dataset four_months TARGET_COLUMN 6 = Ok (X, [], []) /\
    len X = 0%nat /\
    time_based_split X [] [] = None.
Proof.
  assert (H1 : 1 <= 6) by lia.
  assert (H2 : Z.of_nat (len four_months) <= 6) by (vm_compute; discriminate).
  assert (H3 : is_Some (dtype_of four_months TARGET_COLUMN))
    by (eexists; reflexivity).
  assert (H4 : is_Some (dtype_of four_months "ref_date"))
    by (eexists; reflexivity).
  split_and!; try assumption.
  exact (build_supervised_dataset_horizon_too_long four_months TARGET_COLUMN 6
           H1 H2 H3 H4).
Defined.

Lemma build_supervised_dataset_features_witness :
  build_supervised_dataset four_months TARGET_COLUMN 1
  = Ok (fetched_dataset.1.1, fetched_dataset.1.2, fetched_dataset.2) /\
  names fetched_dataset.1.1
  = List.filter (is_training_feature four_months) (names four_months).
Proof.
  assert (H1 : build_supervised_dataset four_months TARGET_COLUMN 1
               = Ok (fetched_dataset.1.1, fetched_dataset.1.2,
                     fetched_dataset.2))
    by (vm_compute; reflexivity).
  split; [exact H1|].
  exact (build_supervised_dataset_features four_months TARGET_COLUMN 1
           fetched_dataset.1.1 fetched_dataset.1.2 fetched_dataset.2 H1).
Defined.

Lemma build_supervised_dataset_same_schema_witness :
  build_supervised_dataset four_months TARGET_COLUMN 1
  = Ok (fetched_dataset.1.1, fetched_dataset.1.2, fetched_dataset.2) /\
  build_supervised_dataset four_months TARGET_COLUMN 2
  = Ok (four_months_h2.1.1, four_months_h2.1.2, four_months_h2.2) /\
  names fetched_dataset.1.1 = names four_months_h2.1.1.
Proof.
  assert (H1 : build_supervised_dataset four_months TARGET_COLUMN 1
               = Ok (fetched_dataset.1.1, fetched_dataset.1.2,
                     fetched_dataset.2))
    by (vm_compute; reflexivity).
  assert (H2 : build_supervised_dataset four_months TARGET_COLUMN 2
               = Ok (four_months_h2.1.1, four_months_h2.1.2,
                     four_months_h2.2))
    by (vm_compute; reflexivity).
  split_and!; try assumption.
  exact (build_supervised_dataset_same_schema four_months TARGET_COLUMN 1 2
           fetched_dataset.1.1 fetched_dataset.1.2 fetched_dataset.2
           four_months_h2.1.1 four_months_h2.1.2 four_months_h2.2 H1 H2).
Defined.

Lemma fetch_data_from_supabase_rows_witness :
  fetch_data_from_supabase iso_month raw_table = Ok four_months /\
  len four_months = len raw_table /\
  names four_months = names raw_table /\
  dtype_of four_months "ref_date" = Some datetime64 /\
  rows_sorted "ref_date" (rows four_months) /\
  Forall (fun r' => exists r, r ∈ rows raw_table /\
                      forall c, c ≠ "ref_date" -> at_ r' c = at_ r c)
    (rows four_months).
Proof.
  assert (H1 : fetch_data_from_supabase iso_month raw_table = Ok four_months)
    by (vm_compute; reflexivity).
  split; [exact H1|].
  exact (fetch_data_from_supabase_rows iso_month raw_table four_months H1).
Defined.

Lemma time_based_split_partition_witness :
  time_based_split fetched_dataset.1.1 fetched_dataset.1.2 fetched_dataset.2
  = Some four_months_split /\
  (rows (X_train four_months_split) ++ rows (X_test four_months_split))%list
  = rows fetched_dataset.1.1 /\
  (y_train four_months_split ++ y_test four_months_split)%list
  = fetched_dataset.1.2 /\
  (1 <= len (X_test four_months_split))%nat /\
  (len (X_train four_months_split) = 0%nat <-> len fetched_dataset.1.1 = 1%nat).
Proof.
  assert (H1 : time_based_split fetched_dataset.1.1 fetched_dataset.1.2
                 fetched_dataset.2 = Some four_months_split)
    by (vm_compute; reflexivity).
  split; [exact H1|].
  exact (time_based_split_partition fetched_dataset.1.1 fetched_dataset.1.2
           fetched_dataset.2 four_months_split H1).
Defined.

Lemma main_trained_horizons_witness :
  main iso_month month_text unit train_nothing describe_nothing raw_table
  = Ok [(1, tt); (2, tt); (3, tt)] /\
  exists df,
    fetch_data_from_supabase iso_month raw_table = Ok df /\
    map fst [(1, tt); (2, tt); (3, tt)]
    = if str_in TARGET_COLUMN (names df)
      then List.filter (has_target df) HORIZONS
      else [].
Proof.
  assert (H1 : main iso_month month_text unit train_nothing describe_nothing raw_table
               = Ok [(1, tt); (2, tt); (3, tt)])
    by (vm_compute; reflexivity).
  split; [exact H1|].
  exact (main_trained_horizons iso_month month_text unit train_nothing
           describe_nothing
           raw_table [(1, tt); (2, tt); (3, tt)] H1).
Defined.

Lemma training_and_serving_features_differ_witness :
  build_supervised_dataset four_months TARGET_COLUMN 1
  = Ok (fetched_dataset.1.1, fetched_dataset.1.2, fetched_dataset.2) /\
  dtype_of four_months TARGET_COLUMN = Some float64 /\
  is_number float64 = true /\
  In TARGET_COLUMN (names fetched_dataset.1.1) /\
  ~ In TARGET_COLUMN
      (names (Predict.features
                (Predict.frame_of_record (latest 150%Q (55 # 10)%Q)))) /\
  names fetched_dataset.1.1
  ≠ names (Predict.features
             (Predict.frame_of_record (latest 150%Q (55 # 10)%Q))).
Proof.
  assert (H1 : build_supervised_dataset four_months TARGET_COLUMN 1
               = Ok (fetched_dataset.1.1, fetched_dataset.1.2,
                     fetched_dataset.2))
    by (vm_compute; reflexivity).
  assert (H2 : dtype_of four_months TARGET_COLUMN = Some float64)
    by reflexivity.
  assert (H3 : is_number float64 = true) by reflexivity.
  split_and!; try assumption;
    apply (training_and_serving_features_differ four_months
             fetched_dataset.1.1
             (Predict.frame_of_record (latest 150%Q (55 # 10)%Q))
             fetched_dataset.1.2 fetched_dataset.2 1 float64 H1 H2 H3).
Defined.

End TrainingExtrasExamples.

(** A models directory holding the artifacts of the one-month and the
    three-month horizons. *)
Definition two_artifacts {A : Type} (m1 m3 : A) : gmap string A :=
  <["models/xgboost_h1.pkl" := m1]> (one_artifact m3).

(** An environment whose store URL is not set. *)
Definition env_without_url {A : Type} (table : list (Predict.record A))
  : Predict.Env A :=
  {| Predict.SUPABASE_URL := None;
     Predict.SUPABASE_SERVICE_ROLE_KEY := Some "service-role-key";
     Predict.toronto_housing := table |}.

(** A row of the table with its month. *)
Definition month_record {A : Type} (month : string) (hpi rate : A)
  : Predict.record A :=
  [("ref_date", Str month);
   ("housing_price_index_value", Num hpi);
   ("unemployment_rate", Num rate)].

Definition three_records : list (Predict.record Q) :=
  [month_record "2024-03" 148%Q (57 # 10)%Q;
   month_record "2024-04" 149%Q (56 # 10)%Q;
   month_record "2024-05" 150%Q (55 # 10)%Q].

(** The history of the last two of the three months. *)
Definition last_two_months : list (cell Q * cell Q) :=
  [(Str "2024-04", Num 149%Q); (Str "2024-05", Num 150%Q)].

(** The request of the scenario asking for the history as well, and its
    answer on the table of three months. *)
Definition request_with_history : Predict.Query :=
  <["include_historical" := ("true", [])]> (request "3").

Definition prediction_with_history : Predict.Prediction Q :=
  {| Predict.horizon_months := 3;
     Predict.current_hpi := 150%Q;
     Predict.predicted_hpi := (1605 # 10)%Q;
     Predict.percentage_change := Predict.pct_change (1605 # 10)%Q 150%Q;
     Predict.ref_date := Str "2024-05";
     Predict.historical :=
       Some [(Str "2024-03", Num 148%Q);
             (Str "2024-04", Num 149%Q);
             (Str "2024-05", Num 150%Q)] |}.

Section ServiceExtrasExamples.

Import Predict.

(** X10 applied to the empty cache and the directory holding the
    three-month artifact only. *)
Lemma load_models_empty_cache_witness :
  MODELS (initial Q) = ∅ /\
  MODELS (load_models Q (one_artifact (1605 # 10)%Q) (initial Q)) !! 3
  = (if int_in 3 HORIZONS
     then one_artifact (1605 # 10)%Q !! model_path 3
     else None) /\
  MODELS (load_models Q (one_artifact (1605 # 10)%Q) (initial Q)) !! 3
  = Some (1605 # 10)%Q.
Proof.
  assert (H1 : MODELS (initial Q) = ∅) by reflexivity.
  split; [exact H1|]. split; [|by vm_compute].
  exact (load_models_empty_cache Q (one_artifact (1605 # 10)%Q) (initial Q)
           3 H1).
Defined.

(** X11 applied to a cache holding the three-month model, when the
    one-month artifact has appeared since. *)
Lemma do_GET_stale_cache_witness :
  (MODELS (load_models Q (one_artifact (1605 # 10)%Q) (initial Q)) ≠ ∅) /\
  MODELS (load_models Q (one_artifact (1605 # 10)%Q) (initial Q)) !! 1 = None /\
  two_artifacts (1512 # 10)%Q (1605 # 10)%Q !! model_path 1
  = Some (1512 # 10)%Q /\
  get_horizon decimal_int (request "1") = Ok 1 /\
  1 ∈ HORIZONS /\
  do_GET Q decimal_int constant_predict
    (two_artifacts (1512 # 10)%Q (1605 # 10)%Q) (request "1")
    (service_env [latest 150%Q (55 # 10)%Q])
    (load_models Q (one_artifact (1605 # 10)%Q) (initial Q))
  = (send_error_response 404 ("Model for horizon " ++ pretty 1 ++ " not found"),
     load_models Q (one_artifact (1605 # 10)%Q) (initial Q)).
Proof.
  assert (H1 : MODELS (load_models Q (one_artifact (1605 # 10)%Q) (initial Q))
               ≠ ∅).
  { intros Heq. apply (f_equal (fun m => m !! 3)) in Heq.
    vm_compute in Heq. discriminate. }
  assert (H2 : MODELS (load_models Q (one_artifact (1605 # 10)%Q) (initial Q))
               !! 1 = None) by (vm_compute; reflexivity).
  assert (H3 : two_artifacts (1512 # 10)%Q (1605 # 10)%Q !! model_path 1
               = Some (1512 # 10)%Q) by (vm_compute; reflexivity).
  assert (H4 : get_horizon decimal_int (request "1") = Ok 1)
    by (vm_compute; reflexivity).
  assert (H5 : 1 ∈ HORIZONS) by apply list_elem_of_here.
  do 5 (split; [assumption|]).
  exact (do_GET_stale_cache Q decimal_int constant_predict
           (two_artifacts (1512 # 10)%Q (1605 # 10)%Q) (request "1")
           (service_env [latest 150%Q (55 # 10)%Q])
           (load_models Q (one_artifact (1605 # 10)%Q) (initial Q))
           1 H1 H2 H4 H5).
Defined.

(** X13 applied to the request of the scenario, after a request for the
    one-month horizon that was answered 404. *)
Lemma do_GET_prediction_from_artifact_witness :
  body (fst (do_GET Q decimal_int constant_predict
               (one_artifact (1605 # 10)%Q) (request "3")
               (service_env [latest 150%Q (55 # 10)%Q])
               (serve Q decimal_int constant_predict
                  (one_artifact (1605 # 10)%Q)
                  [(request "1", service_env [latest 150%Q (55 # 10)%Q])]
                  (initial Q))))
  = Success scenario_prediction /\
  get_horizon decimal_int (request "3")
  = Ok (horizon_months scenario_prediction) /\
  horizon_months scenario_prediction ∈ HORIZONS /\
  exists model df,
    one_artifact (1605 # 10)%Q
      !! model_path (horizon_months scenario_prediction) = Some model /\
    fetch_latest_data (service_env [latest 150%Q (55 # 10)%Q]) = Ok df /\
    constant_predict model (features df)
    = Ok (predicted_hpi scenario_prediction).
Proof.
  assert (H1 : body (fst (do_GET Q decimal_int constant_predict
                 (one_artifact (1605 # 10)%Q) (request "3")
                 (service_env [latest 150%Q (55 # 10)%Q])
                 (serve Q decimal_int constant_predict
                    (one_artifact (1605 # 10)%Q)
                    [(request "1", service_env [latest 150%Q (55 # 10)%Q])]
                    (initial Q))))
               = Success scenario_prediction)
    by (vm_compute; reflexivity).
  split; [exact H1|].
  exact (do_GET_prediction_from_artifact Q decimal_int constant_predict
           (one_artifact (1605 # 10)%Q)
           [(request "1", service_env [latest 150%Q (55 # 10)%Q])]
           (request "3") (service_env [latest 150%Q (55 # 10)%Q])
           scenario_prediction H1).
Defined.

(** X14 applied to a request without parameters, where the one-month
    artifact exists. *)
Lemma do_GET_default_horizon_witness :
  (∅ : Query) !! "horizon" = None /\
  decimal_int "1" = Ok 1 /\
  do_GET Q decimal_int constant_predict
    (two_artifacts (1512 # 10)%Q (1605 # 10)%Q) ∅
    (service_env [latest 150%Q (55 # 10)%Q]) (initial Q)
  = do_GET Q decimal_int constant_predict
      (two_artifacts (1512 # 10)%Q (1605 # 10)%Q)
      (<["horizon" := ("1", [])]> ∅)
      (service_env [latest 150%Q (55 # 10)%Q]) (initial Q) /\
  status (fst (do_GET Q decimal_int constant_predict
                 (two_artifacts (1512 # 10)%Q (1605 # 10)%Q) ∅
                 (service_env [latest 150%Q (55 # 10)%Q]) (initial Q)))
  = 200.
Proof.
  assert (H1 : (∅ : Query) !! "horizon" = None) by reflexivity.
  assert (H2 : decimal_int "1" = Ok 1) by reflexivity.
  split; [exact H1|]. split; [exact H2|]. split; [|by vm_compute].
  exact (do_GET_default_horizon Q decimal_int constant_predict
           (two_artifacts (1512 # 10)%Q (1605 # 10)%Q) ∅
           (service_env [latest 150%Q (55 # 10)%Q]) (initial Q) H1 H2).
Defined.

(** X15 applied to the request of the scenario when the store URL is not
    set. *)
Lemma do_GET_missing_credentials_witness :
  get_horizon decimal_int (request "3") = Ok 3 /\
  3 ∈ HORIZONS /\
  MODELS (load_models Q (one_artifact (1605 # 10)%Q) (initial Q)) !! 3
  = Some (1605 # 10)%Q /\
  (unset (SUPABASE_URL (env_without_url [latest 150%Q (55 # 10)%Q])) = true \/
   unset (SUPABASE_SERVICE_ROLE_KEY
            (env_without_url [latest 150%Q (55 # 10)%Q])) = true) /\
  fst (do_GET Q decimal_int constant_predict (one_artifact (1605 # 10)%Q)
         (request "3") (env_without_url [latest 150%Q (55 # 10)%Q])
         (initial Q))
  = send_error_response 400
      "Missing Supabase credentials in environment variables".
Proof.
  assert (H1 : get_horizon decimal_int (request "3") = Ok 3)
    by (vm_compute; reflexivity).
  assert (H2 : 3 ∈ HORIZONS)
    by (apply int_in_elem_of; vm_compute; reflexivity).
  assert (H3 : MODELS (load_models Q (one_artifact (1605 # 10)%Q) (initial Q))
               !! 3 = Some (1605 # 10)%Q) by (vm_compute; reflexivity).
  assert (H4 : unset (SUPABASE_URL (env_without_url [latest 150%Q (55 # 10)%Q]))
               = true \/
               unset (SUPABASE_SERVICE_ROLE_KEY
                        (env_without_url [latest 150%Q (55 # 10)%Q])) = true)
    by (left; reflexivity).
  do 4 (split; [assumption|]).
  exact (do_GET_missing_credentials Q decimal_int constant_predict
           (one_artifact (1605 # 10)%Q) (request "3")
           (env_without_url [latest 150%Q (55 # 10)%Q]) (initial Q)
           3 (1605 # 10)%Q H1 H2 H3 H4).
Defined.

(** X17 applied to the request of the scenario on a table of three
    months. *)
Lemma do_GET_latest_row_witness :
  get_horizon decimal_int (request "3") = Ok 3 /\
  3 ∈ HORIZONS /\
  MODELS (load_models Q (one_artifact (1605 # 10)%Q) (initial Q)) !! 3
  = Some (1605 # 10)%Q /\
  unset (SUPABASE_URL (service_env three_records)) = false /\
  unset (SUPABASE_SERVICE_ROLE_KEY (service_env three_records)) = false /\
  toronto_housing (service_env three_records)
  = ([month_record "2024-03" 148%Q (57 # 10)%Q;
      month_record "2024-04" 149%Q (56 # 10)%Q]
     ++ [month_record "2024-05" 150%Q (55 # 10)%Q])%list /\
  record_get (month_record "2024-05" 150%Q (55 # 10)%Q)
    "housing_price_index_value" = Ok (Num 150%Q) /\
  record_get (month_record "2024-05" 150%Q (55 # 10)%Q) "ref_date"
  = Ok (Str "2024-05") /\
  constant_predict (1605 # 10)%Q
    (features (frame_of_record (month_record "2024-05" 150%Q (55 # 10)%Q)))
  = Ok (1605 # 10)%Q /\
  history (service_env three_records) (get_include_historical (request "3"))
  = Ok None /\
  fst (do_GET Q decimal_int constant_predict (one_artifact (1605 # 10)%Q)
         (request "3") (service_env three_records) (initial Q))
  = send_success_response scenario_prediction.
Proof.
  assert (H1 : get_horizon decimal_int (request "3") = Ok 3)
    by (vm_compute; reflexivity).
  assert (H2 : 3 ∈ HORIZONS)
    by (apply int_in_elem_of; vm_compute; reflexivity).
  assert (H3 : MODELS (load_models Q (one_artifact (1605 # 10)%Q) (initial Q))
               !! 3 = Some (1605 # 10)%Q) by (vm_compute; reflexivity).
  assert (H4 : unset (SUPABASE_URL (service_env three_records)) = false)
    by reflexivity.
  assert (H5 : unset (SUPABASE_SERVICE_ROLE_KEY (service_env three_records))
               = false) by reflexivity.
  assert (H6 : toronto_housing (service_env three_records)
               = ([month_record "2024-03" 148%Q (57 # 10)%Q;
                   month_record "2024-04" 149%Q (56 # 10)%Q]
                  ++ [month_record "2024-05" 150%Q (55 # 10)%Q])%list)
    by reflexivity.
  assert (H7 : record_get (month_record "2024-05" 150%Q (55 # 10)%Q)
                 "housing_price_index_value" = Ok (Num 150%Q))
    by reflexivity.
  assert (H8 : record_get (month_record "2024-05" 150%Q (55 # 10)%Q) "ref_date"
               = Ok (Str "2024-05")) by reflexivity.
  assert (H9 : constant_predict (1605 # 10)%Q
                 (features (frame_of_record
                              (month_record "2024-05" 150%Q (55 # 10)%Q)))
               = Ok (1605 # 10)%Q) by reflexivity.
  assert (H10 : history (service_env three_records)
                  (get_include_historical (request "3")) = Ok None)
    by (vm_compute; reflexivity).
  do 10 (split; [assumption|]).
  exact (do_GET_latest_row Q decimal_int constant_predict
           (one_artifact (1605 # 10)%Q) (request "3")
           (service_env three_records) (initial Q) 3 (1605 # 10)%Q
           [month_record "2024-03" 148%Q (57 # 10)%Q;
            month_record "2024-04" 149%Q (56 # 10)%Q]
           (month_record "2024-05" 150%Q (55 # 10)%Q)
           150%Q (1605 # 10)%Q (Str "2024-05") None
           H1 H2 H3 H4 H5 H6 H7 H8 H9 H10).
Defined.

(** X18 applied to the last two months of a table of three. *)
Lemma fetch_historical_data_last_witness :
  fetch_historical_data (service_env three_records) 2 = Ok last_two_months /\
  length last_two_months
  = Nat.min 2 (length (toronto_housing (service_env three_records))) /\
  Forall2
    (fun r e =>
       record_get r "ref_date" = Ok (fst e) /\
       record_get r "housing_price_index_value" = Ok (snd e))
    (drop (length (toronto_housing (service_env three_records)) - 2)
       (toronto_housing (service_env three_records)))
    last_two_months.
Proof.
  assert (H1 : fetch_historical_data (service_env three_records) 2
               = Ok last_two_months) by (vm_compute; reflexivity).
  split; [exact H1|].
  exact (fetch_historical_data_last (service_env three_records) 2
           last_two_months H1).
Defined.

(** X21 applied to the scenario. *)
Lemma pct_change_sign_witness :
  PrimFloat.is_finite 160.5 = true /\
  PrimFloat.is_finite 150 = true /\
  PrimFloat.ltb 0 150 = true /\
  PrimFloat.is_finite (pct_change 160.5%float 150%float) = true /\
  ((B2Q 150 < B2Q 160.5)%Q ->
   (0 <= B2Q (pct_change 160.5%float 150%float))%Q) /\
  ((B2Q 160.5 < B2Q 150)%Q ->
   (B2Q (pct_change 160.5%float 150%float) <= 0)%Q) /\
  ((B2Q 160.5 == B2Q 150)%Q ->
   (B2Q (pct_change 160.5%float 150%float) == 0)%Q) /\
  ((0 < B2Q (pct_change 160.5%float 150%float))%Q ->
   (B2Q 150 < B2Q 160.5)%Q) /\
  ((B2Q (pct_change 160.5%float 150%float) < 0)%Q ->
   (B2Q 160.5 < B2Q 150)%Q).
Proof.
  assert (H1 : PrimFloat.is_finite 160.5 = true) by (vm_compute; reflexivity).
  assert (H2 : PrimFloat.is_finite 150 = true) by (vm_compute; reflexivity).
  assert (H3 : PrimFloat.ltb 0 150 = true) by (vm_compute; reflexivity).
  assert (H4 : PrimFloat.is_finite (pct_change 160.5%float 150%float) = true)
    by (vm_compute; reflexivity).
  do 4 (split; [assumption|]).
  exact (pct_change_sign 160.5%float 150%float H1 H2 H3 H4).
Defined.

(** X23 applied to the request of the scenario asking for the history, on
    the table of three months. *)
Lemma do_GET_historical_witness :
  body (fst (do_GET Q decimal_int constant_predict
               (one_artifact (1605 # 10)%Q) request_with_history
               (service_env three_records) (initial Q)))
  = Success prediction_with_history /\
  get_include_historical request_with_history = true /\
  if get_include_historical request_with_history
  then exists l,
         historical prediction_with_history = Some l /\
         fetch_historical_data (service_env three_records) 12 = Ok l /\
         length l
         = Nat.min 12 (length (toronto_housing (service_env three_records)))
  else historical prediction_with_history = None.
Proof.
  assert (H1 : body (fst (do_GET Q decimal_int constant_predict
                            (one_artifact (1605 # 10)%Q) request_with_history
                            (service_env three_records) (initial Q)))
               = Success prediction_with_history)
    by (vm_compute; reflexivity).
  split; [exact H1|]. split; [by vm_compute|].
  exact (do_GET_historical Q decimal_int constant_predict
           (one_artifact (1605 # 10)%Q) request_with_history
           (service_env three_records) (initial Q)
           prediction_with_history H1).
Defined.

End ServiceExtrasExamples.
